(** * Claude Code Proxy (GLM-5 router): a shallow embedding of [proxy.py]

    The development follows the layout of the Python module: strings and
    JSON payloads, tier detection and provider selection, the circuit
    breaker, the compatibility predicates, the sanitizer, the object store
    in which the handler mutates its payload, and the request handler with
    its retry loop.  Definitions come first, theorems afterwards. *)

From Stdlib Require Import ZArith Ascii String List Bool Lia.
From stdpp Require Import base option list strings gmap.

Set Warnings "-register-all".

Local Open Scope string_scope.
Local Open Scope Z_scope.
Local Open Scope list_scope.

(* ===================================================================== *)
(** ** Strings *)
(* ===================================================================== *)

Module Str.

(** [c.lower()] on one character of ASCII text. *)
Definition lower_ascii (c : ascii) : ascii :=
  let n := nat_of_ascii c in
  if ((65 <=? n) && (n <=? 90))%nat then ascii_of_nat (n + 32) else c.

(** [s.lower()] on ASCII text: the letters A to Z become a to z and every
    other character stays.  Header names are ASCII, and so are the model
    names of the providers.  On other text [str.lower()] follows the
    Unicode tables (the Kelvin sign U+212A becomes k, for one), which this
    function does not: what is stated about the lower-casing of a name is
    stated for names that pass [isascii]. *)
Fixpoint lower (s : string) : string :=
  match s with
  | EmptyString => EmptyString
  | String c s' => String (lower_ascii c) (lower s')
  end.

(** [s.isascii()]: every character is below U+0080. *)
Definition isascii (s : string) : bool :=
  forallb (fun c => (nat_of_ascii c <? 128)%nat) (list_ascii_of_string s).

(** [s.startswith(p)]. *)
Fixpoint startswith (p s : string) : bool :=
  match p, s with
  | EmptyString, _ => true
  | String a p', String b s' => if Ascii.eqb a b then startswith p' s' else false
  | String _ _, EmptyString => false
  end.

(** [needle in hay]: [needle] occurs at some offset of [hay]. *)
Fixpoint contains (needle hay : string) : bool :=
  startswith needle hay ||
  match hay with
  | EmptyString => false
  | String _ hay' => contains needle hay'
  end.

(** The mathematical notions the two tests decide. *)
Definition Prefix (p s : string) : Prop := exists post, s = p +:+ post.
Definition Substring (n s : string) : Prop := exists pre post, s = pre +:+ n +:+ post.

End Str.

(* ===================================================================== *)
(** ** Tier detection *)
(* ===================================================================== *)

(** [_detect_tier]: the tier is the Python string ["opus"], ["sonnet"] or
    ["haiku"], or [None]. *)
Definition _detect_tier (model_name : string) : option string :=
  let m := Str.lower model_name in
  if Str.contains "opus" m then Some "opus"
  else if Str.contains "sonnet" m then Some "sonnet"
  else if Str.contains "haiku" m then Some "haiku"
  else if Str.startswith "glm" m then Some "sonnet"
  else None.

(* ===================================================================== *)
(** ** JSON payloads *)
(* ===================================================================== *)

(** The value [request.json()] returns.  A Python [dict] keeps its keys in
    insertion order, so an object is an association list; a [float] is
    carried by its IEEE-754 bit pattern. *)
Inductive json : Type :=
| JNull
| JBool (b : bool)
| JInt (n : Z)
| JFloat (bits : Z)
| JStr (s : string)
| JList (xs : list json)
| JDict (kvs : list (string * json)).

Abbreviation dict := (list (string * json)).

(** The dictionary operations the handler uses, on association lists with
    values of any type (JSON values here, references in the object store). *)
Module Dict.
Section Ops.

Context {A : Type}.
Implicit Type d : list (string * A).

(** [d.get(key)]: the entry a lookup finds. *)
Fixpoint get (key : string) d : option A :=
  match d with
  | [] => None
  | (k, v) :: d' => if String.eqb key k then Some v else get key d'
  end.

(** [key in d]. *)
Definition has (key : string) d : bool :=
  match get key d with Some _ => true | None => false end.

(** [if key in d: d.pop(key)]: afterwards [key] is not in [d].  (The keys
    of a Python dictionary are distinct; on such a list one entry goes.) *)
Fixpoint pop (key : string) d : list (string * A) :=
  match d with
  | [] => []
  | (k, v) :: d' => if String.eqb key k then pop key d' else (k, v) :: pop key d'
  end.

(** In-place change of the value stored under [key] (the entry [get]
    finds); the key keeps its position. *)
Fixpoint alter (f : A -> A) (key : string) d : list (string * A) :=
  match d with
  | [] => []
  | (k, v) :: d' =>
      if String.eqb key k then (k, f v) :: d' else (k, v) :: alter f key d'
  end.

(** [d[key] = v]: overwrite in place, or append a new key. *)
Definition set (key : string) (v : A) d : list (string * A) :=
  if has key d then alter (fun _ => v) key d else d ++ [(key, v)].

End Ops.
End Dict.

(** [isinstance(v, dict)] *)
Definition is_dict (v : json) : bool :=
  match v with JDict _ => true | _ => false end.

(** [v == s] for a Python string [s]. *)
Definition eq_str (v : json) (s : string) : bool :=
  match v with JStr s' => String.eqb s' s | _ => false end.

(** [v in (s1, s2, ...)] for a tuple of strings. *)
Definition in_strs (v : json) (ss : list string) : bool :=
  existsb (eq_str v) ss.

(** Truth value of a JSON value in a condition. *)
Definition truthy (v : json) : bool :=
  match v with
  | JNull => false
  | JBool b => b
  | JInt n => negb (n =? 0)
  | JFloat bits => negb ((bits =? 0) || (bits =? 2 ^ 63))
  | JStr s => negb (String.eqb s "")
  | JList xs => match xs with [] => false | _ => true end
  | JDict kvs => match kvs with [] => false | _ => true end
  end.

(** [for x in v]: the items a loop over [v] visits, or [None] when [v] is
    not iterable ([TypeError]).  A dict yields its keys and a string its
    characters. *)
Definition py_iter (v : json) : option (list json) :=
  match v with
  | JList xs => Some xs
  | JDict kvs => Some (map (fun kv => JStr (fst kv)) kvs)
  | JStr s => Some (map (fun c => JStr (String c EmptyString)) (list_ascii_of_string s))
  | _ => None
  end.

(** [str(v).startswith("web_search")].  For a value that is not a string,
    [str(v)] starts with a digit, a sign, a bracket, a brace or one of
    True, False, None, nan, inf: never with the marker. *)
Definition str_startswith_web_search (v : json) : bool :=
  match v with JStr s => Str.startswith "web_search" s | _ => false end.

(** [isinstance(t, dict) and str(t.get("type", "")).startswith("web_search")] *)
Definition is_web_search_tool (t : json) : bool :=
  match t with
  | JDict kvs => str_startswith_web_search (default (JStr "") (Dict.get "type" kvs))
  | _ => false
  end.

(** The condition of the list comprehension that drops web-search tools. *)
Definition not_web_search (t : json) : bool := negb (is_web_search_tool t).

(* ===================================================================== *)
(** ** Incompatibility detection *)
(* ===================================================================== *)

Definition _has_web_search (data : dict) : option bool :=
  tools ← py_iter (default (JList []) (Dict.get "tools" data));
  Some (existsb is_web_search_tool tools).

Definition image_block (block : json) : bool :=
  match block with
  | JDict b =>
      in_strs (default (JStr "") (Dict.get "type" b)) ["image"; "image_url"]
      || match default (JDict []) (Dict.get "source" b) with
         | JDict src => in_strs (default JNull (Dict.get "type" src)) ["base64"; "url"]
         | _ => false
         end
  | _ => false
  end.

Definition image_message (msg : json) : bool :=
  match msg with
  | JDict m =>
      match Dict.get "content" m with
      | Some (JList content) => existsb image_block content
      | _ => false
      end
  | _ => false
  end.

Definition _has_image_content (data : dict) : option bool :=
  msgs ← py_iter (default (JList []) (Dict.get "messages" data));
  Some (existsb image_message msgs).

Definition _has_forced_tool_choice (data : dict) : bool :=
  match Dict.get "tool_choice" data with
  | Some (JDict tc) => negb (in_strs (default (JStr "") (Dict.get "type" tc)) ["auto"; ""])
  | Some (JStr tc) => negb (in_strs (JStr tc) ["auto"; ""])
  | _ => false
  end.

(* ===================================================================== *)
(** ** Z.AI request sanitization (value semantics) *)
(* ===================================================================== *)

(** The sanitizer edits its argument in place.  On a payload that is a tree
    (what a JSON parser builds) an in-place edit of a nested object is the
    replacement of that sub-tree, which is how the functions below are
    written; the object store further down keeps the mutation explicit. *)

Definition unsupported_keys : list string :=
  ["metadata"; "prompt_caching"; "service_tier"; "context_management"; "output_config"].

(** [if "budget_tokens" in data["thinking"]: data["thinking"].pop(...)],
    guarded by [isinstance(data["thinking"], dict)]. *)
Definition strip_budget (thinking : json) : json :=
  match thinking with
  | JDict th => JDict (Dict.pop "budget_tokens" th)
  | _ => thinking
  end.

(** The list comprehension over [data["tools"]], guarded by
    [isinstance(data["tools"], list)]. *)
Definition drop_web_search (tools : json) : json :=
  match tools with
  | JList ts => JList (List.filter not_web_search ts)
  | _ => tools
  end.

(** [if isinstance(block, dict) and "cache_control" in block: block.pop(...)] *)
Definition strip_block (block : json) : json :=
  match block with
  | JDict b => JDict (Dict.pop "cache_control" b)
  | _ => block
  end.

Definition strip_blocks (v : json) : json :=
  match v with
  | JList blocks => JList (map strip_block blocks)
  | _ => v
  end.

(** The [system] prompt: a list of blocks, or one object. *)
Definition strip_system (system : json) : json :=
  match system with
  | JList blocks => JList (map strip_block blocks)
  | JDict s => JDict (Dict.pop "cache_control" s)
  | _ => system
  end.

(** One message: its own annotation, then the blocks of a list content. *)
Definition strip_message (msg : json) : json :=
  match msg with
  | JDict m => JDict (Dict.alter strip_blocks "content" (Dict.pop "cache_control" m))
  | _ => msg
  end.

Definition strip_messages (v : json) : json :=
  match v with
  | JList msgs => JList (map strip_message msgs)
  | _ => v
  end.

(** [for x in data.get(key, [])] raises on a value that cannot be iterated;
    the edits of the loop body only reach the items of a list. *)
Definition strip_each (f : json -> json) (key : string) (data : dict) : option dict :=
  _ ← py_iter (default (JList []) (Dict.get key data));
  Some (Dict.alter f key data).

Definition _strip_cache_control (data : dict) : option dict :=
  let data := Dict.alter strip_system "system" data in
  data ← strip_each strip_messages "messages" data;
  strip_each strip_blocks "tools" data.

(** The [tools] stage of [sanitize_for_zai]. *)
Definition strip_tools (data : dict) : dict :=
  match Dict.get "tools" data with
  | Some (JList _) =>
      let data := Dict.alter drop_web_search "tools" data in
      match Dict.get "tools" data with
      | Some (JList []) => Dict.pop "tool_choice" (Dict.pop "tools" data)
      | _ =>
          match Dict.get "tool_choice" data with
          | Some (JDict tc) =>
              if eq_str (default JNull (Dict.get "name" tc)) "web_search"
              then Dict.pop "tool_choice" data
              else data
          | _ => data
          end
      end
  | _ => data
  end.

Definition sanitize_for_zai (data : dict) : option dict :=
  let data := fold_left (fun d key => Dict.pop key d) unsupported_keys data in
  let data := Dict.alter strip_budget "thinking" data in
  let data := Dict.pop "extended_thinking" data in
  let data := strip_tools data in
  _strip_cache_control data.

(* ===================================================================== *)
(** ** Configuration and provider selection *)
(* ===================================================================== *)

(** The module-level settings read from the environment at import time. *)
Record Config : Type := {
  HAIKU_API_KEY : option string;
  HAIKU_BASE_URL : option string;
  SONNET_API_KEY : option string;
  SONNET_BASE_URL : option string;
  OPUS_API_KEY : option string;
  OPUS_BASE_URL : option string;
  ZAI_TARGET_MODEL : string;
  MAX_RETRIES : Z
}.

Definition ANTHROPIC_BASE_URL : string := "https://api.anthropic.com".

(** The tuple [get_provider_config] returns (the semaphore is left out:
    requests are modelled one at a time). *)
Record provider : Type := {
  api_key : option string;
  base_url : string;
  provider_label : string
}.

(** [if BASE_URL:] holds for a variable that is set and not empty. *)
Definition configured (key url : option string) (label : string) : option provider :=
  match url with
  | Some u => if String.eqb u "" then None
              else Some {| api_key := key; base_url := u; provider_label := label |}
  | None => None
  end.

(** [None] is the passthrough to Anthropic.  The labels only appear in log
    lines; the arrow of the source is written in ASCII here. *)
Definition get_provider_config (cfg : Config) (model_name : string) : option provider :=
  match _detect_tier model_name with
  | Some tier =>
      if String.eqb tier "opus" then configured (OPUS_API_KEY cfg) (OPUS_BASE_URL cfg) "Opus->Z.AI"
      else if String.eqb tier "sonnet" then configured (SONNET_API_KEY cfg) (SONNET_BASE_URL cfg) "Sonnet->Z.AI"
      else if String.eqb tier "haiku" then configured (HAIKU_API_KEY cfg) (HAIKU_BASE_URL cfg) "Haiku->Z.AI"
      else None
  | None => None
  end.

(* ===================================================================== *)
(** ** Circuit breaker *)
(* ===================================================================== *)

(** Time stamps are integers (ticks of the clock at any fixed resolution):
    the breaker only subtracts and compares them.  Each method that calls
    [time.time()] takes the reading as [now]. *)
Module CircuitBreaker.

Record t : Type := {
  threshold : Z;
  recovery_time : Z;
  _failures : gmap string Z;
  _opened_at : gmap string Z
}.

Definition init (threshold recovery_time : Z) : t :=
  {| threshold := threshold; recovery_time := recovery_time;
     _failures := ∅; _opened_at := ∅ |}.

Definition is_open (now : Z) (tier : string) (self : t) : bool * t :=
  match _opened_at self !! tier with
  | None => (false, self)
  | Some opened =>
      let elapsed := now - opened in
      if recovery_time self <=? elapsed
      then (false, {| threshold := threshold self;
                      recovery_time := recovery_time self;
                      _failures := <[tier := 0]> (_failures self);
                      _opened_at := delete tier (_opened_at self) |})
      else (true, self)
  end.

Definition record_failure (now : Z) (tier : string) (self : t) : t :=
  let count := default 0 (_failures self !! tier) + 1 in
  let opened :=
    if (threshold self <=? count) && negb (bool_decide (is_Some (_opened_at self !! tier)))
    then <[tier := now]> (_opened_at self)
    else _opened_at self in
  {| threshold := threshold self;
     recovery_time := recovery_time self;
     _failures := <[tier := count]> (_failures self);
     _opened_at := opened |}.

Definition record_success (tier : string) (self : t) : t :=
  {| threshold := threshold self;
     recovery_time := recovery_time self;
     _failures := if bool_decide (is_Some (_failures self !! tier))
                  then <[tier := 0]> (_failures self)
                  else _failures self;
     _opened_at := delete tier (_opened_at self) |}.

(** [self._failures.get(tier, 0)], the count [status] reports. *)
Definition failures (tier : string) (self : t) : Z :=
  default 0 (_failures self !! tier).

(** What [status] reports for one tier.  The two f-strings are kept as
    their data: the remaining time of an open circuit, or the failure count
    and the threshold of a closed one. *)
Inductive report : Type :=
| OPEN (remaining : Z)
| CLOSED (failures threshold : Z).

(** The loop of [status] over its tuple of tiers.  [clock tier] gives the
    two readings of [time.time()] taken for [tier]: the one inside
    [is_open] and the one in the computation of [remaining].  [None] is the
    [KeyError] of [self._opened_at[tier]]. *)
Fixpoint status_loop (clock : string -> Z * Z) (tiers : list string)
         (result : list (string * report)) (self : t)
  : option (list (string * report)) * t :=
  match tiers with
  | [] => (Some result, self)
  | tier :: tiers' =>
      let '(open, self) := is_open (fst (clock tier)) tier self in
      if (open : bool) then
        match _opened_at self !! tier with
        | Some opened =>
            let remaining := recovery_time self - (snd (clock tier) - opened) in
            status_loop clock tiers' (Dict.set tier (OPEN remaining) result) self
        | None => (None, self)
        end
      else
        status_loop clock tiers'
                    (Dict.set tier (CLOSED (failures tier self) (threshold self)) result) self
  end.

Definition status (clock : string -> Z * Z) (self : t)
  : option (list (string * report)) * t :=
  status_loop clock ["haiku"; "sonnet"; "opus"] [] self.

(** The calls a breaker receives, for stating properties of histories. *)
Inductive call : Type :=
| IsOpen (now : Z) (tier : string)
| RecordFailure (now : Z) (tier : string)
| RecordSuccess (tier : string).

Definition step (self : t) (c : call) : t :=
  match c with
  | IsOpen now tier => snd (is_open now tier self)
  | RecordFailure now tier => record_failure now tier self
  | RecordSuccess tier => record_success tier self
  end.

Definition run (calls : list call) (self : t) : t := fold_left step calls self.

Definition call_tier (c : call) : string :=
  match c with
  | IsOpen _ tier | RecordFailure _ tier | RecordSuccess tier => tier
  end.

End CircuitBreaker.

(* ===================================================================== *)
(** ** HTTP messages and the handler's surroundings *)
(* ===================================================================== *)

Abbreviation headers := (list (string * string)).

(** [headers.get(name)] / [name in headers] on lower-case header names. *)
Fixpoint header (name : string) (hs : headers) : option string :=
  match hs with
  | [] => None
  | (k, v) :: hs' => if String.eqb (Str.lower k) name then Some v else header name hs'
  end.

Definition strip_encoding_headers (hs : headers) : headers :=
  List.filter (fun kv =>
            negb (existsb (String.eqb (Str.lower (fst kv)))
                          ["content-encoding"; "transfer-encoding"; "content-length"]))
         hs.

Definition _build_anthropic_headers (original_headers : headers) : headers :=
  [("Content-Type", "application/json")]
  ++ match header "authorization" original_headers with
     | Some v => [("Authorization", v)]
     | None => []
     end
  ++ flat_map (fun h => match header h original_headers with
                        | Some v => [(h, v)]
                        | None => []
                        end)
              ["anthropic-version"; "anthropic-beta"; "x-api-key"].

(** What an upstream answers. *)
Record response : Type := {
  status_code : Z;
  content : string;
  resp_headers : headers
}.

(** The exceptions the handler distinguishes; [OtherError] stands for any
    exception caught by the final [except Exception], with its text. *)
Inductive exn : Type :=
| ReadTimeout
| ConnectTimeout
| HTTPStatusError (r : response)
| OtherError (msg : string).

(** What one upstream call does.  A response comes with its whole body:
    reading the body of a streamed error response ([aread]) and relaying a
    stream are not points of failure of their own. *)
Inductive outcome : Type :=
| Returns (r : response)
| Raises (e : exn).

Inductive upstream : Type := Anthropic | ZAI.

(** One call of [client.send] / [client.post]. *)
Record request : Type := {
  dest : upstream;
  url : string;
  payload : dict;
  req_headers : headers;
  streamed : bool
}.

(** The argument of [asyncio.sleep]: the parsed [Retry-After] value, or
    [calculate_retry_delay(attempt)], a random number drawn from
    [[0, min(MAX_RETRY_DELAY, BASE_RETRY_DELAY * 2 ** attempt)]] that is
    kept symbolic. *)
Inductive delay : Type :=
| RetryAfter (seconds : Z * Z)
| Backoff (attempt : Z).

Inductive event : Type :=
| Sent (rq : request)
| Slept (d : delay).

(** What the handler returns to the client. [StreamingResponse] relays the
    body of the upstream response chunk by chunk; [Unhandled] is an
    exception that escapes the handler. *)
Inductive reply : Type :=
| Response (body : string) (status : Z) (hs : headers)
| StreamingResponse (from : response)
| JSONResponse (status : Z) (error : string)
| Unhandled.

(** The network and the clock as the handler observes them: the outcome of
    its [n]-th call to an upstream (counted from 0), and the reading of
    [time.time()] once [n] calls have been issued. *)
Record world : Type := {
  answer : nat -> outcome;
  clock : nat -> Z
}.

(** The state a request threads through: the process-wide breaker, the
    calls and sleeps performed so far, and the number of calls. *)
Record state : Type := {
  breaker : CircuitBreaker.t;
  trace : list event;
  nsent : nat
}.

(** The calls of a trace, in order, and how many went to one upstream. *)
Definition sends (evs : list event) : list request :=
  flat_map (fun e => match e with Sent rq => [rq] | Slept _ => [] end) evs.

Definition to (u : upstream) (rq : request) : bool :=
  match dest rq, u with
  | Anthropic, Anthropic | ZAI, ZAI => true
  | _, _ => false
  end.

Definition calls_to (u : upstream) (evs : list event) : nat :=
  List.length (List.filter (to u) (sends evs)).

Definition relay (r : response) : reply :=
  Response (content r) (status_code r) (strip_encoding_headers (resp_headers r)).

(** The test both paths apply to an error body. *)
Definition quoted (s : string) : string :=
  String (ascii_of_nat 34) s +:+ String (ascii_of_nat 34) EmptyString.

Definition marker_tight : string := quoted "code" +:+ ":" +:+ quoted "500".
Definition marker_spaced : string := quoted "code" +:+ ": " +:+ quoted "500".

Definition has_marker (body : string) : bool :=
  Str.contains marker_tight body || Str.contains marker_spaced body.

(** [_is_zai_server_error]: the marker counts on four status codes only. *)
Definition _is_zai_server_error (r : response) : bool :=
  existsb (Z.eqb (status_code r)) [400; 500; 502; 503] && has_marker (content r).

(* ===================================================================== *)
(** ** The request handler *)
(* ===================================================================== *)

Section Handler.

(** [float(retry_after)]: the value as a fraction, or [None] for a text
    Python does not read as a number ([ValueError]).  The texts [float]
    reads as an infinity or as not-a-number have no fraction and are left
    out of the model. *)
Variable py_float : string -> option (Z * Z).
Variable cfg : Config.
Variable env : world.

Definition send (rq : request) (st : state) : outcome * state :=
  (answer env (nsent st),
   {| breaker := breaker st; trace := trace st ++ [Sent rq]; nsent := S (nsent st) |}).

Definition sleep (d : delay) (st : state) : state :=
  {| breaker := breaker st; trace := trace st ++ [Slept d]; nsent := nsent st |}.

(** [if tier: circuit_breaker.record_failure(tier)] *)
Definition record_failure (tier : option string) (st : state) : state :=
  match tier with
  | Some t =>
      {| breaker := CircuitBreaker.record_failure (clock env (nsent st)) t (breaker st);
         trace := trace st; nsent := nsent st |}
  | None => st
  end.

Definition record_success (tier : option string) (st : state) : state :=
  match tier with
  | Some t =>
      {| breaker := CircuitBreaker.record_success t (breaker st);
         trace := trace st; nsent := nsent st |}
  | None => st
  end.

Definition anthropic_url : string := ANTHROPIC_BASE_URL +:+ "/v1/messages".

Section Loop.

(** The locals of [proxy_messages] that are fixed when the loop starts. *)
Variable is_streaming : bool.
Variable is_zai_route : bool.
Variable tier : option string.
Variable target : upstream.
Variable target_url : string.
Variable target_headers : headers.
Variable data : dict.
Variable original_data : dict.
Variable original_headers : headers.

Definition fallback_request (stream : bool) : request :=
  {| dest := Anthropic; url := anthropic_url; payload := original_data;
     req_headers := _build_anthropic_headers original_headers
                    ++ (if stream then [("Accept", "text/event-stream")] else []);
     streamed := stream |}.

Definition target_request : request :=
  {| dest := target; url := target_url; payload := data;
     req_headers := target_headers
                    ++ (if is_streaming then [("Accept", "text/event-stream")] else []);
     streamed := is_streaming |}.

(** One pass through the loop body ends in a [return] ([Some reply]) or in
    a [continue] ([None]). *)

(** [attempt < MAX_RETRIES - 1]: another iteration follows this one. *)
Definition more (attempt : Z) : bool := attempt <? MAX_RETRIES cfg - 1.

(** [await asyncio.sleep(calculate_retry_delay(attempt)); continue] *)
Definition backoff (attempt : Z) (st : state) : option reply * state :=
  (None, sleep (Backoff attempt) st).

(** The [except] clauses of the outer [try]. *)
Definition on_exception (e : exn) (attempt : Z) (st : state) : option reply * state :=
  match e with
  | ReadTimeout =>
      let st := if is_zai_route then record_failure tier st else st in
      if more attempt then backoff attempt st
      else if is_zai_route then
        let '(o, st) := send (fallback_request false) st in
        match o with
        | Returns fb => (Some (relay fb), st)
        | Raises _ => (Some (JSONResponse 504 "Gateway timeout"), st)
        end
      else (Some (JSONResponse 504 "Gateway timeout"), st)
  | ConnectTimeout =>
      if more attempt then backoff attempt st
      else (Some (JSONResponse 504 "Gateway timeout"), st)
  | HTTPStatusError r => (Some (relay r), st)
  | OtherError msg =>
      if more attempt then backoff attempt st
      else (Some (JSONResponse 500 ("Proxy error: " +:+ msg)), st)
  end.

(** The streaming branch of the loop body. *)
Definition stream_attempt (attempt : Z) (st : state) : option reply * state :=
  let '(o, st) := send target_request st in
  match o with
  | Raises ReadTimeout =>
      if more attempt then backoff attempt st
      else (Some (JSONResponse 504 "Gateway timeout: read-timeout"), st)
  | Raises ConnectTimeout =>
      if more attempt then backoff attempt st
      else (Some (JSONResponse 504 "Gateway timeout: connect-timeout"), st)
  | Raises e => on_exception e attempt st
  | Returns r =>
      if 400 <=? status_code r then
        if is_zai_route && has_marker (content r) then
          let st := record_failure tier st in
          let '(o, st) := send (fallback_request true) st in
          match o with
          | Returns fb =>
              if status_code fb <? 400 then (Some (StreamingResponse fb), st)
              else (Some (relay fb), st)
          | Raises e => on_exception e attempt st
          end
        else (Some (relay r), st)
      else
        let st := if is_zai_route then record_success tier st else st in
        (Some (StreamingResponse r), st)
  end.

(** The delay before the retry of a 429: [float(retry_after)] when the
    header is there and not empty; [None] is the [ValueError] of a header
    that is not a number. *)
Definition retry_after_delay (r : response) (attempt : Z) : option delay :=
  match header "retry-after" (resp_headers r) with
  | Some (String c s) => RetryAfter <$> py_float (String c s)
  | _ => Some (Backoff attempt)
  end.

(** The buffered branch of the loop body. *)
Definition post_attempt (attempt : Z) (st : state) : option reply * state :=
  let '(o, st) := send target_request st in
  match o with
  | Raises e => on_exception e attempt st
  | Returns r =>
      if (status_code r =? 429) && more attempt then
        match retry_after_delay r attempt with
        | Some d => (None, sleep d st)
        | None => on_exception (OtherError "could not convert string to float") attempt st
        end
      else if (400 <=? status_code r) && is_zai_route && _is_zai_server_error r then
        let st := record_failure tier st in
        let '(o, st) := send (fallback_request false) st in
        match o with
        | Returns fb => (Some (relay fb), st)
        | Raises e => on_exception e attempt st
        end
      else
        let st := if (status_code r <? 400) && is_zai_route
                  then record_success tier st else st in
        (Some (relay r), st)
  end.

Definition one_attempt (attempt : Z) (st : state) : option reply * state :=
  if is_streaming then stream_attempt attempt st else post_attempt attempt st.

(** [for attempt in range(MAX_RETRIES)]: [left] iterations remain. *)
Fixpoint attempts (left : nat) (attempt : Z) (st : state) : reply * state :=
  match left with
  | O => (JSONResponse 500 "Max retries exceeded", st)
  | S left' =>
      match one_attempt attempt st with
      | (Some reply, st) => (reply, st)
      | (None, st) => attempts left' (attempt + 1) st
      end
  end.

End Loop.

(** The headers of a call to the secondary provider. *)
Definition zai_headers (p : provider) (original_headers : headers) : headers :=
  [("Content-Type", "application/json")]
  ++ match api_key p with
     | Some (String c k) =>
         [("Authorization", "Bearer " +:+ String c k); ("x-api-key", String c k)]
     | _ => []
     end
  ++ match header "anthropic-version" original_headers with
     | Some v => [("anthropic-version", v)]
     | None => []
     end.

(** The [if / elif / elif] over the three predicates; the outer [option]
    is the [TypeError] of a loop over a value that is not iterable. *)
Definition bypass_reason (data : dict) : option (option string) :=
  ws ← _has_web_search data;
  if (ws : bool) then Some (Some "web_search")
  else
    img ← _has_image_content data;
    if (img : bool) then Some (Some "vision/image")
    else if _has_forced_tool_choice data then Some (Some "forced_tool_choice")
    else Some None.

(** Lines 449-472: the provider the request goes to, after the bypass and
    the breaker.  [is_open] is called, and may close the circuit, only
    when a secondary provider is still selected. *)
Definition resolve (cb : CircuitBreaker.t) (original_model : string) (data : dict)
  : option (option provider * CircuitBreaker.t) :=
  let provider_config := get_provider_config cfg original_model in
  reason ← match provider_config with
           | Some _ => bypass_reason data
           | None => Some None
           end;
  let provider_config :=
    match reason with Some _ => None | None => provider_config end in
  match provider_config, _detect_tier original_model with
  | Some p, Some tier =>
      let '(is_open, cb) := CircuitBreaker.is_open (clock env 0) tier cb in
      Some (if is_open then None else Some p, cb)
  | _, _ => Some (provider_config, cb)
  end.

Definition proxy_messages (cb : CircuitBreaker.t) (body : dict) (original_headers : headers)
  : reply * state :=
  let data := body in
  match default (JStr "") (Dict.get "model" data) with
  | JStr original_model =>
      let is_streaming := truthy (default (JBool false) (Dict.get "stream" data)) in
      (* the deep copy taken before any change to [data]; see [Store] *)
      let original_data := data in
      match resolve cb original_model data with
      | None => (Unhandled, {| breaker := cb; trace := []; nsent := 0 |})
      | Some (provider_config, cb) =>
          let st := {| breaker := cb; trace := []; nsent := 0 |} in
          let tier := _detect_tier original_model in
          match provider_config with
          | Some p =>
              let data := Dict.set "model" (JStr (ZAI_TARGET_MODEL cfg)) data in
              match sanitize_for_zai data with
              | Some data =>
                  attempts is_streaming true tier ZAI (base_url p +:+ "/v1/messages")
                           (zai_headers p original_headers) data original_data
                           original_headers (Z.to_nat (MAX_RETRIES cfg)) 0 st
              | None => (Unhandled, st)
              end
          | None =>
              attempts is_streaming false tier Anthropic anthropic_url
                       (_build_anthropic_headers original_headers) data original_data
                       original_headers (Z.to_nat (MAX_RETRIES cfg)) 0 st
          end
      end
  | _ => (Unhandled, {| breaker := cb; trace := []; nsent := 0 |})
  end.

End Handler.

(* ===================================================================== *)
(** ** The object store: payloads as Python holds them *)
(* ===================================================================== *)

(** Dictionaries and lists are objects with an identity; a variable, a
    dictionary entry or a list slot holds a reference to one.  The sanitizer
    edits objects in place, so whether the copy kept for the fallback shares
    objects with the working payload is decided here. *)
Module Store.

Inductive value : Type :=
| VNull
| VBool (b : bool)
| VInt (n : Z)
| VFloat (bits : Z)
| VStr (s : string)
| VRef (l : nat).

Inductive object : Type :=
| ODict (items : list (string * value))
| OList (elems : list value).

(** The store: the object with identity [l] sits at index [l]. *)
Abbreviation store := (list object).

Definition alloc (o : object) (h : store) : value * store :=
  (VRef (List.length h), h ++ [o]).

(** Build the items of a container one after the other, each in the store
    the previous one left. *)
Definition thread {A B : Type} (f : A -> store -> B * store)
  : list A -> store -> list B * store :=
  fix go (xs : list A) (h : store) : list B * store :=
    match xs with
    | [] => ([], h)
    | x :: xs' =>
        let '(v, h) := f x h in
        let '(vs, h) := go xs' h in
        (v :: vs, h)
    end.

(** [json.loads]: one new object per JSON object or array. *)
Fixpoint load (j : json) (h : store) : value * store :=
  match j with
  | JNull => (VNull, h)
  | JBool b => (VBool b, h)
  | JInt n => (VInt n, h)
  | JFloat bits => (VFloat bits, h)
  | JStr s => (VStr s, h)
  | JList xs =>
      let '(vs, h) := thread load xs h in
      alloc (OList vs) h
  | JDict kvs =>
      let '(items, h) :=
        thread (fun kv h => let '(v, h) := load (snd kv) h in ((fst kv, v), h)) kvs h in
      alloc (ODict items) h
  end.

(** [json.dumps]: the tree reached from [v]; [None] when the references
    nest deeper than [fuel] (a circular structure) or dangle. *)
Fixpoint dump (fuel : nat) (h : store) (v : value) : option json :=
  match fuel with
  | O => None
  | S fuel' =>
      match v with
      | VNull => Some JNull
      | VBool b => Some (JBool b)
      | VInt n => Some (JInt n)
      | VFloat bits => Some (JFloat bits)
      | VStr s => Some (JStr s)
      | VRef l =>
          match h !! l with
          | Some (OList vs) => JList <$> mapM (dump fuel' h) vs
          | Some (ODict items) =>
              JDict <$> mapM (fun kv => pair (fst kv) <$> dump fuel' h (snd kv)) items
          | None => None
          end
      end
  end.

(** [isinstance(v, dict)] and [isinstance(v, list)], with the contents. *)
Definition items_of (h : store) (v : value) : option (list (string * value)) :=
  match v with
  | VRef l => match h !! l with Some (ODict items) => Some items | _ => None end
  | _ => None
  end.

Definition elems_of (h : store) (v : value) : option (list value) :=
  match v with
  | VRef l => match h !! l with Some (OList vs) => Some vs | _ => None end
  | _ => None
  end.

(** [v.get(key)] for a dictionary [v]. *)
Definition lookup (key : string) (v : value) (h : store) : option value :=
  items ← items_of h v; Dict.get key items.

(** [if isinstance(v, dict) and key in v: v.pop(key)] *)
Definition pop (key : string) (v : value) (h : store) : store :=
  match v with
  | VRef l =>
      match h !! l with
      | Some (ODict items) => <[l := ODict (Dict.pop key items)]> h
      | _ => h
      end
  | _ => h
  end.

(** [v[key] = x] for a dictionary [v]. *)
Definition set_item (key : string) (x : value) (v : value) (h : store) : store :=
  match v with
  | VRef l =>
      match h !! l with
      | Some (ODict items) => <[l := ODict (Dict.set key x items)]> h
      | _ => h
      end
  | _ => h
  end.

(** A [for] loop whose body edits the store. *)
Definition for_each (body : value -> store -> store) (vs : list value) (h : store) : store :=
  fold_left (fun h v => body v h) vs h.

(** Whether [for x in v] can run. *)
Definition iterable (h : store) (v : value) : bool :=
  match v with
  | VStr _ => true
  | VRef l => bool_decide (is_Some (h !! l))
  | _ => false
  end.

Definition is_web_search_tool (h : store) (t : value) : bool :=
  match items_of h t with
  | Some items =>
      match default (VStr "") (Dict.get "type" items) with
      | VStr s => Str.startswith "web_search" s
      | _ => false
      end
  | None => false
  end.

Definition strip_block (block : value) (h : store) : store :=
  pop "cache_control" block h.

Definition strip_message (msg : value) (h : store) : store :=
  match items_of h msg with
  | Some _ =>
      let h := pop "cache_control" msg h in
      match lookup "content" msg h with
      | Some c =>
          match elems_of h c with
          | Some blocks => for_each strip_block blocks h
          | None => h
          end
      | None => h
      end
  | None => h
  end.

(** [for x in data.get(key, [])] with the loop body [body]. *)
Definition strip_each (body : value -> store -> store) (key : string)
           (data : value) (h : store) : option store :=
  match lookup key data h with
  | None => Some h
  | Some v =>
      match elems_of h v with
      | Some xs => Some (for_each body xs h)
      | None => if iterable h v then Some h else None
      end
  end.

Definition _strip_cache_control (data : value) (h : store) : option store :=
  let h :=
    match lookup "system" data h with
    | Some system =>
        match elems_of h system with
        | Some blocks => for_each strip_block blocks h
        | None => pop "cache_control" system h
        end
    | None => h
    end in
  h ← strip_each strip_message "messages" data h;
  strip_each strip_block "tools" data h.

Definition sanitize_for_zai (data : value) (h : store) : option store :=
  let h := fold_left (fun h key => pop key data h) unsupported_keys h in
  let h := match lookup "thinking" data h with
           | Some thinking => pop "budget_tokens" thinking h
           | None => h
           end in
  let h := pop "extended_thinking" data h in
  let h :=
    match lookup "tools" data h with
    | Some tools =>
        match elems_of h tools with
        | Some ts =>
            let kept := List.filter (fun t => negb (is_web_search_tool h t)) ts in
            let '(fresh, h) := alloc (OList kept) h in
            let h := set_item "tools" fresh data h in
            match kept with
            | [] => pop "tool_choice" data (pop "tools" data h)
            | _ =>
                match lookup "tool_choice" data h with
                | Some tc =>
                    match lookup "name" tc h with
                    | Some (VStr s) =>
                        if String.eqb s "web_search"
                        then pop "tool_choice" data h else h
                    | _ => h
                    end
                | None => h
                end
            end
        | None => h
        end
    | None => h
    end in
  _strip_cache_control data h.

(** The first lines of [proxy_messages] on the secondary route: parse the
    body, keep a copy made by serialising and parsing again, overwrite the
    model name, sanitize. *)
Definition prepare (body : dict) (target_model : string) : option (store * value * value) :=
  let '(data, h) := load (JDict body) [] in
  text ← dump (S (List.length h)) h data;
  let '(original_data, h) := load text h in
  let h := set_item "model" (VStr target_model) data h in
  h ← sanitize_for_zai data h;
  Some (h, data, original_data).

(** What [json=...] serialises when a request is built. *)
Definition serialise (h : store) (v : value) : option json :=
  dump (S (List.length h)) h v.

End Store.

(* ===================================================================== *)
(** ** Startup validation, token counting and the health endpoint *)
(* ===================================================================== *)

(** Truth value of a setting read with [os.getenv]: set and not empty. *)
Definition env_set (v : option string) : bool :=
  match v with
  | Some (String _ _) => true
  | _ => false
  end.

(** [validate_config]: the warnings it logs, and its result. *)
Definition validate_config (cfg : Config) : list string * bool :=
  let tiers := [("Haiku", HAIKU_BASE_URL cfg, HAIKU_API_KEY cfg);
                ("Sonnet", SONNET_BASE_URL cfg, SONNET_API_KEY cfg);
                ("Opus", OPUS_BASE_URL cfg, OPUS_API_KEY cfg)] in
  let warnings :=
    flat_map (fun '(name, base_url, api_key) =>
                (if env_set base_url && negb (env_set api_key)
                 then [name +:+ ": base URL set but API key is missing"] else [])
                ++ (if env_set api_key && negb (env_set base_url)
                    then [name +:+ ": API key set but base URL is missing"] else []))
             tiers in
  (warnings, (List.length warnings =? 0)%nat).

Section OtherEndpoints.

(** [str(e)], the text of an exception in an f-string. *)
Variable str_exn : exn -> string.
Variable cfg : Config.
Variable env : world.

Definition count_tokens_url : string := ANTHROPIC_BASE_URL +:+ "/v1/messages/count_tokens".

(** The headers [proxy_count_tokens] builds in line. *)
Definition count_tokens_headers (original_headers : headers) : headers :=
  let target_headers := [("Content-Type", "application/json")] in
  let target_headers :=
    match header "authorization" original_headers with
    | Some v => Dict.set "Authorization" v target_headers
    | None => target_headers
    end in
  fold_left (fun target_headers h =>
               match header h original_headers with
               | Some v => Dict.set h v target_headers
               | None => target_headers
               end)
            ["anthropic-version"; "anthropic-beta"; "x-api-key"] target_headers.

(** [proxy_count_tokens]: one call to Anthropic, whatever the model. *)
Definition proxy_count_tokens (body : dict) (original_headers : headers) (st : state)
  : reply * state :=
  let data := body in
  let rq := {| dest := Anthropic; url := count_tokens_url; payload := data;
               req_headers := count_tokens_headers original_headers;
               streamed := false |} in
  let '(o, st) := send env rq st in
  match o with
  | Returns response => (relay response, st)
  | Raises e => (JSONResponse 500 ("Proxy error: " +:+ str_exn e), st)
  end.

(** The dictionary [health_check] returns. *)
Record health : Type := {
  health_status : string;
  target_model : string;
  routing : list (string * string);
  circuit_breaker : list (string * CircuitBreaker.report);
  fallbacks : list string
}.

Definition routed (base_url : option string) : string :=
  if env_set base_url then "Z.AI" else "Anthropic (OAuth)".

(** [health_check]: the report, and the breaker as [status] leaves it. *)
Definition health_check (clock : string -> Z * Z) (cb : CircuitBreaker.t)
  : option health * CircuitBreaker.t :=
  let '(report, cb) := CircuitBreaker.status clock cb in
  ((fun report =>
      {| health_status := "healthy";
         target_model := ZAI_TARGET_MODEL cfg;
         routing := [("opus", routed (OPUS_BASE_URL cfg));
                     ("sonnet", routed (SONNET_BASE_URL cfg));
                     ("haiku", routed (HAIKU_BASE_URL cfg))];
         circuit_breaker := report;
         fallbacks := ["web_search → Anthropic"; "vision/image → Anthropic"] |})
     <$> report,
   cb).

End OtherEndpoints.

(* ===================================================================== *)
(** ** Vocabulary of the statements *)
(* ===================================================================== *)

(** The top-level keys the sanitizer may remove or edit. *)
Definition touched_keys : list string :=
  unsupported_keys
  ++ ["extended_thinking"; "thinking"; "tools"; "tool_choice"; "system"; "messages"].

(** [v.get(k)] for a value that is an object. *)
Definition field (k : string) (v : json) : option json :=
  match v with JDict d => Dict.get k d | _ => None end.

(** What the sanitizer may do to a nested value, in the words of the
    claim.  [v'] is [v] less its own entry [key]: an object loses that
    entry and keeps every other one, in place and with its value; a value
    that is not an object is unchanged. *)
Definition less_key (key : string) (v v' : json) : Prop :=
  match v with
  | JDict d => v' = JDict (Dict.pop key d)
  | _ => v' = v
  end.

(** [v'] is the list [v] with each item less its [cache_control], the
    items being as many as before and in the same order; a value that is
    not a list (a text, for one) is unchanged. *)
Definition items_less_annotation (v v' : json) : Prop :=
  match v with
  | JList items =>
      exists items', v' = JList items' /\ Forall2 (less_key "cache_control") items items'
  | _ => v' = v
  end.

(** [m'] is the message [m] less its annotations: an object with the keys
    of [m] in their order, [cache_control] left out; every entry other than
    [content] has the value it had; the [content] is unchanged when it is
    not a list, and a list of the same blocks, each less its
    [cache_control], when it is one.  A message that is not an object is
    unchanged. *)
Definition message_less_annotations (m m' : json) : Prop :=
  match m with
  | JDict d =>
      exists d',
        m' = JDict d'
        /\ map fst d' = map fst (Dict.pop "cache_control" d)
        /\ (forall k, k <> "content" ->
              Dict.get k d' = Dict.get k (Dict.pop "cache_control" d))
        /\ match Dict.get "content" d with
           | Some content =>
               exists content',
                 Dict.get "content" d' = Some content'
                 /\ items_less_annotation content content'
           | None => Dict.get "content" d' = None
           end
  | _ => m' = m
  end.

(** The model name the handler reads: [data.get("model", "")] when it is a
    string. *)
Definition model_of (body : dict) : option string :=
  match default (JStr "") (Dict.get "model" body) with
  | JStr m => Some m
  | _ => None
  end.

(** Whether the request asks for a streamed answer:
    [data.get("stream", False)], tested for truth. *)
Definition stream_of (body : dict) : bool :=
  truthy (default (JBool false) (Dict.get "stream" body)).

(** The upstream a resolved route sends to. *)
Definition upstream_of (route : option provider) : upstream :=
  match route with Some _ => ZAI | None => Anthropic end.

(** Two configurations for the examples: no secondary provider at all, and
    the Sonnet tier alone on Z.AI. *)
Definition no_secondary : Config :=
  {| HAIKU_API_KEY := None; HAIKU_BASE_URL := None;
     SONNET_API_KEY := None; SONNET_BASE_URL := None;
     OPUS_API_KEY := None; OPUS_BASE_URL := None;
     ZAI_TARGET_MODEL := "glm-5"; MAX_RETRIES := 3 |}.

Definition sonnet_on_zai : Config :=
  {| HAIKU_API_KEY := None; HAIKU_BASE_URL := None;
     SONNET_API_KEY := Some "key"; SONNET_BASE_URL := Some "https://api.z.ai";
     OPUS_API_KEY := None; OPUS_BASE_URL := None;
     ZAI_TARGET_MODEL := "glm-5"; MAX_RETRIES := 3 |}.

(** An upstream answer with the given status and body, without headers. *)
Definition reply_with (status : Z) (body : string) : outcome :=
  Returns {| status_code := status; content := body; resp_headers := [] |}.

(** The trace of a run that sleeps between its calls: one call more than
    there are delays. *)
Definition retry_trace (rq : request) (delays : list delay) : list event :=
  fold_right (fun d evs => Sent rq :: Slept d :: evs) [Sent rq] delays.

(** The outcomes that are timeouts, and among them the read timeouts. *)
Definition timeout (o : outcome) : bool :=
  match o with
  | Raises ReadTimeout | Raises ConnectTimeout => true
  | _ => false
  end.

Definition read_timeout (o : outcome) : bool :=
  match o with Raises ReadTimeout => true | _ => false end.

(** The delays of a run that backs off after each of its first [n] calls,
    starting at iteration [attempt]. *)
Definition backoffs (attempt : Z) (n : nat) : list delay :=
  map (fun i => Backoff (attempt + Z.of_nat i)) (seq 0 n).

(** The surroundings in which every call has the same outcome. *)
Definition always (o : outcome) : world :=
  {| answer := fun _ => o; clock := fun _ => 0 |}.

(** The nesting depth of a value: the fuel [dump] needs to print it. *)
Fixpoint depth (j : json) : nat :=
  match j with
  | JList xs => S (list_max (map depth xs))
  | JDict kvs => S (list_max (map (fun kv => depth (snd kv)) kvs))
  | _ => 1
  end.

(** The capitals of ASCII text, the letters [str.lower()] changes there. *)
Definition capitals : string := "ABCDEFGHIJKLMNOPQRSTUVWXYZ".

(** The settings [get_provider_config] reads for a tier. *)
Definition tier_settings (cfg : Config) (tier : string) : option string * option string :=
  if String.eqb tier "opus" then (OPUS_BASE_URL cfg, OPUS_API_KEY cfg)
  else if String.eqb tier "sonnet" then (SONNET_BASE_URL cfg, SONNET_API_KEY cfg)
  else (HAIKU_BASE_URL cfg, HAIKU_API_KEY cfg).

(** How many of the [n] calls from the [from]-th on end in a read timeout. *)
Definition read_timeouts (env : world) (from n : nat) : nat :=
  List.length (List.filter (fun i => read_timeout (answer env i)) (seq from n)).

(* ===================================================================== *)
(** * Properties *)
(* ===================================================================== *)

(** ** Strings: the two tests decide prefix and substring *)

Lemma startswith_Prefix (p s : string) :
  Str.startswith p s = true <-> Str.Prefix p s.
Proof.
  revert s. induction p as [|a p IH]; intros s; simpl.
  - split; [intros _; exists s; reflexivity | reflexivity].
  - destruct s as [|b s].
    + split; [discriminate | intros [post H]; discriminate H].
    + destruct (Ascii.eqb_spec a b) as [->|Hne].
      * rewrite IH. split; intros [post H]; exists post.
        -- simpl. now rewrite H.
        -- simpl in H. now injection H.
      * split; [discriminate|]. intros [post H]. simpl in H.
        injection H as Hab _. congruence.
Qed.

Lemma contains_Substring (n s : string) :
  Str.contains n s = true <-> Str.Substring n s.
Proof.
  induction s as [|c s IH]; simpl.
  - rewrite orb_false_r, startswith_Prefix. split.
    + intros [post H]. exists EmptyString, post. exact H.
    + intros [pre [post H]]. destruct pre; [now exists post | discriminate H].
  - rewrite orb_true_iff, startswith_Prefix, IH. split.
    + intros [[post H] | [pre [post H]]].
      * exists EmptyString, post. exact H.
      * exists (String c pre), post. simpl. now rewrite H.
    + intros [pre [post H]]. destruct pre as [|c' pre].
      * left. now exists post.
      * right. exists pre, post. simpl in H. now injection H.
Qed.

Lemma contains_false (n s : string) :
  Str.contains n s = false <-> ~ Str.Substring n s.
Proof. rewrite <- contains_Substring. destruct (Str.contains n s); intuition congruence. Qed.

Lemma startswith_false (p s : string) :
  Str.startswith p s = false <-> ~ Str.Prefix p s.
Proof. rewrite <- startswith_Prefix. destruct (Str.startswith p s); intuition congruence. Qed.

(** ** C4: tier detection *)

(** The example of the specification, in mixed case. *)
Example detect_example :
  _detect_tier "claude-3-5-Sonnet-OPUS-test" = Some "opus".
Proof. reflexivity. Qed.

Lemma detect_tier_cases (model_name : string) :
  let m := Str.lower model_name in
  let has := fun t => Str.Substring t m in
  (_detect_tier model_name = Some "opus" <-> has "opus")
  /\ (_detect_tier model_name = Some "sonnet" <->
        ~ has "opus" /\ (has "sonnet" \/ (~ has "haiku" /\ Str.Prefix "glm" m)))
  /\ (_detect_tier model_name = Some "haiku" <->
        ~ has "opus" /\ ~ has "sonnet" /\ has "haiku")
  /\ (_detect_tier model_name = None <->
        ~ has "opus" /\ ~ has "sonnet" /\ ~ has "haiku" /\ ~ Str.Prefix "glm" m).
Proof.
  cbv zeta. unfold _detect_tier.
  destruct (Str.contains "opus" (Str.lower model_name)) eqn:Ho;
    [apply contains_Substring in Ho | apply contains_false in Ho];
  (destruct (Str.contains "sonnet" (Str.lower model_name)) eqn:Hs;
    [apply contains_Substring in Hs | apply contains_false in Hs]);
  (destruct (Str.contains "haiku" (Str.lower model_name)) eqn:Hh;
    [apply contains_Substring in Hh | apply contains_false in Hh]);
  (destruct (Str.startswith "glm" (Str.lower model_name)) eqn:Hg;
    [apply startswith_Prefix in Hg | apply startswith_false in Hg]);
  (split; [|split; [|split]]);
  (split; [intros H; try discriminate H; tauto | intros; try reflexivity; exfalso; tauto]).
Qed.


(** Lower-casing on ASCII text, without reference to its definition: it
    keeps the length, goes through concatenation, turns the alphabet in
    capitals into the alphabet in small letters, and leaves a text without
    capitals as it is. *)
Lemma lower_length (s : string) : String.length (Str.lower s) = String.length s.
Proof. induction s as [|c s IH]; simpl; [reflexivity | now rewrite IH]. Qed.

Lemma lower_app (a b : string) : Str.lower (a +:+ b) = Str.lower a +:+ Str.lower b.
Proof. induction a as [|c a IH]; simpl; [reflexivity | now rewrite IH]. Qed.

Lemma lower_ascii_fixed (c : ascii) :
  ~ In c (list_ascii_of_string capitals) -> Str.lower_ascii c = c.
Proof.
  intros H. unfold Str.lower_ascii.
  destruct ((65 <=? nat_of_ascii c) && (nat_of_ascii c <=? 90))%nat eqn:E; [|reflexivity].
  exfalso. apply H. apply andb_true_iff in E as [E1 E2].
  apply Nat.leb_le in E1, E2. rewrite <- (ascii_nat_embedding c).
  assert (Hn : In (nat_of_ascii c) (seq 65 26)) by (apply in_seq; lia).
  revert Hn. generalize (nat_of_ascii c). intros n Hn. simpl in Hn.
  repeat (destruct Hn as [<-|Hn]; [vm_compute; tauto|]). destruct Hn.
Qed.

Lemma lower_fixed (s : string) :
  (forall c, In c (list_ascii_of_string s) -> ~ In c (list_ascii_of_string capitals)) ->
  Str.lower s = s.
Proof.
  induction s as [|c s IH]; simpl; [reflexivity|]. intros H.
  rewrite lower_ascii_fixed by (apply H; now left). f_equal. apply IH.
  intros c' Hc'. apply H. now right.
Qed.

(** C4. For every model name, empty or not, that is an ASCII text,
    [_detect_tier] depends on the lower-cased name only and follows the
    priority opus, sonnet, haiku, legacy [glm] prefix, none: it answers
    opus exactly when the lower-cased name contains "opus"; sonnet exactly
    when it contains "sonnet" but not "opus", or contains none of the three
    and starts with "glm"; haiku exactly when it contains "haiku" and
    neither of the other two; and none exactly when nothing matches.  The
    first match wins.  Lower-casing is what [str.lower()] does on ASCII
    text: the capitals A to Z become the small letters a to z, position by
    position, and nothing else changes. *)
Theorem detect_tier_priority (model_name : string) :
  Str.isascii model_name = true ->
  let m := Str.lower model_name in
  let has := fun t => Str.Substring t m in
  (_detect_tier model_name = Some "opus" <-> has "opus")
  /\ (_detect_tier model_name = Some "sonnet" <->
        ~ has "opus" /\ (has "sonnet" \/ (~ has "haiku" /\ Str.Prefix "glm" m)))
  /\ (_detect_tier model_name = Some "haiku" <->
        ~ has "opus" /\ ~ has "sonnet" /\ has "haiku")
  /\ (_detect_tier model_name = None <->
        ~ has "opus" /\ ~ has "sonnet" /\ ~ has "haiku" /\ ~ Str.Prefix "glm" m)
  /\ (forall other, Str.isascii other = true -> Str.lower other = m ->
        _detect_tier other = _detect_tier model_name)
  /\ (Str.lower capitals = "abcdefghijklmnopqrstuvwxyz"
      /\ (forall s, Str.isascii s = true ->
                    String.length (Str.lower s) = String.length s)
      /\ (forall a b, Str.isascii a = true -> Str.isascii b = true ->
                      Str.lower (a +:+ b) = Str.lower a +:+ Str.lower b)
      /\ (forall s, Str.isascii s = true ->
                    (forall c, In c (list_ascii_of_string s) ->
                               ~ In c (list_ascii_of_string capitals)) ->
                    Str.lower s = s)).
Proof.
  intros _. cbv zeta. pose proof (detect_tier_cases model_name) as (H1 & H2 & H3 & H4).
  repeat (split; [assumption|]).
  split; [intros other _ H; unfold _detect_tier; now rewrite H|].
  split; [reflexivity|]. split; [intros s _; apply lower_length|].
  split; [intros a b _ _; apply lower_app | intros s _; apply lower_fixed].
Qed.

(** The theorem on the example of the specification, in mixed case: a name
    that contains both "sonnet" and "opus" is of the opus tier. *)
Lemma detect_tier_priority_witness :
  Str.isascii "claude-3-5-Sonnet-OPUS-test" = true
  /\ Str.lower "claude-3-5-Sonnet-OPUS-test" = "claude-3-5-sonnet-opus-test"
  /\ _detect_tier "claude-3-5-Sonnet-OPUS-test" = Some "opus".
Proof.
  split; [reflexivity|]. split; [reflexivity|].
  destruct (detect_tier_priority "claude-3-5-Sonnet-OPUS-test" eq_refl) as [Hopus _].
  apply Hopus. exists "claude-3-5-sonnet-", "-test". reflexivity.
Defined.

(** ** C2: the circuit breaker *)

Section BreakerProperties.

Import CircuitBreaker.

(** What the breaker knows about one tier. *)
Definition view (tier : string) (cb : t) : Z * Z * option Z * option Z :=
  (threshold cb, recovery_time cb, _failures cb !! tier, _opened_at cb !! tier).

Lemma step_other (tier : string) (c : call) (cb : t) :
  call_tier c <> tier -> view tier (step cb c) = view tier cb.
Proof.
  intros Hne. unfold view.
  destruct c as [now tr | now tr | tr]; simpl in *.
  - unfold is_open. destruct (_opened_at cb !! tr) as [opened|]; [|reflexivity].
    destruct (recovery_time cb <=? now - opened); [|reflexivity]. simpl.
    now rewrite lookup_insert_ne, lookup_delete_ne.
  - rewrite lookup_insert_ne by assumption.
    destruct (_ && _); [|reflexivity]. now rewrite lookup_insert_ne.
  - rewrite lookup_delete_ne by assumption.
    destruct (bool_decide _); [|reflexivity]. now rewrite lookup_insert_ne.
Qed.

Lemma step_view (tier : string) (c : call) (cb1 cb2 : t) :
  call_tier c = tier -> view tier cb1 = view tier cb2 ->
  view tier (step cb1 c) = view tier (step cb2 c).
Proof.
  unfold view. intros <- [= Ht Hr Hf Ho].
  destruct c as [now tr | now tr | tr]; simpl in *.
  - unfold is_open. rewrite Ho, Hr.
    destruct (_opened_at cb2 !! tr) as [opened|] eqn:E; simpl; [|congruence].
    destruct (recovery_time cb2 <=? now - opened); simpl; [|congruence].
    rewrite !lookup_insert_eq, !lookup_delete_eq. congruence.
  - rewrite Ht, Hf, Ho, !lookup_insert_eq.
    destruct (_ && _); [rewrite !lookup_insert_eq|]; congruence.
  - rewrite Hf, !lookup_delete_eq.
    destruct (bool_decide _); [rewrite !lookup_insert_eq|]; congruence.
Qed.

(** Calls for other tiers never show in the view of [tier]. *)
Lemma run_filter (tier : string) (calls : list call) (cb1 cb2 : t) :
  view tier cb1 = view tier cb2 ->
  view tier (run calls cb1)
  = view tier (run (List.filter (fun c => String.eqb (call_tier c) tier) calls) cb2).
Proof.
  revert cb1 cb2. induction calls as [|c calls IH]; intros cb1 cb2 Hv; simpl.
  - exact Hv.
  - destruct (String.eqb_spec (call_tier c) tier) as [He|Hne]; simpl.
    + apply IH. now apply step_view.
    + apply IH. now rewrite step_other.
Qed.

(** Failures in a row on a closed circuit: the count grows by one per call
    and the circuit opens with the call that reaches the threshold. *)
Lemma failures_in_a_row (tier : string) (times : list Z) (cb : t) (k : Z) :
  _opened_at cb !! tier = None ->
  failures tier cb = k ->
  k + Z.of_nat (List.length times) <= threshold cb ->
  let cb' := run (map (fun now => RecordFailure now tier) times) cb in
  threshold cb' = threshold cb
  /\ recovery_time cb' = recovery_time cb
  /\ failures tier cb' = k + Z.of_nat (List.length times)
  /\ _opened_at cb' !! tier =
       (if (k + Z.of_nat (List.length times) <? threshold cb) then None
        else last times).
Proof.
  revert cb k. induction times as [|now times IH]; intros cb k Hclosed Hk Hle; simpl.
  - rewrite Z.add_0_r. repeat split; try assumption.
    destruct (k <? threshold cb); assumption.
  - simpl List.length in Hle. rewrite Nat2Z.inj_succ in *.
    set (cb1 := record_failure now tier cb).
    assert (Hf1 : failures tier cb1 = k + 1).
    { unfold failures, cb1. simpl. rewrite lookup_insert_eq. simpl.
      unfold failures in Hk. now rewrite Hk. }
    unfold failures in Hk.
    destruct times as [|now' times].
    + simpl. repeat split; [exact Hf1|].
      rewrite Hk, Hclosed. change (Z.succ (Z.of_nat 0)) with 1.
      destruct (Z.ltb_spec (k + 1) (threshold cb)).
      * rewrite (proj2 (Z.leb_gt _ _)) by lia. simpl. exact Hclosed.
      * rewrite (proj2 (Z.leb_le _ _)) by lia. simpl. apply lookup_insert_eq.
    + assert (Hc1 : _opened_at cb1 !! tier = None).
      { unfold cb1. simpl. rewrite Hk.
        rewrite (proj2 (Z.leb_gt (threshold cb) (k + 1))); [exact Hclosed|].
        simpl List.length in Hle. lia. }
      specialize (IH cb1 (k + 1) Hc1 Hf1).
      replace (threshold cb1) with (threshold cb) in IH by reflexivity.
      replace (recovery_time cb1) with (recovery_time cb) in IH by reflexivity.
      destruct IH as (H1 & H2 & H3 & H4); [lia|].
      repeat split; [exact H1 | exact H2 | rewrite H3; lia |].
      rewrite H4. replace (k + 1 + Z.of_nat (List.length (now' :: times)))
        with (k + Z.succ (Z.of_nat (List.length (now' :: times)))) by lia.
      reflexivity.
Qed.

(** A check of a circuit that is open: it answers "closed" exactly when
    the recovery time has elapsed, and that call resets the tier. *)
Lemma is_open_when_open (tier : string) (cb : t) (opened now : Z) :
  _opened_at cb !! tier = Some opened ->
  (fst (is_open now tier cb) = false <-> recovery_time cb <= now - opened)
  /\ (now - opened < recovery_time cb -> is_open now tier cb = (true, cb))
  /\ (recovery_time cb <= now - opened ->
       failures tier (snd (is_open now tier cb)) = 0
       /\ _opened_at (snd (is_open now tier cb)) !! tier = None).
Proof.
  intros Ho. unfold is_open, failures. rewrite Ho.
  destruct (Z.leb_spec (recovery_time cb) (now - opened)) as [Hle|Hlt]; simpl.
  - split; [tauto|]. split; [lia|]. intros _.
    now rewrite lookup_insert_eq, lookup_delete_eq.
  - split; [split; [discriminate | lia]|]. split; [reflexivity | lia].
Qed.

(** C2. Take a tier whose circuit is closed with a failure count of 0, and
    a history of calls in which this tier receives [record_failure] only
    (calls for other tiers may come in between), at most [threshold] of
    them.  The count is then the number of failures.  Below the
    threshold [is_open] answers false and a [record_success] puts the
    count back to 0.  With exactly [threshold] failures the circuit is
    open since the last of them: [is_open] answers true until
    [recovery_time] has elapsed since that moment, answers false from then
    on and only then, and the call that answers false sets the count to 0
    and clears the opening time. *)
Theorem breaker_opens_and_recovers
  (tier : string) (cb : t) (calls : list call) (times : list Z) (now : Z) :
  1 <= threshold cb ->
  failures tier cb = 0 ->
  _opened_at cb !! tier = None ->
  List.filter (fun c => String.eqb (call_tier c) tier) calls
    = map (fun at_time => RecordFailure at_time tier) times ->
  Z.of_nat (List.length times) <= threshold cb ->
  let cb' := run calls cb in
  let n := Z.of_nat (List.length times) in
  failures tier cb' = n
  /\ (n < threshold cb ->
        is_open now tier cb' = (false, cb')
        /\ failures tier (record_success tier cb') = 0
        /\ fst (is_open now tier (record_success tier cb')) = false)
  /\ (n = threshold cb ->
        exists opened,
          last times = Some opened
          /\ _opened_at cb' !! tier = Some opened
          /\ (now - opened < recovery_time cb -> is_open now tier cb' = (true, cb'))
          /\ (fst (is_open now tier cb') = false <-> recovery_time cb <= now - opened)
          /\ (recovery_time cb <= now - opened ->
                failures tier (snd (is_open now tier cb')) = 0
                /\ _opened_at (snd (is_open now tier cb')) !! tier = None)).
Proof.
  intros Hth Hzero Hclosed Hcalls Hle cb' n.
  pose proof (run_filter tier calls cb cb eq_refl) as Hv.
  rewrite Hcalls in Hv.
  pose proof (failures_in_a_row tier times cb 0 Hclosed Hzero) as Hrow.
  cbv zeta in Hrow. specialize (Hrow ltac:(lia)).
  destruct Hrow as (Ht & Hr & Hf & Ho).
  set (cb2 := run (map (fun at_time => RecordFailure at_time tier) times) cb) in *.
  fold cb' in Hv. unfold view in Hv. injection Hv as Hvt Hvr Hvf Hvo.
  assert (Hfail : failures tier cb' = n).
  { unfold failures in *. rewrite Hvf, Hf. unfold n. lia. }
  split; [exact Hfail|]. split.
  - intros Hlt.
    assert (Hnone : _opened_at cb' !! tier = None).
    { rewrite Hvo, Ho. rewrite (proj2 (Z.ltb_lt _ _)); [reflexivity | unfold n in Hlt; lia]. }
    split; [unfold is_open; now rewrite Hnone|].
    split.
    + unfold failures, record_success. simpl.
      destruct (bool_decide_reflect (is_Some (_failures cb' !! tier))) as [Hs|Hs].
      * now rewrite lookup_insert_eq.
      * destruct (_failures cb' !! tier) eqn:E; [|reflexivity].
        exfalso. apply Hs. eauto.
    + unfold is_open, record_success. simpl. now rewrite lookup_delete_eq.
  - intros Heq.
    assert (Hsome : _opened_at cb' !! tier = last times).
    { rewrite Hvo, Ho. rewrite (proj2 (Z.ltb_ge _ _)); [reflexivity | unfold n in Heq; lia]. }
    destruct (last times) as [opened|] eqn:Hlast.
    + exists opened. split; [reflexivity|]. split; [exact Hsome|].
      pose proof (is_open_when_open tier cb' opened now Hsome) as (H1 & H2 & H3).
      rewrite Hvr, Hr in H1, H2, H3. tauto.
    + destruct times; [simpl in *; unfold n in Heq; simpl in Heq; lia|].
      apply last_None in Hlast. discriminate.
Qed.

(** The theorem at work: threshold 2, two failures of "sonnet" with a
    failure of "opus" in between, checked 30 ticks after the circuit
    opened with a recovery time of 120. *)
Lemma breaker_opens_and_recovers_witness :
  let cb := init 2 120 in
  let calls := [RecordFailure 10 "sonnet"; RecordFailure 15 "opus"; RecordFailure 20 "sonnet"] in
  failures "sonnet" (run calls cb) = 2
  /\ is_open 50 "sonnet" (run calls cb) = (true, run calls cb)
  /\ fst (is_open 140 "sonnet" (run calls cb)) = false.
Proof.
  intros cb calls.
  destruct (breaker_opens_and_recovers "sonnet" cb calls [10; 20] 50)
    as (Hcount & _ & Hopen); try reflexivity; try (simpl; lia).
  destruct (breaker_opens_and_recovers "sonnet" cb calls [10; 20] 140)
    as (_ & _ & Hlate); try reflexivity; try (simpl; lia).
  destruct (Hopen eq_refl) as (opened & Hlast & _ & Htrue & _).
  destruct (Hlate eq_refl) as (opened' & Hlast' & _ & _ & Hfalse & _).
  injection Hlast as <-. injection Hlast' as <-.
  split; [exact Hcount|]. split; [apply Htrue; simpl; lia | apply Hfalse; simpl; lia].
Defined.

End BreakerProperties.

(** ** Dictionaries *)

Section DictFacts.

Context {A : Type}.
Implicit Types (d : list (string * A)) (k key : string) (f : A -> A).

Lemma get_pop k key d :
  Dict.get k (Dict.pop key d) = if String.eqb k key then None else Dict.get k d.
Proof.
  induction d as [|[k' v] d IH]; simpl.
  - now destruct (String.eqb k key).
  - destruct (String.eqb_spec key k') as [->|Hne]; simpl.
    + rewrite IH. destruct (String.eqb_spec k k'); reflexivity.
    + rewrite IH. destruct (String.eqb_spec k k') as [->|]; [|reflexivity].
      destruct (String.eqb_spec k' key); congruence.
Qed.

Lemma get_pop_same key d : Dict.get key (Dict.pop key d) = None.
Proof. now rewrite get_pop, String.eqb_refl. Qed.

Lemma get_pop_other k key d :
  String.eqb k key = false -> Dict.get k (Dict.pop key d) = Dict.get k d.
Proof. intros H. now rewrite get_pop, H. Qed.

Lemma get_alter k key f d :
  Dict.get k (Dict.alter f key d)
  = if String.eqb k key then f <$> Dict.get k d else Dict.get k d.
Proof.
  induction d as [|[k' v] d IH]; simpl.
  - now destruct (String.eqb k key).
  - destruct (String.eqb_spec key k') as [->|Hne]; simpl.
    + destruct (String.eqb_spec k k'); reflexivity.
    + rewrite IH. destruct (String.eqb_spec k k') as [->|]; [|reflexivity].
      destruct (String.eqb_spec k' key); congruence.
Qed.

Lemma get_alter_same key f d :
  Dict.get key (Dict.alter f key d) = f <$> Dict.get key d.
Proof. now rewrite get_alter, String.eqb_refl. Qed.

Lemma get_alter_other k key f d :
  String.eqb k key = false -> Dict.get k (Dict.alter f key d) = Dict.get k d.
Proof. intros H. now rewrite get_alter, H. Qed.

(** Popping a key that is not there, and altering with a function that
    fixes the stored value, leave the dictionary as it is. *)
Lemma pop_absent key d : Dict.get key d = None -> Dict.pop key d = d.
Proof.
  induction d as [|[k' v] d IH]; simpl; [reflexivity|].
  destruct (String.eqb key k'); [discriminate|]. intros H. now rewrite IH.
Qed.

Lemma alter_fixed key f d :
  (forall v, Dict.get key d = Some v -> f v = v) -> Dict.alter f key d = d.
Proof.
  induction d as [|[k' v] d IH]; simpl; [reflexivity|].
  destruct (String.eqb key k'); intros H.
  - now rewrite (H v eq_refl).
  - now rewrite IH.
Qed.

Lemma get_set k key (x : A) d :
  Dict.get k (Dict.set key x d) = if String.eqb k key then Some x else Dict.get k d.
Proof.
  unfold Dict.set, Dict.has. destruct (Dict.get key d) as [v|] eqn:E.
  - rewrite get_alter. destruct (String.eqb_spec k key) as [->|]; [|reflexivity].
    now rewrite E.
  - induction d as [|[k' v] d IH]; simpl in *.
    + now destruct (String.eqb k key).
    + destruct (String.eqb_spec key k'); [discriminate|].
      rewrite (IH E). destruct (String.eqb_spec k k') as [->|]; [|reflexivity].
      destruct (String.eqb_spec k' key); congruence.
Qed.

(** The keys that survive keep their order: nothing is added or moved. *)
Lemma keys_pop key d : sublist (map fst (Dict.pop key d)) (map fst d).
Proof.
  induction d as [|[k' v] d IH]; simpl; [constructor|].
  destruct (String.eqb key k'); simpl; now constructor.
Qed.

Lemma keys_alter key f d : map fst (Dict.alter f key d) = map fst d.
Proof.
  induction d as [|[k' v] d IH]; simpl; [reflexivity|].
  destruct (String.eqb key k'); simpl; [reflexivity | now rewrite IH].
Qed.

End DictFacts.

(** ** The sanitizer: what each step leaves behind *)

Lemma web_search_strip_block (t : json) :
  is_web_search_tool (strip_block t) = is_web_search_tool t.
Proof.
  destruct t; try reflexivity. simpl.
  now rewrite get_pop_other by reflexivity.
Qed.

Lemma strip_block_idem (b : json) : strip_block (strip_block b) = strip_block b.
Proof.
  destruct b; try reflexivity. simpl.
  now rewrite (pop_absent "cache_control") by apply get_pop_same.
Qed.

Lemma strip_blocks_idem (v : json) : strip_blocks (strip_blocks v) = strip_blocks v.
Proof.
  destruct v; try reflexivity. simpl. f_equal.
  rewrite map_map. apply map_ext. intros b. apply strip_block_idem.
Qed.

Lemma strip_system_idem (v : json) : strip_system (strip_system v) = strip_system v.
Proof.
  destruct v; try reflexivity; simpl; f_equal.
  - rewrite map_map. apply map_ext. intros b. apply strip_block_idem.
  - apply pop_absent, get_pop_same.
Qed.

Lemma strip_message_idem (m : json) : strip_message (strip_message m) = strip_message m.
Proof.
  destruct m; try reflexivity. simpl. f_equal.
  rewrite (pop_absent "cache_control").
  - apply alter_fixed. intros v. rewrite get_alter_same.
    destruct (Dict.get "content" _); simpl; [|discriminate].
    intros [= <-]. apply strip_blocks_idem.
  - rewrite get_alter_other by reflexivity. apply get_pop_same.
Qed.

Lemma strip_messages_idem (v : json) : strip_messages (strip_messages v) = strip_messages v.
Proof.
  destruct v; try reflexivity. simpl. f_equal.
  rewrite map_map. apply map_ext. intros m. apply strip_message_idem.
Qed.

Lemma strip_budget_idem (v : json) : strip_budget (strip_budget v) = strip_budget v.
Proof.
  destruct v; try reflexivity. simpl. f_equal. apply pop_absent, get_pop_same.
Qed.

(** Stripping annotations keeps the kind of a value, hence whether a loop
    can run over it. *)
Lemma py_iter_strip_blocks (v : json) :
  is_Some (py_iter (strip_blocks v)) <-> is_Some (py_iter v).
Proof. destruct v; simpl; split; intros H; try exact H; eauto. Qed.

Lemma py_iter_strip_messages (v : json) :
  is_Some (py_iter (strip_messages v)) <-> is_Some (py_iter v).
Proof. destruct v; simpl; split; intros H; try exact H; eauto. Qed.

(** Tools that are not web-search tools stay so once stripped, so a second
    filter keeps them all. *)
Lemma filter_stripped (ts : list json) :
  List.filter not_web_search (map strip_block (List.filter not_web_search ts))
  = map strip_block (List.filter not_web_search ts).
Proof.
  induction ts as [|t ts IH]; [reflexivity|]. simpl.
  destruct (not_web_search t) eqn:Ht; [|exact IH]. simpl.
  unfold not_web_search at 1. rewrite web_search_strip_block.
  fold (not_web_search t). now rewrite Ht, IH.
Qed.

(** [_strip_cache_control] as one equation: it raises exactly when one of
    its two [for] loops meets a value that cannot be iterated, and
    otherwise alters three entries. *)
Lemma strip_cache_control_eq (d : dict) :
  _strip_cache_control d =
    (_ ← py_iter (default (JList []) (Dict.get "messages" d));
     _ ← py_iter (default (JList []) (Dict.get "tools" d));
     Some (Dict.alter strip_blocks "tools"
             (Dict.alter strip_messages "messages"
                (Dict.alter strip_system "system" d)))).
Proof.
  unfold _strip_cache_control, strip_each.
  rewrite get_alter_other by reflexivity.
  destruct (py_iter (default (JList []) (Dict.get "messages" d))); simpl; [|reflexivity].
  rewrite !get_alter_other by reflexivity.
  destruct (py_iter (default (JList []) (Dict.get "tools" d))); reflexivity.
Qed.

(** The value [tool_choice] has after the tools step when some tool is
    kept: an object naming "web_search" is removed. *)
Definition surviving_tool_choice (tc : option json) : option json :=
  match tc with
  | Some (JDict c) =>
      if eq_str (default JNull (Dict.get "name" c)) "web_search" then None else tc
  | _ => tc
  end.

Lemma get_strip_tools (k : string) (d : dict) :
  Dict.get k (strip_tools d) =
    match Dict.get "tools" d with
    | Some (JList ts) =>
        match List.filter not_web_search ts with
        | [] => if String.eqb k "tools" || String.eqb k "tool_choice"
                then None else Dict.get k d
        | t :: kept =>
            if String.eqb k "tools" then Some (JList (t :: kept))
            else if String.eqb k "tool_choice"
                 then surviving_tool_choice (Dict.get "tool_choice" d)
                 else Dict.get k d
        end
    | _ => Dict.get k d
    end.
Proof.
  unfold strip_tools.
  destruct (Dict.get "tools" d) as [[| | | | |ts|]|] eqn:Ht; try reflexivity.
  rewrite get_alter_same, Ht. simpl.
  destruct (List.filter not_web_search ts) as [|t kept] eqn:Hk.
  - rewrite !get_pop, get_alter.
    destruct (String.eqb_spec k "tool_choice") as [->|]; [now rewrite orb_true_r|].
    rewrite orb_false_r. destruct (String.eqb_spec k "tools") as [->|]; reflexivity.
  - rewrite (get_alter_other "tool_choice") by reflexivity.
    unfold surviving_tool_choice.
    assert (Hkeep : Dict.get k (Dict.alter drop_web_search "tools" d)
                    = if String.eqb k "tools" then Some (JList (t :: kept))
                      else Dict.get k d).
    { rewrite get_alter. destruct (String.eqb_spec k "tools") as [->|]; [|reflexivity].
      rewrite Ht. simpl. now rewrite Hk. }
    destruct (Dict.get "tool_choice" d) as [[| | | | | |c]|] eqn:Hc;
      try (rewrite Hkeep; destruct (String.eqb_spec k "tools") as [->|]; [reflexivity|];
           destruct (String.eqb_spec k "tool_choice") as [->|]; congruence).
    destruct (eq_str (default JNull (Dict.get "name" c)) "web_search").
    + rewrite get_pop, Hkeep.
      destruct (String.eqb_spec k "tool_choice") as [->|]; [reflexivity|].
      destruct (String.eqb_spec k "tools"); reflexivity.
    + rewrite Hkeep.
      destruct (String.eqb_spec k "tools") as [->|]; [reflexivity|].
      destruct (String.eqb_spec k "tool_choice") as [->|]; congruence.
Qed.

(** The first three steps of [sanitize_for_zai], which only look at
    top-level keys. *)
Definition first_steps (data : dict) : dict :=
  Dict.pop "extended_thinking"
    (Dict.alter strip_budget "thinking"
       (fold_left (fun d key => Dict.pop key d) unsupported_keys data)).

Lemma sanitize_unfold (x : dict) :
  sanitize_for_zai x = _strip_cache_control (strip_tools (first_steps x)).
Proof. reflexivity. Qed.

Lemma get_first_steps (k : string) (x : dict) :
  Dict.get k (first_steps x) =
    if existsb (String.eqb k) (unsupported_keys ++ ["extended_thinking"]) then None
    else if String.eqb k "thinking" then strip_budget <$> Dict.get k x
    else Dict.get k x.
Proof.
  unfold first_steps. simpl. rewrite get_pop, get_alter, !get_pop.
  rewrite !orb_false_r.
  destruct (String.eqb k "extended_thinking"); [now rewrite !orb_true_r|].
  rewrite orb_false_r.
  destruct (String.eqb_spec k "thinking") as [->|]; [reflexivity|].
  destruct (String.eqb k "output_config"); [now rewrite !orb_true_r|].
  destruct (String.eqb k "context_management"); [now rewrite !orb_true_r|].
  destruct (String.eqb k "service_tier"); [now rewrite !orb_true_r|].
  destruct (String.eqb k "prompt_caching"); [now rewrite !orb_true_r|].
  destruct (String.eqb k "metadata"); reflexivity.
Qed.

Lemma get_strip_tools_other (k : string) (d : dict) :
  String.eqb k "tools" = false -> String.eqb k "tool_choice" = false ->
  Dict.get k (strip_tools d) = Dict.get k d.
Proof.
  intros H1 H2. rewrite get_strip_tools, H1, H2. simpl.
  destruct (Dict.get "tools" d) as [[| | | | |ts|]|]; try reflexivity.
  destruct (List.filter not_web_search ts); reflexivity.
Qed.

(** The three alterations of [_strip_cache_control], seen through a lookup. *)
Definition stripped (w : dict) : dict :=
  Dict.alter strip_blocks "tools"
    (Dict.alter strip_messages "messages" (Dict.alter strip_system "system" w)).

Lemma get_stripped (k : string) (w : dict) :
  Dict.get k (stripped w) =
    if String.eqb k "tools" then strip_blocks <$> Dict.get k w
    else if String.eqb k "messages" then strip_messages <$> Dict.get k w
    else if String.eqb k "system" then strip_system <$> Dict.get k w
    else Dict.get k w.
Proof.
  unfold stripped. rewrite !get_alter.
  destruct (String.eqb_spec k "tools") as [->|]; [reflexivity|].
  destruct (String.eqb_spec k "messages") as [->|]; [reflexivity|].
  destruct (String.eqb_spec k "system") as [->|]; reflexivity.
Qed.

Lemma sanitize_Some (x y : dict) :
  sanitize_for_zai x = Some y ->
  y = stripped (strip_tools (first_steps x))
  /\ is_Some (py_iter (default (JList []) (Dict.get "messages" x)))
  /\ is_Some (py_iter (default (JList []) (Dict.get "tools" (strip_tools (first_steps x))))).
Proof.
  rewrite sanitize_unfold, strip_cache_control_eq.
  rewrite (get_strip_tools_other "messages") by reflexivity.
  rewrite (get_first_steps "messages"). simpl.
  destruct (py_iter (default (JList []) (Dict.get "messages" x))); simpl; [|discriminate].
  destruct (py_iter (default (JList []) (Dict.get "tools" _))); simpl; [|discriminate].
  intros [= <-]. repeat split; eauto.
Qed.

(** The output of the sanitizer is a fixed point of each of its steps. *)
Section SanitizedOutput.

Variable x : dict.
Let z := first_steps x.
Let w := strip_tools z.
Let y := stripped w.

Lemma out_get_plain (k : string) :
  existsb (String.eqb k) ["tools"; "tool_choice"; "messages"; "system"] = false ->
  Dict.get k y = Dict.get k z.
Proof.
  simpl. rewrite !orb_false_r. intros H.
  apply orb_false_elim in H as [H1 H]. apply orb_false_elim in H as [H2 H].
  apply orb_false_elim in H as [H3 H4].
  unfold y. rewrite get_stripped, H1, H3, H4.
  unfold w. now apply get_strip_tools_other.
Qed.

Lemma out_first_steps : first_steps y = y.
Proof.
  unfold first_steps. simpl.
  rewrite (pop_absent "metadata") by (rewrite out_get_plain by reflexivity; unfold z; now rewrite get_first_steps).
  rewrite (pop_absent "prompt_caching") by (rewrite out_get_plain by reflexivity; unfold z; now rewrite get_first_steps).
  rewrite (pop_absent "service_tier") by (rewrite out_get_plain by reflexivity; unfold z; now rewrite get_first_steps).
  rewrite (pop_absent "context_management") by (rewrite out_get_plain by reflexivity; unfold z; now rewrite get_first_steps).
  rewrite (pop_absent "output_config") by (rewrite out_get_plain by reflexivity; unfold z; now rewrite get_first_steps).
  rewrite (alter_fixed "thinking").
  - apply pop_absent. rewrite out_get_plain by reflexivity. unfold z. now rewrite get_first_steps.
  - intros v. rewrite out_get_plain by reflexivity. unfold z. rewrite get_first_steps. simpl.
    destruct (Dict.get "thinking" x); simpl; [|discriminate].
    intros [= <-]. apply strip_budget_idem.
Qed.

Lemma out_get_tools :
  Dict.get "tools" y =
    match Dict.get "tools" z with
    | Some (JList ts) =>
        match List.filter not_web_search ts with
        | [] => None
        | kept => Some (JList (map strip_block kept))
        end
    | other => other
    end.
Proof.
  unfold y. rewrite get_stripped. simpl. unfold w. rewrite get_strip_tools. simpl.
  destruct (Dict.get "tools" z) as [[| | | | |ts|]|]; try reflexivity.
  destruct (List.filter not_web_search ts); reflexivity.
Qed.

Lemma out_strip_tools : strip_tools y = y.
Proof.
  unfold strip_tools. rewrite get_alter_same.
  assert (Htc : Dict.get "tool_choice" (Dict.alter drop_web_search "tools" y)
                = Dict.get "tool_choice" w).
  { rewrite get_alter_other by reflexivity. unfold y. now rewrite get_stripped. }
  rewrite Htc. rewrite out_get_tools.
  destruct (Dict.get "tools" z) as [[| | | | |ts|]|] eqn:Ht; try reflexivity.
  destruct (List.filter not_web_search ts) as [|t kept] eqn:Hk; [reflexivity|].
  assert (Hd : drop_web_search (JList (map strip_block (t :: kept)))
               = JList (map strip_block (t :: kept))).
  { rewrite <- Hk. simpl. f_equal. apply filter_stripped. }
  assert (Hfix : Dict.alter drop_web_search "tools" y = y).
  { apply alter_fixed. intros v. rewrite out_get_tools, Ht, Hk. intros [= <-]. exact Hd. }
  rewrite Hfix.
  change (drop_web_search <$> Some (JList (map strip_block (t :: kept))))
    with (Some (drop_web_search (JList (map strip_block (t :: kept))))).
  rewrite Hd. cbn [map].
  unfold w. rewrite get_strip_tools, Ht, Hk. simpl.
  unfold surviving_tool_choice.
  destruct (Dict.get "tool_choice" z) as [[| | | | | |c]|]; try reflexivity.
  destruct (eq_str (default JNull (Dict.get "name" c)) "web_search") eqn:Hn;
    [reflexivity | now rewrite Hn].
Qed.

Lemma out_strip_cache_control :
  is_Some (py_iter (default (JList []) (Dict.get "messages" x))) ->
  is_Some (py_iter (default (JList []) (Dict.get "tools" w))) ->
  _strip_cache_control y = Some y.
Proof.
  intros Hm Ht. rewrite strip_cache_control_eq.
  assert (Hm' : is_Some (py_iter (default (JList []) (Dict.get "messages" y)))).
  { unfold y. rewrite get_stripped. simpl. unfold w.
    rewrite get_strip_tools_other by reflexivity. unfold z. rewrite get_first_steps. simpl.
    destruct (Dict.get "messages" x); simpl in *; [|exact Hm].
    now apply py_iter_strip_messages. }
  assert (Ht' : is_Some (py_iter (default (JList []) (Dict.get "tools" y)))).
  { unfold y. rewrite get_stripped. simpl.
    destruct (Dict.get "tools" w); simpl in *; [|exact Ht].
    now apply py_iter_strip_blocks. }
  destruct Hm' as [? ->]. destruct Ht' as [? ->]. simpl. f_equal.
  fold (stripped y). unfold stripped.
  rewrite (alter_fixed "system"), (alter_fixed "messages"), (alter_fixed "tools"); [reflexivity| | |].
  - intros v. unfold y. rewrite get_stripped. simpl.
    destruct (Dict.get "tools" w); simpl; [|discriminate].
    intros [= <-]. apply strip_blocks_idem.
  - intros v. unfold y. rewrite get_stripped. simpl.
    destruct (Dict.get "messages" w); simpl; [|discriminate].
    intros [= <-]. apply strip_messages_idem.
  - intros v. unfold y. rewrite get_stripped. simpl.
    destruct (Dict.get "system" w); simpl; [|discriminate].
    intros [= <-]. apply strip_system_idem.
Qed.

End SanitizedOutput.

(** ** C5: the sanitizer is idempotent *)

(** C5. For every payload [x], sanitizing the output of the sanitizer gives
    that output again: the second run removes no top-level key, no
    [budget_tokens], no tool, no [tool_choice] and no [cache_control].
    (When the first run raises there is no output, and both sides are
    [None].) *)
Theorem sanitize_idempotent (x : dict) :
  sanitize_for_zai x ≫= sanitize_for_zai = sanitize_for_zai x.
Proof.
  destruct (sanitize_for_zai x) as [y|] eqn:E; simpl; [|reflexivity].
  apply sanitize_Some in E as (-> & Hm & Ht).
  rewrite sanitize_unfold, out_first_steps, out_strip_tools.
  now apply out_strip_cache_control.
Qed.

(** ** C10: what the sanitizer leaves untouched *)

Lemma keys_first_steps (x : dict) : sublist (map fst (first_steps x)) (map fst x).
Proof.
  unfold first_steps. simpl.
  etrans; [apply keys_pop|]. rewrite keys_alter.
  repeat (etrans; [apply keys_pop|]). reflexivity.
Qed.

Lemma keys_strip_tools (d : dict) : sublist (map fst (strip_tools d)) (map fst d).
Proof.
  unfold strip_tools.
  destruct (Dict.get "tools" d) as [[| | | | |ts|]|]; try reflexivity.
  destruct (Dict.get "tools" (Dict.alter drop_web_search "tools" d)) as [[| | | | |[|]|]|];
    try (destruct (Dict.get "tool_choice" _) as [[| | | | | |c]|];
         try (rewrite keys_alter; reflexivity);
         destruct (eq_str _ _); [etrans; [apply keys_pop|]|]; rewrite keys_alter; reflexivity).
  repeat (etrans; [apply keys_pop|]). now rewrite keys_alter.
Qed.

Lemma keys_stripped (w : dict) : map fst (stripped w) = map fst w.
Proof. unfold stripped. now rewrite !keys_alter. Qed.

(** The edits of the nested steps, seen through the fields of an object. *)
Lemma field_strip_budget (v : json) (k : string) :
  String.eqb k "budget_tokens" = false -> field k (strip_budget v) = field k v.
Proof. intros H. destruct v; try reflexivity. simpl. now apply get_pop_other. Qed.

Lemma field_strip_block (b : json) (k : string) :
  String.eqb k "cache_control" = false -> field k (strip_block b) = field k b.
Proof. intros H. destruct b; try reflexivity. simpl. now apply get_pop_other. Qed.

Lemma field_strip_message (m : json) (k : string) :
  String.eqb k "cache_control" = false ->
  field k (strip_message m)
  = if String.eqb k "content" then strip_blocks <$> field k m else field k m.
Proof.
  intros H. destruct m; simpl; try now destruct (String.eqb k "content").
  rewrite get_alter, get_pop, H. reflexivity.
Qed.

Lemma field_strip_system (s : json) (k : string) :
  String.eqb k "cache_control" = false -> field k (strip_system s) = field k s.
Proof. intros H. destruct s; try reflexivity. simpl. now apply get_pop_other. Qed.

Lemma Forall2_map_self {A : Type} (R : A -> A -> Prop) (f : A -> A) (l : list A) :
  (forall a, R a (f a)) -> Forall2 R l (map f l).
Proof. intros H. induction l as [|a l IH]; simpl; constructor; auto. Qed.

Lemma less_key_strip_budget (v : json) : less_key "budget_tokens" v (strip_budget v).
Proof. now destruct v. Qed.

Lemma less_key_strip_block (b : json) : less_key "cache_control" b (strip_block b).
Proof. now destruct b. Qed.

Lemma items_strip_blocks (v : json) : items_less_annotation v (strip_blocks v).
Proof.
  destruct v as [| | | | |items|]; try reflexivity. simpl.
  eexists. split; [reflexivity|]. apply Forall2_map_self, less_key_strip_block.
Qed.

Lemma message_strip_message (m : json) : message_less_annotations m (strip_message m).
Proof.
  destruct m as [| | | | | |d]; try reflexivity. simpl.
  eexists. split; [reflexivity|]. split; [apply keys_alter|]. split.
  - intros k Hk. apply get_alter_other. now apply String.eqb_neq.
  - rewrite get_alter_same, get_pop_other by reflexivity.
    destruct (Dict.get "content" d) as [content|]; [|reflexivity].
    eexists. split; [reflexivity|]. apply items_strip_blocks.
Qed.

(** C10 (as amended). When the sanitizer returns, its output has the keys of
    the input in their order, less the removed ones.  Every top-level key
    outside [touched_keys] (so [model], [stream], [max_tokens] and any
    unknown field) keeps its value.  [thinking] loses [budget_tokens] only.
    [system] loses [cache_control] only: of the object itself, or of each
    block of a list, which keeps its length and order.  [messages], when a
    list, stays a list of as many messages in the same order; each keeps
    its keys and values, the message text included, and loses only its own
    [cache_control] and the [cache_control] of the blocks of a list
    content; a [messages] value that is not a list is unchanged.  [tools]
    keeps exactly the tools that are not web-search tools, in order, each
    less its [cache_control] only, and disappears when none is left, also
    when the list was empty from the start; [tool_choice] disappears when
    no tool is left or when it is an object named "web_search", and is
    unchanged otherwise. *)
Theorem sanitize_frame (x y : dict) :
  sanitize_for_zai x = Some y ->
  sublist (map fst y) (map fst x)
  /\ (forall k, existsb (String.eqb k) touched_keys = false ->
        Dict.get k y = Dict.get k x)
  /\ match Dict.get "thinking" x with
     | Some thinking =>
         exists thinking',
           Dict.get "thinking" y = Some thinking'
           /\ less_key "budget_tokens" thinking thinking'
     | None => Dict.get "thinking" y = None
     end
  /\ match Dict.get "system" x with
     | Some (JList blocks) =>
         exists system',
           Dict.get "system" y = Some system'
           /\ items_less_annotation (JList blocks) system'
     | Some system =>
         exists system',
           Dict.get "system" y = Some system' /\ less_key "cache_control" system system'
     | None => Dict.get "system" y = None
     end
  /\ match Dict.get "messages" x with
     | Some (JList msgs) =>
         exists msgs',
           Dict.get "messages" y = Some (JList msgs')
           /\ Forall2 message_less_annotations msgs msgs'
     | other => Dict.get "messages" y = other
     end
  /\ match Dict.get "tools" x with
     | Some (JList ts) =>
         match List.filter not_web_search ts with
         | [] => Dict.get "tools" y = None
         | kept =>
             exists kept',
               Dict.get "tools" y = Some (JList kept')
               /\ Forall2 (less_key "cache_control") kept kept'
         end
     | other => Dict.get "tools" y = other
     end
  /\ Dict.get "tool_choice" y =
       match Dict.get "tools" x with
       | Some (JList ts) =>
           match List.filter not_web_search ts with
           | [] => None
           | _ =>
               match Dict.get "tool_choice" x with
               | Some (JDict c) =>
                   if eq_str (default JNull (Dict.get "name" c)) "web_search"
                   then None else Some (JDict c)
               | other => other
               end
           end
       | _ => Dict.get "tool_choice" x
       end.
Proof.
  intros E. apply sanitize_Some in E as (-> & _ & _).
  split.
  { rewrite keys_stripped. etrans; [apply keys_strip_tools | apply keys_first_steps]. }
  split.
  { intros k Hk. unfold touched_keys in Hk. simpl in Hk. rewrite !orb_false_r in Hk.
    repeat (apply orb_false_elim in Hk as [? Hk]).
    rename select (String.eqb k "metadata" = false) into H.
    rename select (String.eqb k "prompt_caching" = false) into H0.
    rename select (String.eqb k "service_tier" = false) into H1.
    rename select (String.eqb k "context_management" = false) into H2.
    rename select (String.eqb k "output_config" = false) into H3.
    rename select (String.eqb k "extended_thinking" = false) into H4.
    rename select (String.eqb k "thinking" = false) into H5.
    rewrite out_get_plain by (simpl; now repeat (apply orb_false_intro; [assumption|])).
    rewrite get_first_steps. simpl.
    now rewrite H, H0, H1, H2, H3, H4, H5. }
  split.
  { rewrite out_get_plain by reflexivity. rewrite get_first_steps. simpl.
    destruct (Dict.get "thinking" x) as [thinking|]; [|reflexivity].
    eexists. split; [reflexivity|]. apply less_key_strip_budget. }
  split.
  { rewrite get_stripped. simpl. rewrite get_strip_tools_other by reflexivity.
    rewrite get_first_steps. simpl.
    destruct (Dict.get "system" x) as [[| | | | |blocks|d]|]; try reflexivity;
      (eexists; split; [reflexivity|]);
      try reflexivity.
    exact (items_strip_blocks (JList blocks)). }
  split.
  { rewrite get_stripped. simpl. rewrite get_strip_tools_other by reflexivity.
    rewrite get_first_steps. simpl.
    destruct (Dict.get "messages" x) as [[| | | | |msgs|]|]; try reflexivity.
    eexists. split; [reflexivity|]. apply Forall2_map_self, message_strip_message. }
  split.
  { rewrite out_get_tools. rewrite get_first_steps. simpl.
    destruct (Dict.get "tools" x) as [[| | | | |ts|]|]; try reflexivity.
    destruct (List.filter not_web_search ts) as [|t kept]; [reflexivity|].
    eexists. split; [reflexivity|].
    exact (Forall2_map_self _ strip_block (t :: kept) less_key_strip_block). }
  rewrite get_stripped. simpl. rewrite get_strip_tools. simpl.
  rewrite !get_first_steps. simpl.
  destruct (Dict.get "tools" x) as [[| | | | |ts|]|]; try reflexivity.
  destruct (List.filter not_web_search ts); [reflexivity|].
  unfold surviving_tool_choice.
  now destruct (Dict.get "tool_choice" x) as [[| | | | | |c]|].
Qed.

(** The frame theorem at work on a payload with a web-search tool, a kept
    tool, annotations and an unknown field. *)
Lemma sanitize_frame_witness :
  let x := [("model", JStr "glm-5"); ("max_tokens", JInt 1024);
            ("metadata", JDict [("user_id", JStr "u1")]);
            ("messages",
             JList [JDict [("role", JStr "user");
                           ("content",
                            JList [JDict [("type", JStr "text"); ("text", JStr "hello");
                                          ("cache_control", JDict [("type", JStr "ephemeral")])]])]]);
            ("tools", JList [JDict [("type", JStr "web_search_20250305"); ("name", JStr "web_search")];
                             JDict [("name", JStr "calculator")]]);
            ("x-unknown", JBool true)] in
  let y := [("model", JStr "glm-5"); ("max_tokens", JInt 1024);
            ("messages",
             JList [JDict [("role", JStr "user");
                           ("content",
                            JList [JDict [("type", JStr "text"); ("text", JStr "hello")]])]]);
            ("tools", JList [JDict [("name", JStr "calculator")]]);
            ("x-unknown", JBool true)] in
  sanitize_for_zai x = Some y
  /\ Dict.get "x-unknown" y = Dict.get "x-unknown" x
  /\ Dict.get "max_tokens" y = Dict.get "max_tokens" x
  /\ exists msgs msgs',
      Dict.get "messages" x = Some (JList msgs)
      /\ Dict.get "messages" y = Some (JList msgs')
      /\ Forall2 message_less_annotations msgs msgs'.
Proof.
  intros x y.
  destruct (sanitize_frame x y eq_refl) as (_ & Hkeep & _ & _ & Hmsgs & _).
  split; [reflexivity|]. split; [apply Hkeep; reflexivity|].
  split; [apply Hkeep; reflexivity|].
  cbn [Dict.get String.eqb Ascii.eqb Bool.eqb] in Hmsgs.
  destruct Hmsgs as (msgs' & Hy & Hrel).
  eexists. exists msgs'. split; [reflexivity|]. split; [exact Hy | exact Hrel].
Defined.

(** C10 as stated does not hold: without any web-search tool in the payload,
    a [tool_choice] naming a kept tool called "web_search" is removed, and
    an empty [tools] list is removed together with a [tool_choice] of
    "auto". *)
Lemma sanitize_removes_more_than_listed :
  let named := [("model", JStr "glm-5");
                ("tools", JList [JDict [("name", JStr "web_search");
                                        ("description", JStr "site search")]]);
                ("tool_choice", JDict [("type", JStr "auto"); ("name", JStr "web_search")])] in
  let empty := [("model", JStr "glm-5"); ("tools", JList []); ("tool_choice", JStr "auto")] in
  (_has_web_search named = Some false
   /\ sanitize_for_zai named
      = Some [("model", JStr "glm-5");
              ("tools", JList [JDict [("name", JStr "web_search");
                                      ("description", JStr "site search")]])])
  /\ (_has_web_search empty = Some false
      /\ sanitize_for_zai empty = Some [("model", JStr "glm-5")]).
Proof. repeat split. Qed.

(** ** The retry loop: what a run can add to the trace *)

Section LoopProperties.

Variable py_float : string -> option (Z * Z).
Variable cfg : Config.
Variable env : world.
Variables is_streaming is_zai_route : bool.
Variable tier : option string.
Variable target : upstream.
Variable target_url : string.
Variable target_headers : headers.
Variables data original_data : dict.
Variable original_headers : headers.

Local Abbreviation treq :=
  (target_request is_streaming target target_url target_headers data).
Local Abbreviation freq := (fallback_request original_data original_headers).
Local Abbreviation handle := (on_exception cfg env is_zai_route tier original_data original_headers).
Local Abbreviation stream_step :=
  (stream_attempt cfg env is_streaming is_zai_route tier target target_url
                  target_headers data original_data original_headers).
Local Abbreviation post_step :=
  (post_attempt py_float cfg env is_streaming is_zai_route tier target target_url
                target_headers data original_data original_headers).
Local Abbreviation step :=
  (one_attempt py_float cfg env is_streaming is_zai_route tier target target_url
               target_headers data original_data original_headers).
Local Abbreviation loop :=
  (attempts py_float cfg env is_streaming is_zai_route tier target target_url
            target_headers data original_data original_headers).

(** [st'] extends [st] by the events [evs]. *)
Definition added (st st' : state) (evs : list event) : Prop :=
  trace st' = trace st ++ evs /\ nsent st' = (nsent st + List.length (sends evs))%nat.

Lemma sends_app (a b : list event) : sends (a ++ b) = sends a ++ sends b.
Proof. unfold sends. apply flat_map_app. Qed.

Lemma added_trans (st1 st2 st3 : state) (e1 e2 : list event) :
  added st1 st2 e1 -> added st2 st3 e2 -> added st1 st3 (e1 ++ e2).
Proof.
  intros [H1 N1] [H2 N2]. split.
  - now rewrite H2, H1, app_assoc.
  - rewrite N2, N1, sends_app, length_app. lia.
Qed.

Lemma added_refl (st : state) : added st st [].
Proof. split; [now rewrite app_nil_r | simpl; lia]. Qed.

Lemma send_spec (rq : request) (st st' : state) (o : outcome) :
  send env rq st = (o, st') -> o = answer env (nsent st) /\ added st st' [Sent rq].
Proof. intros [= <- <-]. split; [reflexivity|]. split; simpl; [reflexivity | lia]. Qed.

Lemma added_sleep (d : delay) (st : state) : added st (sleep d st) [Slept d].
Proof. split; simpl; [reflexivity | lia]. Qed.

Lemma added_record_failure (st : state) : added st (record_failure env tier st) [].
Proof. destruct tier; (split; simpl; [now rewrite app_nil_r | lia]). Qed.

Lemma added_record_success (st : state) : added st (record_success tier st) [].
Proof. destruct tier; (split; simpl; [now rewrite app_nil_r | lia]). Qed.

Lemma nsent_record_failure (st : state) : nsent (record_failure env tier st) = nsent st.
Proof. now destruct tier. Qed.

(** The exception handlers add at most one call, the fall-back of a read
    timeout on the secondary route; its answer, when it is a response, is
    what the client gets. *)
Lemma on_exception_spec (e : exn) (attempt : Z) (st st' : state) (res : option reply) :
  handle e attempt st = (res, st') ->
  exists evs,
    added st st' evs
    /\ (sends evs = []
        \/ (is_zai_route = true /\ sends evs = [freq false]
            /\ forall fb, answer env (nsent st) = Returns fb -> res = Some (relay fb))).
Proof.
  unfold on_exception, backoff. destruct e as [| |r|msg].
  - destruct is_zai_route eqn:Hz.
    + destruct (more cfg attempt); intros H.
      * injection H as <- <-. exists ([] ++ [Slept (Backoff attempt)]). split.
        -- eapply added_trans; [apply added_record_failure | apply added_sleep].
        -- now left.
      * destruct (send env (freq false) (record_failure env tier st)) as [o st1] eqn:Hs.
        apply send_spec in Hs as [Ho Hs]. rewrite nsent_record_failure in Ho.
        exists [Sent (freq false)]. split.
        { destruct o; injection H as <- <-;
            apply (added_trans _ _ _ [] _ (added_record_failure st) Hs). }
        right. repeat split.
        intros fb Hfb. rewrite Hfb in Ho. subst o. now injection H as <- _.
    + destruct (more cfg attempt); intros [= <- <-];
        [exists [Slept (Backoff attempt)] | exists []];
        (split; [first [apply added_sleep | apply added_refl] | now left]).
  - destruct (more cfg attempt); intros [= <- <-];
        [exists [Slept (Backoff attempt)] | exists []];
        (split; [first [apply added_sleep | apply added_refl] | now left]).
  - intros [= <- <-]. exists []. split; [apply added_refl | now left].
  - destruct (more cfg attempt); intros [= <- <-];
        [exists [Slept (Backoff attempt)] | exists []];
        (split; [first [apply added_sleep | apply added_refl] | now left]).
Qed.

(** What one pass through the loop body adds: one call to the target, then
    fall-back calls (none on the primary route).  A fall-back call that is
    answered by a response is the last call, and the response is relayed. *)
Definition attempt_ok (st st' : state) (res : option reply) : Prop :=
  exists evs fbs,
    added st st' evs
    /\ sends evs = treq :: fbs
    /\ Forall (fun rq => exists s, rq = freq s) fbs
    /\ (fbs <> [] -> is_zai_route = true)
    /\ (forall j rq fb,
          fbs !! j = Some rq ->
          answer env (S (nsent st) + j) = Returns fb ->
          S j = List.length fbs
          /\ (res = Some (relay fb) \/ res = Some (StreamingResponse fb))).

Lemma attempt_ok_plain (st st' : state) (res : option reply) (evs : list event) :
  added st st' evs -> sends evs = [treq] -> attempt_ok st st' res.
Proof.
  intros Ha Hs. exists evs, [].
  split; [assumption|]. split; [assumption|]. split; [constructor|].
  split; [intros H; exfalso; now apply H|].
  intros j rq fb H. discriminate H.
Qed.

Lemma attempt_ok_handled (st st1 st' : state) (res : option reply) (e1 : list event)
      (e : exn) (attempt : Z) :
  added st st1 e1 -> sends e1 = [treq] ->
  handle e attempt st1 = (res, st') -> attempt_ok st st' res.
Proof.
  intros Ha Hs Hh. apply on_exception_spec in Hh as (evs & Ha' & Hcase).
  assert (Hn : nsent st1 = S (nsent st)).
  { destruct Ha as [_ ->]. rewrite Hs. simpl. lia. }
  exists (e1 ++ evs), (sends evs). split; [eapply added_trans; eassumption|].
  split; [now rewrite sends_app, Hs|].
  destruct Hcase as [-> | (Hz & -> & Hfb)].
  - split; [constructor|]. split; [intros H; exfalso; now apply H|].
    intros j rq fb H. discriminate H.
  - split; [repeat constructor; now exists false|]. split; [intros _; exact Hz|].
    intros j rq fb H Hans. destruct j; [|discriminate H].
    split; [reflexivity|]. left. apply Hfb.
    rewrite Hn. now rewrite Nat.add_0_r in Hans.
Qed.

Lemma attempt_ok_fallback (st st2 : state) (res : option reply) (e2 : list event)
      (s : bool) (fb : response) :
  added st st2 e2 -> sends e2 = [treq; freq s] -> is_zai_route = true ->
  answer env (S (nsent st)) = Returns fb ->
  res = Some (relay fb) \/ res = Some (StreamingResponse fb) ->
  attempt_ok st st2 res.
Proof.
  intros Ha Hs Hz Hfb Hres. exists e2, [freq s].
  split; [assumption|]. split; [assumption|].
  split; [repeat constructor; now exists s|]. split; [intros _; exact Hz|].
  intros j rq fb' H Hans. destruct j; [|discriminate H].
  split; [reflexivity|]. rewrite Nat.add_0_r in Hans.
  rewrite Hfb in Hans. now injection Hans as <-.
Qed.

Lemma attempt_ok_fallback_raised (st st2 st' : state) (res : option reply)
      (e2 : list event) (s : bool) (e : exn) (attempt : Z) :
  added st st2 e2 -> sends e2 = [treq; freq s] -> is_zai_route = true ->
  answer env (S (nsent st)) = Raises e ->
  handle e attempt st2 = (res, st') -> attempt_ok st st' res.
Proof.
  intros Ha Hs Hz Hraised Hh. apply on_exception_spec in Hh as (evs & Ha' & Hcase).
  assert (Hn : nsent st2 = S (S (nsent st))).
  { destruct Ha as [_ ->]. rewrite Hs. simpl. lia. }
  exists (e2 ++ evs), (freq s :: sends evs). split; [eapply added_trans; eassumption|].
  split; [now rewrite sends_app, Hs|].
  destruct Hcase as [-> | (_ & -> & Hfb)].
  - split; [repeat constructor; now exists s|]. split; [intros _; exact Hz|].
    intros j rq fb H Hans. destruct j; [|discriminate H].
    rewrite Nat.add_0_r in Hans. congruence.
  - split; [repeat constructor; [now exists s | now exists false]|].
    split; [intros _; exact Hz|].
    intros j rq fb H Hans. destruct j as [|[|j]]; [| |discriminate H].
    + rewrite Nat.add_0_r in Hans. congruence.
    + split; [reflexivity|]. left. apply Hfb. rewrite Hn.
      now replace (S (nsent st) + 1)%nat with (S (S (nsent st))) in Hans by lia.
Qed.

Lemma added_if_success (b : bool) (st : state) :
  added st (if b then record_success tier st else st) [].
Proof. destruct b; [apply added_record_success | apply added_refl]. Qed.

Lemma added_target_sleep (st st1 : state) (d : delay) :
  added st st1 [Sent treq] -> added st (sleep d st1) ([Sent treq] ++ [Slept d]).
Proof. intros H. eapply added_trans; [exact H | apply added_sleep]. Qed.

Lemma masked_fallback_ok (st st1 st2 st' : state) (s : bool) (o2 : outcome)
      (attempt : Z) (res : option reply) (k : response -> option reply) :
  added st st1 [Sent treq] ->
  is_zai_route = true ->
  send env (freq s) (record_failure env tier st1) = (o2, st2) ->
  (forall fb, k fb = Some (relay fb) \/ k fb = Some (StreamingResponse fb)) ->
  match o2 with
  | Returns fb => (k fb, st2)
  | Raises e => handle e attempt st2
  end = (res, st') ->
  attempt_ok st st' res.
Proof.
  intros Ha1 Hz Hs2 Hk H. apply send_spec in Hs2 as [Ho2 Ha2].
  rewrite nsent_record_failure in Ho2.
  assert (Hn : nsent st1 = S (nsent st)) by (destruct Ha1 as [_ ->]; simpl; lia).
  rewrite Hn in Ho2.
  assert (Ha : added st st2 ([Sent treq] ++ [] ++ [Sent (freq s)])).
  { eapply added_trans; [exact Ha1|].
    eapply added_trans; [apply added_record_failure | exact Ha2]. }
  destruct o2 as [fb|e].
  - injection H as <- <-. eapply attempt_ok_fallback; eauto.
  - eapply attempt_ok_fallback_raised; eauto.
Qed.

Lemma stream_attempt_spec (attempt : Z) (st st' : state) (res : option reply) :
  stream_step attempt st = (res, st') -> attempt_ok st st' res.
Proof.
  unfold stream_attempt, backoff.
  destruct (send env treq st) as [o st1] eqn:Hs. apply send_spec in Hs as [Ho Ha1].
  destruct o as [r|e].
  - destruct (400 <=? status_code r).
    + destruct (is_zai_route && has_marker (content r)) eqn:Hm.
      * apply andb_true_iff in Hm as [Hz _].
        destruct (send env (freq true) (record_failure env tier st1)) as [o2 st2] eqn:Hs2.
        intros H.
        apply (masked_fallback_ok st st1 st2 st' true o2 attempt res
                 (fun fb => if status_code fb <? 400 then Some (StreamingResponse fb)
                            else Some (relay fb))); try assumption.
        -- intros fb. destruct (status_code fb <? 400); auto.
        -- destruct o2 as [fb|]; [|exact H]. now destruct (status_code fb <? 400).
      * intros [= <- <-]. eapply attempt_ok_plain; [exact Ha1 | reflexivity].
    + intros [= <- <-]. eapply (attempt_ok_plain _ _ _ ([Sent treq] ++ [])); [|reflexivity].
      eapply added_trans; [exact Ha1 | apply added_if_success].
  - destruct e as [| |r|msg].
    + destruct (more cfg attempt); intros [= <- <-].
      * eapply attempt_ok_plain; [now apply added_target_sleep | reflexivity].
      * eapply attempt_ok_plain; [exact Ha1 | reflexivity].
    + destruct (more cfg attempt); intros [= <- <-].
      * eapply attempt_ok_plain; [now apply added_target_sleep | reflexivity].
      * eapply attempt_ok_plain; [exact Ha1 | reflexivity].
    + intros H. eapply attempt_ok_handled; [exact Ha1 | reflexivity | exact H].
    + intros H. eapply attempt_ok_handled; [exact Ha1 | reflexivity | exact H].
Qed.

Lemma post_attempt_spec (attempt : Z) (st st' : state) (res : option reply) :
  post_step attempt st = (res, st') -> attempt_ok st st' res.
Proof.
  unfold post_attempt.
  destruct (send env treq st) as [o st1] eqn:Hs. apply send_spec in Hs as [Ho Ha1].
  destruct o as [r|e].
  - destruct ((status_code r =? 429) && more cfg attempt).
    + destruct (retry_after_delay py_float r attempt) as [d|].
      * intros [= <- <-].
        eapply attempt_ok_plain; [now apply added_target_sleep | reflexivity].
      * intros H. eapply attempt_ok_handled; [exact Ha1 | reflexivity | exact H].
    + destruct ((400 <=? status_code r) && is_zai_route && _is_zai_server_error r) eqn:Hm.
      * apply andb_true_iff in Hm as [Hm _]. apply andb_true_iff in Hm as [_ Hz].
        destruct (send env (freq false) (record_failure env tier st1)) as [o2 st2] eqn:Hs2.
        intros H.
        apply (masked_fallback_ok st st1 st2 st' false o2 attempt res
                 (fun fb => Some (relay fb))); auto.
      * intros [= <- <-]. eapply (attempt_ok_plain _ _ _ ([Sent treq] ++ [])); [|reflexivity].
        eapply added_trans; [exact Ha1 | apply added_if_success].
  - intros H. eapply attempt_ok_handled; [exact Ha1 | reflexivity | exact H].
Qed.

Lemma one_attempt_spec (attempt : Z) (st st' : state) (res : option reply) :
  step attempt st = (res, st') -> attempt_ok st st' res.
Proof.
  intros H.
  assert (Hc : stream_step attempt st = (res, st') \/ post_step attempt st = (res, st')).
  { revert H. unfold one_attempt. generalize is_streaming.
    intros [] H; [left | right]; exact H. }
  destruct Hc; [now apply (stream_attempt_spec attempt) | now apply (post_attempt_spec attempt)].
Qed.

(** The whole loop.  On the secondary route the target is Z.AI and the
    fall-back calls go to Anthropic; on the primary route there is no
    fall-back call. *)
Hypothesis Hroute : target = if is_zai_route then ZAI else Anthropic.

Lemma to_target_treq : to target treq = true.
Proof. unfold to. simpl. now destruct target. Qed.

Lemma to_target_freq (s : bool) : is_zai_route = true -> to target (freq s) = false.
Proof. intros Hz. unfold to. simpl. rewrite Hroute, Hz. reflexivity. Qed.

Definition run_ok (left : nat) (st st' : state) (r : reply) : Prop :=
  exists evs,
    added st st' evs
    /\ Forall (fun rq => rq = treq \/ (is_zai_route = true /\ exists s, rq = freq s))
              (sends evs)
    /\ (calls_to target evs <= left)%nat
    /\ (forall i rq fb,
          sends evs !! i = Some rq ->
          to target rq = false ->
          answer env (nsent st + i) = Returns fb ->
          S i = List.length (sends evs)
          /\ (r = relay fb \/ r = StreamingResponse fb)).

Lemma calls_to_app (u : upstream) (a b : list event) :
  calls_to u (a ++ b) = (calls_to u a + calls_to u b)%nat.
Proof. unfold calls_to. now rewrite sends_app, List.filter_app, length_app. Qed.

Lemma calls_to_attempt (evs : list event) (fbs : list request) :
  sends evs = treq :: fbs ->
  Forall (fun rq => exists s, rq = freq s) fbs ->
  (fbs <> [] -> is_zai_route = true) ->
  calls_to target evs = 1%nat.
Proof.
  intros Hs Hf Hz. unfold calls_to. rewrite Hs. simpl. rewrite to_target_treq. simpl.
  f_equal. destruct fbs as [|rq fbs]; [reflexivity|].
  specialize (Hz ltac:(discriminate)). clear Hs.
  induction Hf as [|x l [s ->] _ IH]; [reflexivity|].
  simpl. now rewrite to_target_freq.
Qed.

Lemma attempts_spec (left : nat) (attempt : Z) (st st' : state) (r : reply) :
  loop left attempt st = (r, st') -> run_ok left st st' r.
Proof.
  revert attempt st. induction left as [|left IH]; intros attempt st; simpl.
  - intros [= <- <-]. exists []. split; [apply added_refl|].
    split; [constructor|]. split; [reflexivity|]. intros i rq fb H. discriminate H.
  - destruct (step attempt st) as [res st1] eqn:Hstep.
    apply one_attempt_spec in Hstep as (evs1 & fbs & Ha1 & Hs1 & Hf & Hz & Hlast).
    assert (Hvalid : Forall (fun rq => rq = treq \/ (is_zai_route = true /\ exists s, rq = freq s))
                            (sends evs1)).
    { rewrite Hs1. constructor; [now left|].
      destruct fbs as [|rq fbs]; [constructor|]. specialize (Hz ltac:(discriminate)).
      eapply Forall_impl; [exact Hf|]. intros x Hx. now right. }
    assert (Hcount : calls_to target evs1 = 1%nat) by (eapply calls_to_attempt; eauto).
    assert (Hfirst : forall i rq, sends evs1 !! i = Some rq -> to target rq = false ->
                                  exists j, i = S j /\ fbs !! j = Some rq).
    { intros i rq Hi Hto. rewrite Hs1 in Hi. destruct i as [|j].
      - injection Hi as <-. rewrite to_target_treq in Hto. discriminate.
      - now exists j. }
    destruct res as [reply|].
    + intros [= <- <-]. exists evs1. split; [exact Ha1|]. split; [exact Hvalid|].
      split; [lia|]. intros i rq fb Hi Hto Hans.
      destruct (Hfirst i rq Hi Hto) as (j & -> & Hj).
      replace (nsent st + S j)%nat with (S (nsent st) + j)%nat in Hans by lia.
      destruct (Hlast j rq fb Hj Hans) as [Hlen Hres].
      split; [rewrite Hs1; simpl; lia|].
      destruct Hres as [[= ->]|[= ->]]; auto.
    + intros Hrest. apply IH in Hrest as (evs2 & Ha2 & Hvalid2 & Hcount2 & Hlast2).
      exists (evs1 ++ evs2). split; [eapply added_trans; eassumption|].
      split; [rewrite sends_app; now apply Forall_app|].
      split; [rewrite calls_to_app; lia|].
      intros i rq fb Hi Hto Hans. rewrite sends_app in Hi. rewrite sends_app, length_app.
      apply lookup_app_Some in Hi as [Hi1 | [Hge Hi2]].
      * destruct (Hfirst i rq Hi1 Hto) as (j & -> & Hj).
        replace (nsent st + S j)%nat with (S (nsent st) + j)%nat in Hans by lia.
        destruct (Hlast j rq fb Hj Hans) as [_ [H|H]]; discriminate H.
      * destruct Ha1 as [_ Hn1].
        destruct (Hlast2 (i - List.length (sends evs1))%nat rq fb Hi2 Hto) as [Hlen Hres].
        { rewrite Hn1. now replace (nsent st + List.length (sends evs1)
                                    + (i - List.length (sends evs1)))%nat
            with (nsent st + i)%nat by lia. }
        split; [lia | exact Hres].
Qed.

End LoopProperties.

(** ** The handler as a whole *)

Section HandlerProperties.

Variable py_float : string -> option (Z * Z).
Variable cfg : Config.
Variable env : world.

Local Abbreviation handler := (proxy_messages py_float cfg env).
Local Abbreviation start := (fun cb => {| breaker := cb; trace := []; nsent := 0 |}).

(** The three ways a request goes: an exception escapes before any call,
    the loop runs against the secondary provider with the rewritten and
    sanitized payload, or it runs against the primary provider with the
    payload as received. *)
Lemma proxy_messages_cases (cb : CircuitBreaker.t) (body : dict) (hs : headers) :
  (fst (handler cb body hs) = Unhandled /\ trace (snd (handler cb body hs)) = [])
  \/ (exists model p cb' data,
        model_of body = Some model
        /\ resolve cfg env cb model body = Some (Some p, cb')
        /\ sanitize_for_zai (Dict.set "model" (JStr (ZAI_TARGET_MODEL cfg)) body) = Some data
        /\ handler cb body hs
           = attempts py_float cfg env (stream_of body) true (_detect_tier model) ZAI
                      (base_url p +:+ "/v1/messages") (zai_headers p hs) data body hs
                      (Z.to_nat (MAX_RETRIES cfg)) 0 (start cb'))
  \/ (exists model cb',
        model_of body = Some model
        /\ resolve cfg env cb model body = Some (None, cb')
        /\ handler cb body hs
           = attempts py_float cfg env (stream_of body) false (_detect_tier model) Anthropic
                      anthropic_url (_build_anthropic_headers hs) body body hs
                      (Z.to_nat (MAX_RETRIES cfg)) 0 (start cb')).
Proof.
  unfold proxy_messages, model_of, stream_of.
  destruct (default (JStr "") (Dict.get "model" body)) as [| | | |model| |];
    try (left; split; reflexivity).
  destruct (resolve cfg env cb model body) as [[[p|] cb']|] eqn:Hr;
    [| |left; split; reflexivity].
  - destruct (sanitize_for_zai _) as [data|] eqn:Hsan; [|left; split; reflexivity].
    right. left. exists model, p, cb', data. repeat split; solve [assumption | reflexivity].
  - right. right. exists model, cb'. repeat split; solve [assumption | reflexivity].
Qed.

(** Every call the handler makes is the call to the resolved target or, on
    the secondary route only, a fall-back call; the fall-back request and
    the request of the primary route carry the body as received. *)
Lemma proxy_messages_calls (cb : CircuitBreaker.t) (body : dict) (hs : headers) :
  Forall (fun rq =>
            match dest rq with
            | Anthropic => payload rq = body /\ url rq = anthropic_url
            | ZAI => sanitize_for_zai (Dict.set "model" (JStr (ZAI_TARGET_MODEL cfg)) body)
                     = Some (payload rq)
            end)
         (sends (trace (snd (handler cb body hs)))).
Proof.
  destruct (proxy_messages_cases cb body hs)
    as [[_ ->] | [(model & p & cb' & data & _ & _ & Hsan & ->) | (model & cb' & _ & _ & ->)]].
  - constructor.
  - destruct (attempts _ _ _ _ _ _ _ _ _ _ _ _ _ _ _) as [r st] eqn:Hrun.
    apply attempts_spec in Hrun as (evs & [Htr _] & Hvalid & _); [|reflexivity].
    simpl in *. rewrite Htr. eapply Forall_impl; [exact Hvalid|].
    intros rq [-> | (_ & s & ->)]; simpl; [exact Hsan | split; reflexivity].
  - destruct (attempts _ _ _ _ _ _ _ _ _ _ _ _ _ _ _) as [r st] eqn:Hrun.
    apply attempts_spec in Hrun as (evs & [Htr _] & Hvalid & _); [|reflexivity].
    simpl in *. rewrite Htr. eapply Forall_impl; [exact Hvalid|].
    intros rq [-> | ([=] & _)]; simpl. split; reflexivity.
Qed.

End HandlerProperties.

(** ** The object store: a copy made through [json.dumps] and [json.loads]
       shares nothing with the original *)

(** Induction over JSON values, with the hypothesis for every member of a
    list or an object. *)
Section JsonInduction.

Variable P : json -> Prop.
Hypothesis Hnull : P JNull.
Hypothesis Hbool : forall b, P (JBool b).
Hypothesis Hint : forall n, P (JInt n).
Hypothesis Hfloat : forall bits, P (JFloat bits).
Hypothesis Hstr : forall s, P (JStr s).
Hypothesis Hlist : forall xs, Forall P xs -> P (JList xs).
Hypothesis Hdict : forall kvs, Forall (fun kv => P (snd kv)) kvs -> P (JDict kvs).

Fixpoint json_nested_ind (j : json) : P j :=
  match j with
  | JNull => Hnull
  | JBool b => Hbool b
  | JInt n => Hint n
  | JFloat bits => Hfloat bits
  | JStr s => Hstr s
  | JList xs =>
      Hlist xs ((fix members (xs : list json) : Forall P xs :=
                   match xs with
                   | [] => @List.Forall_nil _ P
                   | x :: xs' => @List.Forall_cons _ P x xs' (json_nested_ind x) (members xs')
                   end) xs)
  | JDict kvs =>
      Hdict kvs ((fix members (kvs : dict) : Forall (fun kv => P (snd kv)) kvs :=
                    match kvs with
                    | [] => @List.Forall_nil _ _
                    | kv :: kvs' =>
                        @List.Forall_cons _ _ kv kvs' (json_nested_ind (snd kv)) (members kvs')
                    end) kvs)
  end.

End JsonInduction.

Section StoreFacts.

Import Store.

(** [mapM] over functions that agree on the members of the list. *)
Lemma mapM_agree {A B : Type} (f g : A -> option B) (l : list A) :
  Forall (fun x => f x = g x) l -> mapM f l = mapM g l.
Proof.
  induction 1 as [|x l Hx _ IH]; [reflexivity|].
  simpl. now rewrite Hx, IH.
Qed.

Lemma mapM_Some_impl {A B : Type} (f g : A -> option B) (l : list A) (k : list B) :
  Forall (fun x => forall y, f x = Some y -> g x = Some y) l ->
  mapM f l = Some k -> mapM g l = Some k.
Proof.
  intros H. revert k. induction H as [|x l Hx _ IH]; intros k; simpl; [trivial|].
  destruct (f x) as [y|] eqn:Hf; simpl; [|discriminate].
  rewrite (Hx y eq_refl). simpl.
  destruct (mapM f l) as [k'|]; simpl; [|discriminate].
  intros [= <-]. now rewrite (IH k' eq_refl).
Qed.

(** More fuel and a longer store print the same tree. *)
Lemma dump_mono (fuel : nat) (h : store) (v : value) (j : json) :
  dump fuel h v = Some j ->
  forall fuel' ext, (fuel <= fuel')%nat -> dump fuel' (h ++ ext) v = Some j.
Proof.
  revert v j. induction fuel as [|fuel IH]; intros v j; simpl; [discriminate|].
  intros H fuel' ext Hle. destruct fuel' as [|fuel']; [lia|]. simpl.
  destruct v as [| | | | |l]; try exact H.
  destruct (h !! l) as [o|] eqn:Hl; [|discriminate].
  rewrite (lookup_app_l_Some _ _ _ _ Hl).
  destruct o as [items|vs].
  - destruct (mapM _ items) as [k|] eqn:Hk; [|discriminate].
    erewrite mapM_Some_impl; [exact H | | exact Hk].
    apply Forall_forall. intros [key x] _ [key' y]. simpl.
    destruct (dump fuel h x) as [jx|] eqn:Hx; simpl; [|discriminate].
    intros [= <- <-]. rewrite (IH x jx Hx fuel' ext) by lia. reflexivity.
  - destruct (mapM _ vs) as [k|] eqn:Hk; [|discriminate].
    erewrite mapM_Some_impl; [exact H | | exact Hk].
    apply Forall_forall. intros x _ y Hx. apply IH; [exact Hx | lia].
Qed.

(** References into the part of the store between two addresses. *)
Definition inside (lo hi : nat) (v : value) : Prop :=
  match v with VRef l => (lo <= l < hi)%nat | _ => True end.

Definition values (o : object) : list value :=
  match o with ODict items => map snd items | OList vs => vs end.

(** An object all of whose references stay in that part. *)
Definition closed (lo hi : nat) (o : object) : Prop := Forall (inside lo hi) (values o).

Lemma inside_weaken (lo hi lo' hi' : nat) (v : value) :
  (lo' <= lo)%nat -> (hi <= hi')%nat -> inside lo hi v -> inside lo' hi' v.
Proof. destruct v; simpl; try tauto. lia. Qed.

Lemma closed_weaken (lo hi lo' hi' : nat) (o : object) :
  (lo' <= lo)%nat -> (hi <= hi')%nat -> closed lo hi o -> closed lo' hi' o.
Proof.
  intros H1 H2 H. unfold closed. eapply Forall_impl; [exact H|].
  intros v. now apply inside_weaken.
Qed.

(** What [load] does: it only appends objects; the new objects refer to new
    objects only; and the value it returns prints back as the tree it was
    built from, with fuel the depth of the tree. *)
Definition loaded (j : json) (v : value) (h h' : store) : Prop :=
  exists new,
    h' = h ++ new
    /\ inside (List.length h) (List.length h') v
    /\ Forall (closed (List.length h) (List.length h')) new
    /\ dump (depth j) h' v = Some j
    /\ (depth j <= S (List.length new))%nat.

Lemma load_list (xs : list json) :
  Forall (fun x => forall h v h', load x h = (v, h') -> loaded x v h h') xs ->
  forall h vs h',
    thread load xs h = (vs, h') ->
    exists new,
      h' = h ++ new
      /\ Forall (inside (List.length h) (List.length h')) vs
      /\ Forall (closed (List.length h) (List.length h')) new
      /\ Forall2 (fun v x => dump (list_max (map depth xs)) h' v = Some x) vs xs
      /\ (list_max (map depth xs) <= S (List.length new))%nat.
Proof.
  induction 1 as [|x xs Hx _ IH]; intros h vs h'; simpl.
  - intros [= <- <-]. exists []. rewrite app_nil_r.
    repeat split; try constructor. lia.
  - destruct (load x h) as [v h1] eqn:Hl.
    destruct (thread load xs h1) as [vs' h2] eqn:Ht.
    intros [= <- <-].
    destruct (Hx _ _ _ Hl) as (n1 & -> & Hv & Hc1 & Hd & Hdepth).
    destruct (IH _ _ _ Ht) as (n2 & -> & Hvs & Hc2 & Hds & Hmax).
    exists (n1 ++ n2). rewrite !length_app in *.
    split; [now rewrite app_assoc|].
    split.
    { constructor; [eapply inside_weaken; [| |exact Hv]; lia|].
      eapply Forall_impl; [exact Hvs|]. intros w. apply inside_weaken; lia. }
    split.
    { apply Forall_app. split.
      - eapply Forall_impl; [exact Hc1|]. intros o. apply closed_weaken; lia.
      - eapply Forall_impl; [exact Hc2|]. intros o. apply closed_weaken; lia. }
    split; [|lia].
    constructor.
    + apply (dump_mono _ _ _ _ Hd). lia.
    + eapply Forall2_impl; [exact Hds|]. intros w y Hw. simpl in Hw.
      rewrite <- (app_nil_r ((h ++ n1) ++ n2)). apply (dump_mono _ _ _ _ Hw). lia.
Qed.

Lemma load_items (kvs : dict) :
  Forall (fun kv => forall h v h', load (snd kv) h = (v, h') -> loaded (snd kv) v h h') kvs ->
  forall h items h',
    thread (fun kv h => let '(v, h) := load (snd kv) h in ((fst kv, v), h)) kvs h
      = (items, h') ->
    exists new,
      h' = h ++ new
      /\ Forall (inside (List.length h) (List.length h')) (map snd items)
      /\ Forall (closed (List.length h) (List.length h')) new
      /\ Forall2 (fun item kv =>
                   fst item = fst kv
                   /\ dump (list_max (map (fun kv => depth (snd kv)) kvs)) h' (snd item)
                      = Some (snd kv))
                 items kvs
      /\ (list_max (map (fun kv => depth (snd kv)) kvs) <= S (List.length new))%nat.
Proof.
  induction 1 as [|[k x] kvs Hx _ IH]; intros h items h'; simpl.
  - intros [= <- <-]. exists []. rewrite app_nil_r.
    repeat split; try constructor. lia.
  - destruct (load x h) as [v h1] eqn:Hl.
    destruct (thread _ kvs h1) as [items' h2] eqn:Ht.
    intros [= <- <-].
    destruct (Hx _ _ _ Hl) as (n1 & -> & Hv & Hc1 & Hd & Hdepth).
    destruct (IH _ _ _ Ht) as (n2 & -> & Hvs & Hc2 & Hds & Hmax).
    exists (n1 ++ n2). rewrite !length_app in *. simpl in *.
    split; [now rewrite app_assoc|].
    split.
    { constructor; [eapply inside_weaken; [| |exact Hv]; lia|].
      eapply Forall_impl; [exact Hvs|]. intros w. apply inside_weaken; lia. }
    split.
    { apply Forall_app. split.
      - eapply Forall_impl; [exact Hc1|]. intros o. apply closed_weaken; lia.
      - eapply Forall_impl; [exact Hc2|]. intros o. apply closed_weaken; lia. }
    split; [|lia].
    constructor.
    + split; [reflexivity|]. apply (dump_mono _ _ _ _ Hd). lia.
    + eapply Forall2_impl; [exact Hds|]. intros w y [Hk Hw]. split; [exact Hk|].
      rewrite <- (app_nil_r ((h ++ n1) ++ n2)). apply (dump_mono _ _ _ _ Hw). lia.
Qed.

Lemma load_spec (j : json) :
  forall h v h', load j h = (v, h') -> loaded j v h h'.
Proof.
  induction j as [| | | | |xs IH|kvs IH] using json_nested_ind; intros h v h'; simpl;
    try (intros [= <- <-]; exists []; rewrite app_nil_r;
         repeat split; simpl; solve [constructor | lia | reflexivity]).
  - destruct (thread load xs h) as [vs h1] eqn:Ht. unfold alloc. intros [= <- <-].
    destruct (load_list xs IH _ _ _ Ht) as (new & -> & Hvs & Hc & Hds & Hmax).
    exists (new ++ [OList vs]). rewrite !length_app in *. simpl.
    split; [now rewrite app_assoc|]. split; [lia|].
    split.
    { apply Forall_app. split.
      - eapply Forall_impl; [exact Hc|]. intros o. apply closed_weaken; lia.
      - repeat constructor. unfold closed. simpl.
        eapply Forall_impl; [exact Hvs|]. intros w. apply inside_weaken; lia. }
    split; [|lia].
    rewrite (list_lookup_middle (h ++ new) [] (OList vs) _ (eq_sym (length_app h new))).
    replace (mapM (dump (list_max (map depth xs)) ((h ++ new) ++ [OList vs])) vs)
      with (Some xs); [reflexivity|].
    symmetry. apply mapM_Some. eapply Forall2_impl; [exact Hds|].
    intros w y Hw. apply (dump_mono _ _ _ _ Hw). lia.
  - destruct (thread _ kvs h) as [items h1] eqn:Ht. unfold alloc. intros [= <- <-].
    destruct (load_items kvs IH _ _ _ Ht) as (new & -> & Hvs & Hc & Hds & Hmax).
    exists (new ++ [ODict items]). rewrite !length_app in *. simpl.
    split; [now rewrite app_assoc|]. split; [lia|].
    split.
    { apply Forall_app. split.
      - eapply Forall_impl; [exact Hc|]. intros o. apply closed_weaken; lia.
      - repeat constructor. unfold closed. simpl.
        eapply Forall_impl; [exact Hvs|]. intros w. apply inside_weaken; lia. }
    split; [|lia].
    rewrite (list_lookup_middle (h ++ new) [] (ODict items) _ (eq_sym (length_app h new))).
    match goal with |- JDict <$> ?m = _ => replace m with (Some kvs) end; [reflexivity|].
    symmetry. apply mapM_Some. eapply Forall2_impl; [exact Hds|].
    intros [k w] [k' y] [Hk Hw]. simpl in *. subst k'.
    now rewrite (dump_mono _ _ _ _ Hw _ [ODict items] (Nat.le_refl _)).
Qed.

End StoreFacts.

(** Edits made through references that point outside a part of the store
    leave that part as it was. *)
Section Untouched.

Import Store.

(** The part is [[lo, hi)]; [h1] is the store when the copy was made. *)
Variables lo hi : nat.
Variable h1 : store.

Definition outside (v : value) : Prop :=
  match v with VRef l => ~ (lo <= l < hi)%nat | _ => True end.

(** The part is as in [h1], and no object outside it refers into it. *)
Definition apart (h : store) : Prop :=
  (hi <= List.length h)%nat
  /\ (forall l, (lo <= l < hi)%nat -> h !! l = h1 !! l)
  /\ (forall l o, ~ (lo <= l < hi)%nat -> h !! l = Some o -> Forall outside (values o)).

Lemma apart_insert (h : store) (l : nat) (o : object) :
  apart h -> ~ (lo <= l < hi)%nat -> Forall outside (values o) -> apart (<[l := o]> h).
Proof.
  intros (Hlen & Hsame & Hout) Hl Ho. split; [now rewrite length_insert|]. split.
  - intros l' Hl'. rewrite list_lookup_insert_ne by (intros ->; contradiction). now apply Hsame.
  - intros l' o' Hl'. destruct (decide (l = l')) as [<-|Hne].
    + intros H. destruct (decide (l < List.length h)%nat) as [Hlt|Hge].
      * rewrite list_lookup_insert_eq in H by exact Hlt. now injection H as <-.
      * rewrite list_insert_ge in H by lia. now apply (Hout l).
    + rewrite list_lookup_insert_ne by exact Hne. now apply Hout.
Qed.

Lemma apart_alloc (h : store) (o : object) :
  apart h -> Forall outside (values o) ->
  apart (h ++ [o]) /\ outside (VRef (List.length h)).
Proof.
  intros (Hlen & Hsame & Hout) Ho. split; [|simpl; lia].
  split; [rewrite length_app; simpl; lia|]. split.
  - intros l Hl. rewrite lookup_app_l by lia. now apply Hsame.
  - intros l o' Hl H. apply lookup_app_Some in H as [H | [_ H]]; [now apply (Hout l)|].
    destruct (l - List.length h)%nat; [|discriminate]. now injection H as <-.
Qed.

Lemma outside_items (h : store) (v : value) (items : list (string * value)) :
  apart h -> outside v -> items_of h v = Some items -> Forall outside (map snd items).
Proof.
  intros (_ & _ & Hout) Hv. destruct v as [| | | | |l]; try discriminate. simpl.
  destruct (h !! l) as [[d|]|] eqn:Hl; try discriminate.
  intros [= <-]. exact (Hout l _ Hv Hl).
Qed.

Lemma outside_elems (h : store) (v : value) (vs : list value) :
  apart h -> outside v -> elems_of h v = Some vs -> Forall outside vs.
Proof.
  intros (_ & _ & Hout) Hv. destruct v as [| | | | |l]; try discriminate. simpl.
  destruct (h !! l) as [[|vs']|] eqn:Hl; try discriminate.
  intros [= <-]. exact (Hout l _ Hv Hl).
Qed.

Lemma outside_get (key : string) (items : list (string * value)) (x : value) :
  Forall outside (map snd items) -> Dict.get key items = Some x -> outside x.
Proof.
  induction items as [|[k v] items IH]; simpl; [discriminate|].
  intros H. apply Forall_cons in H as [Hv H].
  destruct (String.eqb key k); [now intros [= <-] | now apply IH].
Qed.

Lemma outside_lookup (key : string) (h : store) (v x : value) :
  apart h -> outside v -> lookup key v h = Some x -> outside x.
Proof.
  intros Hh Hv. unfold lookup. destruct (items_of h v) as [items|] eqn:Hi; [|discriminate].
  simpl. apply outside_get. eapply outside_items; eassumption.
Qed.

Lemma outside_pop_items (key : string) (items : list (string * value)) :
  Forall outside (map snd items) -> Forall outside (map snd (Dict.pop key items)).
Proof.
  induction items as [|[k v] items IH]; simpl; [trivial|].
  intros H. apply Forall_cons in H as [Hv H].
  destruct (String.eqb key k); [now apply IH|]. simpl. constructor; [exact Hv | now apply IH].
Qed.

Lemma outside_set_items (key : string) (x : value) (items : list (string * value)) :
  outside x -> Forall outside (map snd items) ->
  Forall outside (map snd (Dict.set key x items)).
Proof.
  intros Hx H. unfold Dict.set. destruct (Dict.has key items).
  - induction items as [|[k v] items IH]; simpl; [trivial|].
    apply Forall_cons in H as [Hv H].
    destruct (String.eqb key k); simpl; constructor; auto.
  - rewrite map_app. apply Forall_app. split; [exact H|]. now repeat constructor.
Qed.

Lemma apart_pop (key : string) (v : value) (h : store) :
  apart h -> outside v -> apart (pop key v h).
Proof.
  intros Hh Hv. destruct v as [| | | | |l]; try exact Hh. simpl.
  destruct (h !! l) as [[items|]|] eqn:Hl; try exact Hh.
  apply apart_insert; [exact Hh | exact Hv|]. simpl.
  apply outside_pop_items. destruct Hh as (_ & _ & Hout). exact (Hout l _ Hv Hl).
Qed.

Lemma apart_set_item (key : string) (x v : value) (h : store) :
  apart h -> outside v -> outside x -> apart (set_item key x v h).
Proof.
  intros Hh Hv Hx. destruct v as [| | | | |l]; try exact Hh. simpl.
  destruct (h !! l) as [[items|]|] eqn:Hl; try exact Hh.
  apply apart_insert; [exact Hh | exact Hv|]. simpl.
  apply outside_set_items; [exact Hx|]. destruct Hh as (_ & _ & Hout). exact (Hout l _ Hv Hl).
Qed.

Lemma apart_for_each (body : value -> store -> store) (vs : list value) (h : store) :
  (forall v h, apart h -> outside v -> apart (body v h)) ->
  Forall outside vs -> apart h -> apart (for_each body vs h).
Proof.
  intros Hbody Hvs. revert h. unfold for_each.
  induction Hvs as [|v vs Hv _ IH]; intros h Hh; simpl; [exact Hh|].
  apply IH. now apply Hbody.
Qed.

Lemma apart_strip_block (v : value) (h : store) :
  apart h -> outside v -> apart (strip_block v h).
Proof. apply apart_pop. Qed.

Lemma apart_strip_message (v : value) (h : store) :
  apart h -> outside v -> apart (strip_message v h).
Proof.
  intros Hh Hv. unfold strip_message. destruct (items_of h v); [|exact Hh].
  pose proof (apart_pop "cache_control" v h Hh Hv) as Hh'.
  destruct (lookup "content" v _) as [c|] eqn:Hc; [|exact Hh'].
  pose proof (outside_lookup _ _ _ _ Hh' Hv Hc) as Hout.
  destruct (elems_of _ c) as [blocks|] eqn:Hb; [|exact Hh'].
  apply apart_for_each; [exact apart_strip_block | | exact Hh'].
  eapply outside_elems; eassumption.
Qed.

Lemma apart_strip_each (body : value -> store -> store) (key : string)
      (data : value) (h h' : store) :
  (forall v h, apart h -> outside v -> apart (body v h)) ->
  apart h -> outside data -> strip_each body key data h = Some h' -> apart h'.
Proof.
  intros Hbody Hh Hd. unfold strip_each.
  destruct (lookup key data h) as [v|] eqn:Hv; [|now intros [= <-]].
  pose proof (outside_lookup _ _ _ _ Hh Hd Hv) as Hout.
  destruct (elems_of h v) as [xs|] eqn:Hx.
  - intros [= <-]. apply apart_for_each; [exact Hbody | | exact Hh].
    eapply outside_elems; eassumption.
  - destruct (iterable h v); [now intros [= <-] | discriminate].
Qed.

Lemma apart_strip_cache_control (data : value) (h h' : store) :
  apart h -> outside data -> _strip_cache_control data h = Some h' -> apart h'.
Proof.
  intros Hh Hd. unfold _strip_cache_control.
  match goal with |- (?m ≫= _) = _ -> _ => destruct m as [h2|] eqn:Hm end;
    [|discriminate].
  simpl. intros Ht.
  apply (apart_strip_each strip_block "tools" data h2 h' apart_strip_block); [|exact Hd|exact Ht].
  apply (apart_strip_each strip_message "messages" data _ h2 apart_strip_message) in Hm;
    [exact Hm| |exact Hd].
  destruct (lookup "system" data h) as [sys|] eqn:Hs; [|exact Hh].
  pose proof (outside_lookup _ _ _ _ Hh Hd Hs) as Hout.
  destruct (elems_of h sys) as [blocks|] eqn:Hb.
  - apply apart_for_each; [exact apart_strip_block | | exact Hh].
    eapply outside_elems; eassumption.
  - now apply apart_pop.
Qed.

Lemma apart_pops (keys : list string) (data : value) (h : store) :
  apart h -> outside data -> apart (fold_left (fun h key => pop key data h) keys h).
Proof.
  intros Hh Hd. revert h Hh. induction keys as [|k keys IH]; intros h Hh; simpl; [exact Hh|].
  apply IH. now apply apart_pop.
Qed.

Lemma outside_filter (f : value -> bool) (vs : list value) :
  Forall outside vs -> Forall outside (List.filter f vs).
Proof.
  induction 1 as [|v vs Hv _ IH]; simpl; [constructor|].
  destruct (f v); [now constructor | exact IH].
Qed.

Lemma apart_sanitize (data : value) (h h' : store) :
  apart h -> outside data -> sanitize_for_zai data h = Some h' -> apart h'.
Proof.
  intros Hh Hd. unfold sanitize_for_zai.
  pose proof (apart_pops unsupported_keys data h Hh Hd) as H1.
  set (ha := fold_left _ unsupported_keys h) in *.
  assert (H2 : apart (match lookup "thinking" data ha with
                      | Some thinking => pop "budget_tokens" thinking ha
                      | None => ha
                      end)).
  { destruct (lookup "thinking" data ha) as [th|] eqn:Ht; [|exact H1].
    apply apart_pop; [exact H1|]. eapply outside_lookup; eassumption. }
  set (hb := match lookup "thinking" data ha with Some _ => _ | None => _ end) in *.
  pose proof (apart_pop "extended_thinking" data hb H2 Hd) as H3.
  set (hc := pop "extended_thinking" data hb) in *.
  apply apart_strip_cache_control; [|exact Hd].
  destruct (lookup "tools" data hc) as [tools|] eqn:Ht; [|exact H3].
  pose proof (outside_lookup _ _ _ _ H3 Hd Ht) as Htools.
  destruct (elems_of hc tools) as [ts|] eqn:Hts; [|exact H3].
  pose proof (outside_elems _ _ _ H3 Htools Hts) as Houts.
  unfold alloc.
  destruct (apart_alloc hc (OList (List.filter (fun t => negb (is_web_search_tool hc t)) ts)) H3)
    as [H4 Hfresh]; [now apply outside_filter|].
  pose proof (apart_set_item "tools" _ data _ H4 Hd Hfresh) as H5.
  set (hd := set_item "tools" _ data _) in *.
  destruct (List.filter _ ts).
  - apply apart_pop; [|exact Hd]. now apply apart_pop.
  - destruct (lookup "tool_choice" data hd) as [tc|]; [|exact H5].
    destruct (lookup "name" tc hd) as [[| | | |s|]|]; try exact H5.
    destruct (String.eqb s "web_search"); [now apply apart_pop | exact H5].
Qed.

End Untouched.

(** Two stores that agree on a part closed under references print the same
    tree from any value inside it. *)
Lemma dump_agree (lo hi : nat) (h1 h : Store.store) (fuel : nat) (v : Store.value) :
  (forall l, (lo <= l < hi)%nat -> h !! l = h1 !! l) ->
  (forall l o, (lo <= l < hi)%nat -> h1 !! l = Some o -> closed lo hi o) ->
  inside lo hi v -> Store.dump fuel h v = Store.dump fuel h1 v.
Proof.
  intros Hsame Hclosed. revert v. induction fuel as [|fuel IH]; intros v Hv; [reflexivity|].
  simpl. destruct v as [| | | | |l]; try reflexivity. simpl in Hv.
  rewrite (Hsame l Hv). destruct (h1 !! l) as [[items|vs]|] eqn:Hl; [| |reflexivity].
  - f_equal. apply mapM_agree. specialize (Hclosed l _ Hv Hl). unfold closed in Hclosed.
    simpl in Hclosed. rewrite List.Forall_map in Hclosed.
    eapply Forall_impl; [exact Hclosed|]. intros [k x] Hx. simpl in *. now rewrite IH.
  - f_equal. apply mapM_agree. specialize (Hclosed l _ Hv Hl).
    eapply Forall_impl; [exact Hclosed|]. intros x Hx. now apply IH.
Qed.

(** The copy made at ingress still prints as the body received once the
    model name has been overwritten and the payload sanitized in place. *)
Lemma snapshot_unchanged (body : dict) (target_model : string)
      (h : Store.store) (data original_data : Store.value) :
  Store.prepare body target_model = Some (h, data, original_data) ->
  Store.serialise h original_data = Some (JDict body).
Proof.
  unfold Store.prepare, Store.serialise. intros H.
  destruct (Store.load (JDict body) []) as [data0 h0] eqn:L0.
  destruct (load_spec _ _ _ _ L0) as (new0 & E0 & Hin0 & Hc0 & Hd0 & Hdepth0).
  rewrite app_nil_l in E0. subst new0. change (List.length []) with 0%nat in *.
  assert (Htext : Store.dump (S (List.length h0)) h0 data0 = Some (JDict body)).
  { rewrite <- (app_nil_r h0) at 2. apply (dump_mono _ _ _ _ Hd0). lia. }
  rewrite Htext in H. cbn [mbind option_bind] in H.
  destruct (Store.load (JDict body) h0) as [orig h1] eqn:L1.
  destruct (load_spec _ _ _ _ L1) as (new1 & E1 & Hin1 & Hc1 & Hd1 & Hdepth1).
  destruct (Store.sanitize_for_zai data0 _) as [h'|] eqn:Hsan; [|discriminate].
  cbn [mbind option_bind] in H. injection H as <- <- <-.
  set (lo := List.length h0) in *. set (hi := List.length h1) in *.
  assert (Hout : outside lo hi data0).
  { destruct data0; simpl in *; trivial. lia. }
  assert (Hstart : apart lo hi h1 h1).
  { split; [unfold hi; lia|]. split; [reflexivity|].
    intros l o Hl Ho. assert (Hlt : (l < lo)%nat).
    { apply lookup_lt_Some in Ho. fold hi in Ho. lia. }
    rewrite E1, lookup_app_l in Ho by exact Hlt.
    pose proof (proj1 (Forall_lookup _ _) Hc0 l o Ho) as Hclosed.
    eapply Forall_impl; [exact Hclosed|]. intros v Hv. destruct v; simpl in *; trivial. lia. }
  assert (Hend : apart lo hi h1 h').
  { eapply apart_sanitize; [|exact Hout|exact Hsan].
    now apply apart_set_item. }
  destruct Hend as (Hlen & Hsame & _).
  rewrite (dump_agree lo hi h1 h').
  - rewrite <- (app_nil_r h1). apply (dump_mono _ _ _ _ Hd1).
    assert (List.length new1 <= hi)%nat by (unfold hi; rewrite E1, length_app; lia). lia.
  - exact Hsame.
  - intros l o Hl Ho. rewrite E1 in Ho.
    rewrite lookup_app_r in Ho by (unfold lo in Hl; lia).
    exact (proj1 (Forall_lookup _ _) Hc1 _ o Ho).
  - exact Hin1.
Qed.

(** The store and the value semantics on one payload: the in-place
    sanitizer leaves in the store the tree the functional sanitizer
    computes, and the copy is the body as received. *)
Example store_agrees_with_values :
  let body :=
    [("model", JStr "claude-sonnet-4-6");
     ("metadata", JDict [("user_id", JStr "u1")]);
     ("thinking", JDict [("type", JStr "enabled"); ("budget_tokens", JInt 1000)]);
     ("system", JList [JDict [("type", JStr "text"); ("text", JStr "be brief");
                              ("cache_control", JDict [("type", JStr "ephemeral")])]]);
     ("messages",
      JList [JDict [("role", JStr "user"); ("cache_control", JNull);
                    ("content", JList [JDict [("type", JStr "text"); ("text", JStr "hello");
                                              ("cache_control", JDict [])];
                                       JStr "plain"])]]);
     ("tools", JList [JDict [("type", JStr "web_search_20250305"); ("name", JStr "web_search")];
                      JDict [("name", JStr "calc"); ("cache_control", JDict [])]]);
     ("tool_choice", JDict [("type", JStr "auto"); ("name", JStr "web_search")]);
     ("stream", JBool true)] in
  match Store.prepare body "glm-5" with
  | Some (h, data, original_data) =>
      Store.serialise h data
      = JDict <$> sanitize_for_zai (Dict.set "model" (JStr "glm-5") body)
      /\ Store.serialise h original_data = Some (JDict body)
  | None => False
  end.
Proof. vm_compute. split; reflexivity. Qed.

(** ** C1: the payload of a fall-back call *)

Section FallbackPayload.

Variable py_float : string -> option (Z * Z).
Variable cfg : Config.
Variable env : world.

(** C1. The copy of the payload taken at ingress is not reached by the
    rewrite of the model name nor by the sanitizer, which edit the working
    payload in place: printed afterwards, it is the body as received.  And
    every call the handler makes to the primary provider, on any path
    (fall-back after a masked failure, streaming or not, fall-back after
    the read timeouts are exhausted, or a request routed to the primary
    provider from the start), carries exactly that body. *)
Theorem fallback_payload_is_the_body_received
        (cb : CircuitBreaker.t) (body : dict) (hs : headers) :
  (forall h data original_data,
      Store.prepare body (ZAI_TARGET_MODEL cfg) = Some (h, data, original_data) ->
      Store.serialise h original_data = Some (JDict body))
  /\ Forall (fun rq => dest rq = Anthropic -> payload rq = body)
            (sends (trace (snd (proxy_messages py_float cfg env cb body hs)))).
Proof.
  split.
  - intros h data original_data. apply snapshot_unchanged.
  - eapply Forall_impl; [apply proxy_messages_calls|].
    intros rq H Hd. simpl in H. rewrite Hd in H. apply H.
Qed.

End FallbackPayload.

(** ** C9: a web-search tool sends the request to the primary provider *)

Section WebSearchBypass.

Variable py_float : string -> option (Z * Z).
Variable cfg : Config.
Variable env : world.

Lemma has_web_search_true (body : dict) (tools : list json) :
  Dict.get "tools" body = Some (JList tools) ->
  existsb is_web_search_tool tools = true ->
  _has_web_search body = Some true.
Proof. intros Ht Hws. unfold _has_web_search. rewrite Ht. simpl. now rewrite Hws. Qed.

(** C9. Let the [tools] list of a request hold an entry whose type begins
    with "web_search".  Whatever the model name, the configuration and the
    state of the circuit breaker, the route resolves to the primary
    provider and the breaker is left as it was (it is not even consulted);
    the handler then runs its loop against Anthropic with the payload as
    received (model name kept, no sanitization), so every call it makes
    goes to Anthropic and carries that payload. *)
Theorem web_search_bypass
        (cb : CircuitBreaker.t) (body : dict) (hs : headers) (tools : list json) :
  Dict.get "tools" body = Some (JList tools) ->
  existsb is_web_search_tool tools = true ->
  (forall model, resolve cfg env cb model body = Some (None, cb))
  /\ (forall model,
        model_of body = Some model ->
        proxy_messages py_float cfg env cb body hs
        = attempts py_float cfg env (stream_of body) false (_detect_tier model) Anthropic
                   anthropic_url (_build_anthropic_headers hs) body body hs
                   (Z.to_nat (MAX_RETRIES cfg)) 0
                   {| breaker := cb; trace := []; nsent := 0 |})
  /\ Forall (fun rq => dest rq = Anthropic /\ url rq = anthropic_url /\ payload rq = body)
            (sends (trace (snd (proxy_messages py_float cfg env cb body hs)))).
Proof.
  intros Ht Hws.
  assert (Hres : forall model, resolve cfg env cb model body = Some (None, cb)).
  { intros model. unfold resolve, bypass_reason.
    rewrite (has_web_search_true body tools Ht Hws). simpl.
    now destruct (get_provider_config cfg model). }
  split; [exact Hres|]. split.
  - intros model Hm. unfold proxy_messages. unfold model_of in Hm.
    destruct (default (JStr "") (Dict.get "model" body)); try discriminate.
    injection Hm as ->. now rewrite Hres.
  - destruct (proxy_messages_cases py_float cfg env cb body hs)
      as [[_ ->] | [(model & p & cb' & data & _ & Hr & _) | (model & cb' & _ & _ & ->)]].
    + constructor.
    + rewrite Hres in Hr. discriminate.
    + destruct (attempts _ _ _ _ _ _ _ _ _ _ _ _ _ _ _) as [r st] eqn:Hrun.
      apply attempts_spec in Hrun as (evs & [Htr _] & Hvalid & _); [|reflexivity].
      simpl in *. rewrite Htr. eapply Forall_impl; [exact Hvalid|].
      intros rq [-> | ([=] & _)]. repeat split.
Qed.

End WebSearchBypass.

(** The theorem on a sonnet request with a web-search tool, the sonnet tier
    being configured for Z.AI. *)
Lemma web_search_bypass_witness :
  let cfg := {| HAIKU_API_KEY := None; HAIKU_BASE_URL := None;
                SONNET_API_KEY := Some "key"; SONNET_BASE_URL := Some "https://api.z.ai";
                OPUS_API_KEY := None; OPUS_BASE_URL := None;
                ZAI_TARGET_MODEL := "glm-5"; MAX_RETRIES := 3 |} in
  let env := {| answer := fun _ => Returns {| status_code := 200; content := "{}";
                                              resp_headers := [] |};
                clock := fun _ => 0 |} in
  let body := [("model", JStr "claude-sonnet-4-6");
               ("tools", JList [JDict [("type", JStr "web_search_20250305");
                                       ("name", JStr "web_search")]])] in
  get_provider_config cfg "claude-sonnet-4-6" <> None
  /\ resolve cfg env (CircuitBreaker.init 5 120) "claude-sonnet-4-6" body
     = Some (None, CircuitBreaker.init 5 120).
Proof.
  intros cfg env body. split; [discriminate|].
  eapply (web_search_bypass (fun _ => None) cfg env (CircuitBreaker.init 5 120) body []);
    reflexivity.
Defined.

(** ** C8: which calls are retried *)

Section RetryScope.

Variable py_float : string -> option (Z * Z).
Variable cfg : Config.
Variable env : world.

(** C8 (as amended). The retry loop runs against the provider the request
    resolved to, primary or secondary alike: that provider receives at most
    [MAX_RETRIES] calls.  On the primary route these are the only calls.
    On the secondary route every other call is a fall-back call to the
    primary provider, and a fall-back call that is answered by a response
    is the last call of the request, its response being what the client
    receives: it is not retried. *)
Theorem retries_bounded_fallback_final
        (cb cb' : CircuitBreaker.t) (body : dict) (hs : headers)
        (model : string) (route : option provider) :
  model_of body = Some model ->
  resolve cfg env cb model body = Some (route, cb') ->
  let out := proxy_messages py_float cfg env cb body hs in
  (calls_to (upstream_of route) (trace (snd out)) <= Z.to_nat (MAX_RETRIES cfg))%nat
  /\ (route = None -> calls_to ZAI (trace (snd out)) = 0%nat)
  /\ (forall i rq fb,
        sends (trace (snd out)) !! i = Some rq ->
        to (upstream_of route) rq = false ->
        answer env i = Returns fb ->
        S i = List.length (sends (trace (snd out)))
        /\ (fst out = relay fb \/ fst out = StreamingResponse fb)).
Proof.
  intros Hm Hr out. unfold out.
  destruct (proxy_messages_cases py_float cfg env cb body hs)
    as [[_ Htr] | [(model' & p & cb'' & data & Hm' & Hr' & _ & Hrun)
                  | (model' & cb'' & Hm' & Hr' & Hrun)]].
  - rewrite Htr. unfold calls_to. simpl. split; [lia|]. split; [reflexivity|].
    intros i rq fb H. discriminate H.
  - rewrite Hm in Hm'. injection Hm' as <-. rewrite Hr in Hr'. injection Hr' as -> ->.
    rewrite Hrun. clear Hrun.
    destruct (attempts _ _ _ _ _ _ _ _ _ _ _ _ _ _ _) as [r st] eqn:Hrun.
    apply attempts_spec in Hrun as (evs & [Htr _] & _ & Hcount & Hlast); [|reflexivity].
    simpl in *. rewrite Htr. split; [exact Hcount|]. split; [discriminate|]. exact Hlast.
  - rewrite Hm in Hm'. injection Hm' as <-. rewrite Hr in Hr'. injection Hr' as -> ->.
    rewrite Hrun. clear Hrun.
    destruct (attempts _ _ _ _ _ _ _ _ _ _ _ _ _ _ _) as [r st] eqn:Hrun.
    apply attempts_spec in Hrun as (evs & [Htr _] & Hvalid & Hcount & Hlast); [|reflexivity].
    simpl in *. rewrite Htr. split; [exact Hcount|]. split; [|exact Hlast].
    intros _. unfold calls_to. clear -Hvalid.
    induction Hvalid as [|rq l [-> | ([=] & _)] _ IH]; [reflexivity|]. simpl. exact IH.
Qed.

End RetryScope.

(** C8 as stated does not hold: a request routed straight to the primary
    provider (no secondary configured) and answered 429 then 200 is sent
    twice. *)
Lemma primary_route_is_retried :
  let env := {| answer := fun n => match n with
                                   | O => reply_with 429 "slow down"
                                   | _ => reply_with 200 "ok"
                                   end;
                clock := fun _ => 0 |} in
  let body := [("model", JStr "claude-opus-4-6"); ("max_tokens", JInt 64)] in
  let rq := {| dest := Anthropic; url := "https://api.anthropic.com/v1/messages";
               payload := body; req_headers := [("Content-Type", "application/json")];
               streamed := false |} in
  let out := proxy_messages (fun _ => None) no_secondary env
                            (CircuitBreaker.init 5 120) body [] in
  resolve no_secondary env (CircuitBreaker.init 5 120) "claude-opus-4-6" body
  = Some (None, CircuitBreaker.init 5 120)
  /\ trace (snd out) = [Sent rq; Slept (Backoff 0); Sent rq]
  /\ fst out = Response "ok" 200 [].
Proof. repeat split. Qed.

(** The theorem on a sonnet request sent to Z.AI, answered by a masked
    failure, then served by the fall-back call. *)
Lemma retries_bounded_fallback_final_witness :
  let env := {| answer := fun n => match n with
                                   | O => reply_with 500 marker_tight
                                   | _ => reply_with 200 "ok"
                                   end;
                clock := fun _ => 0 |} in
  let body := [("model", JStr "claude-sonnet-4-6")] in
  let out := proxy_messages (fun _ => None) sonnet_on_zai env
                            (CircuitBreaker.init 5 120) body [] in
  (calls_to ZAI (trace (snd out)) <= 3)%nat
  /\ List.length (sends (trace (snd out))) = 2%nat
  /\ fst out = Response "ok" 200 [].
Proof.
  intros env body out.
  destruct (retries_bounded_fallback_final
              (fun _ => None) sonnet_on_zai env
              (CircuitBreaker.init 5 120) (CircuitBreaker.init 5 120) body []
              "claude-sonnet-4-6"
              (Some {| api_key := Some "key"; base_url := "https://api.z.ai";
                       provider_label := "Sonnet->Z.AI" |})
              eq_refl eq_refl) as (Hbound & _ & Hlast).
  split; [exact Hbound|].
  destruct (Hlast 1%nat
              {| dest := Anthropic; url := anthropic_url; payload := body;
                 req_headers := [("Content-Type", "application/json")];
                 streamed := false |}
              {| status_code := 200; content := "ok"; resp_headers := [] |}
              eq_refl eq_refl eq_refl) as [Hlen Hreply].
  split; [symmetry; exact Hlen | reflexivity].
Defined.

(** ** C3, C6, C7: timeouts, masked failures and rate limits in the loop *)

Section LoopClaims.

Variable py_float : string -> option (Z * Z).
Variable cfg : Config.
Variable env : world.
Variables is_streaming is_zai_route : bool.
Variable tier : option string.
Variable target : upstream.
Variable target_url : string.
Variable target_headers : headers.
Variables data original_data : dict.
Variable original_headers : headers.

Local Abbreviation treq :=
  (target_request is_streaming target target_url target_headers data).
Local Abbreviation freq := (fallback_request original_data original_headers).
Local Abbreviation step :=
  (one_attempt py_float cfg env is_streaming is_zai_route tier target target_url
               target_headers data original_data original_headers).
Local Abbreviation loop :=
  (attempts py_float cfg env is_streaming is_zai_route tier target target_url
            target_headers data original_data original_headers).

Lemma trace_record_failure (st : state) :
  trace (record_failure env tier st) = trace st.
Proof. now destruct tier. Qed.

(** With [left] iterations to go from [attempt], another one follows
    exactly when [left] is more than one. *)
Lemma more_iff (left : nat) (attempt : Z) :
  Z.of_nat (S left) + attempt = MAX_RETRIES cfg ->
  more cfg attempt = match left with O => false | S _ => true end.
Proof.
  intros H. unfold more. destruct left.
  - apply Z.ltb_ge. lia.
  - apply Z.ltb_lt. lia.
Qed.

(** A timeout with iterations left: sleep, then go on. *)
Lemma step_timeout_more (attempt : Z) (st : state) :
  timeout (answer env (nsent st)) = true ->
  more cfg attempt = true ->
  exists st1,
    step attempt st = (None, st1)
    /\ trace st1 = trace st ++ [Sent treq; Slept (Backoff attempt)]
    /\ nsent st1 = S (nsent st).
Proof.
  intros Ht Hm.
  unfold one_attempt, stream_attempt, post_attempt, on_exception, backoff, send.
  destruct (answer env (nsent st)) as [r|[| |r|msg]]; try discriminate Ht;
    rewrite Hm; destruct is_streaming, is_zai_route; eexists;
    (split; [reflexivity|]); simpl; rewrite ?trace_record_failure, ?nsent_record_failure;
    simpl; rewrite <- ?app_assoc; split; reflexivity.
Qed.

(** A timeout in the last iteration: only a read timeout of a buffered
    request on the secondary route is followed by a fall-back call. *)
Lemma step_timeout_last (attempt : Z) (st : state) :
  timeout (answer env (nsent st)) = true ->
  more cfg attempt = false ->
  let falls_back :=
    negb is_streaming && is_zai_route && read_timeout (answer env (nsent st)) in
  exists reply st',
    step attempt st = (Some reply, st')
    /\ trace st' = trace st ++ Sent treq :: (if falls_back then [Sent (freq false)] else [])
    /\ (if falls_back
        then reply = match answer env (S (nsent st)) with
                     | Returns fb => relay fb
                     | Raises _ => JSONResponse 504 "Gateway timeout"
                     end
        else exists msg, reply = JSONResponse 504 msg).
Proof.
  intros Ht Hm.
  unfold one_attempt, stream_attempt, post_attempt, on_exception, backoff, send.
  destruct (answer env (nsent st)) as [r|[| |r|msg]] eqn:Ha; try discriminate Ht;
    rewrite Hm; destruct is_streaming, is_zai_route; simpl;
    rewrite ?trace_record_failure, ?nsent_record_failure; simpl;
    try (destruct (answer env (S (nsent st))));
    do 2 eexists; (split; [reflexivity|]); simpl;
    rewrite ?trace_record_failure; rewrite <- ?app_assoc; split; eauto.
Qed.

Lemma backoffs_S (attempt : Z) (n : nat) :
  backoffs attempt (S n) = Backoff attempt :: backoffs (attempt + 1) n.
Proof.
  unfold backoffs. simpl. rewrite Z.add_0_r. f_equal.
  rewrite <- seq_shift, map_map. apply map_ext. intros i. f_equal. lia.
Qed.

Lemma timeouts_loop (left : nat) :
  forall (attempt : Z) (st : state),
    Z.of_nat (S left) + attempt = MAX_RETRIES cfg ->
    (forall i, (i <= left)%nat -> timeout (answer env (nsent st + i)) = true) ->
    let falls_back :=
      negb is_streaming && is_zai_route && read_timeout (answer env (nsent st + left)) in
    exists reply st',
      loop (S left) attempt st = (reply, st')
      /\ trace st' = trace st ++ retry_trace treq (backoffs attempt left)
                              ++ (if falls_back then [Sent (freq false)] else [])
      /\ (if falls_back
          then reply = match answer env (nsent st + S left) with
                       | Returns fb => relay fb
                       | Raises _ => JSONResponse 504 "Gateway timeout"
                       end
          else exists msg, reply = JSONResponse 504 msg).
Proof.
  induction left as [|left IH]; intros attempt st Hmax Hto.
  - pose proof (more_iff 0 attempt Hmax) as Hm. simpl in Hm.
    pose proof (Hto 0%nat (Nat.le_refl _)) as H0. rewrite Nat.add_0_r in H0.
    destruct (step_timeout_last attempt st H0 Hm) as (reply & st' & Hstep & Htr & Hrep).
    cbv zeta. rewrite !Nat.add_0_r.
    replace (nsent st + 1)%nat with (S (nsent st)) by lia.
    exists reply, st'. split; [|split; [exact Htr | exact Hrep]].
    change (loop 1 attempt st) with
      (match step attempt st with
       | (Some reply, st) => (reply, st)
       | (None, st) => loop 0 (attempt + 1) st
       end).
    now rewrite Hstep.
  - pose proof (more_iff (S left) attempt Hmax) as Hm. simpl in Hm.
    pose proof (Hto 0%nat ltac:(lia)) as H0. rewrite Nat.add_0_r in H0.
    destruct (step_timeout_more attempt st H0 Hm) as (st1 & Hstep & Htr1 & Hn1).
    destruct (IH (attempt + 1) st1) as (reply & st' & Hloop & Htr & Hrep).
    { rewrite Nat2Z.inj_succ in *. lia. }
    { intros i Hi. rewrite Hn1. replace (S (nsent st) + i)%nat with (nsent st + S i)%nat by lia.
      apply Hto. lia. }
    rewrite Hn1 in Htr, Hrep.
    replace (S (nsent st) + left)%nat with (nsent st + S left)%nat in Htr, Hrep by lia.
    replace (S (nsent st) + S left)%nat with (nsent st + S (S left))%nat in Hrep by lia.
    cbv zeta. exists reply, st'. split; [|split; [|exact Hrep]].
    + change (loop (S (S left)) attempt st) with
        (match step attempt st with
         | (Some reply, st) => (reply, st)
         | (None, st) => loop (S left) (attempt + 1) st
         end).
      now rewrite Hstep.
    + rewrite Htr, Htr1, backoffs_S. simpl. now rewrite <- app_assoc.
Qed.

(** C3 (as amended). Let each of the [MAX_RETRIES] calls to the target end
    in a connect or read timeout.  The call is made [MAX_RETRIES] times,
    with a back-off sleep of [calculate_retry_delay(attempt)] between two
    calls.  Then, if the request is not streaming, the target is the
    secondary provider and the last timeout is a read timeout, exactly one
    call is made to the primary provider, with the original payload and not
    retried: its response is relayed, and if it raises the client gets 504.
    In every other case (a streaming request, a connect timeout in the last
    attempt, or the primary provider as target) no further call is made and
    the client gets 504. *)
Theorem timeouts_exhausted (n : nat) (st : state) :
  MAX_RETRIES cfg = Z.of_nat (S n) ->
  (forall i, (i <= n)%nat -> timeout (answer env (nsent st + i)) = true) ->
  let falls_back :=
    negb is_streaming && is_zai_route && read_timeout (answer env (nsent st + n)) in
  exists reply st',
    loop (Z.to_nat (MAX_RETRIES cfg)) 0 st = (reply, st')
    /\ trace st' = trace st ++ retry_trace treq (backoffs 0 n)
                            ++ (if falls_back then [Sent (freq false)] else [])
    /\ payload (freq false) = original_data
    /\ (if falls_back
        then reply = match answer env (nsent st + S n) with
                     | Returns fb => relay fb
                     | Raises _ => JSONResponse 504 "Gateway timeout"
                     end
        else exists msg, reply = JSONResponse 504 msg).
Proof.
  intros Hmax Hto. rewrite Hmax, Nat2Z.id.
  destruct (timeouts_loop n 0 st) as (reply & st' & Hloop & Htr & Hrep); [lia | exact Hto|].
  exists reply, st'. repeat split; assumption.
Qed.

End LoopClaims.

(** The theorem on a buffered request to Z.AI whose three attempts time out
    on read: three calls, two sleeps, then the one fall-back call, whose
    response is relayed. *)
Lemma timeouts_exhausted_witness :
  let env := {| answer := fun n => if (n <? 3)%nat then Raises ReadTimeout
                                   else reply_with 200 "ok";
                clock := fun _ => 0 |} in
  let body := [("model", JStr "claude-sonnet-4-6")] in
  let data := [("model", JStr "glm-5")] in
  let st := {| breaker := CircuitBreaker.init 5 120; trace := []; nsent := 0 |} in
  exists st',
    attempts (fun _ => None) sonnet_on_zai env false true (Some "sonnet") ZAI
             "https://api.z.ai/v1/messages" [] data body [] 3 0 st
    = (Response "ok" 200 [], st')
    /\ calls_to ZAI (trace st') = 3%nat
    /\ calls_to Anthropic (trace st') = 1%nat.
Proof.
  intros env body data st.
  destruct (timeouts_exhausted (fun _ => None) sonnet_on_zai env false true (Some "sonnet")
              ZAI "https://api.z.ai/v1/messages" [] data body [] 2 st eq_refl)
    as (reply & st' & Hloop & Htr & _ & Hrep).
  { intros i Hi. do 3 (destruct i; [reflexivity|]). lia. }
  exists st'. simpl in Hrep. subst reply. split; [exact Hloop|].
  rewrite Htr. split; reflexivity.
Defined.

(** C3 as stated does not hold: a streaming request to Z.AI whose three
    attempts time out on read, and a buffered request to Z.AI whose three
    attempts time out on connect, both end in 504 without any call to the
    primary provider. *)
Lemma timeouts_without_fallback :
  let cb := CircuitBreaker.init 5 120 in
  let streaming := proxy_messages (fun _ => None) sonnet_on_zai (always (Raises ReadTimeout)) cb
                     [("model", JStr "claude-sonnet-4-6"); ("stream", JBool true)] [] in
  let connect := proxy_messages (fun _ => None) sonnet_on_zai (always (Raises ConnectTimeout)) cb
                   [("model", JStr "claude-sonnet-4-6")] [] in
  (fst streaming = JSONResponse 504 "Gateway timeout: read-timeout"
   /\ calls_to ZAI (trace (snd streaming)) = 3%nat
   /\ calls_to Anthropic (trace (snd streaming)) = 0%nat)
  /\ (fst connect = JSONResponse 504 "Gateway timeout"
      /\ calls_to ZAI (trace (snd connect)) = 3%nat
      /\ calls_to Anthropic (trace (snd connect)) = 0%nat).
Proof. repeat split. Qed.

Section RateLimit.

Variable py_float : string -> option (Z * Z).
Variable cfg : Config.
Variable env : world.
Variable is_zai_route : bool.
Variable tier : option string.
Variable target : upstream.
Variable target_url : string.
Variable target_headers : headers.
Variables data original_data : dict.
Variable original_headers : headers.

Local Abbreviation treq := (target_request false target target_url target_headers data).
Local Abbreviation step :=
  (one_attempt py_float cfg env false is_zai_route tier target target_url
               target_headers data original_data original_headers).
Local Abbreviation loop :=
  (attempts py_float cfg env false is_zai_route tier target target_url
            target_headers data original_data original_headers).







End RateLimit.



Section MaskedFailure.

Variable py_float : string -> option (Z * Z).
Variable cfg : Config.
Variable env : world.
Variable is_streaming : bool.
Variable tier : option string.
Variable target_url : string.
Variable target_headers : headers.
Variables data original_data : dict.
Variable original_headers : headers.

Local Abbreviation treq := (target_request is_streaming ZAI target_url target_headers data).
Local Abbreviation freq := (fallback_request original_data original_headers).
Local Abbreviation handle := (on_exception cfg env true tier original_data original_headers).
Local Abbreviation step :=
  (one_attempt py_float cfg env is_streaming true tier ZAI target_url
               target_headers data original_data original_headers).
Local Abbreviation loop :=
  (attempts py_float cfg env is_streaming true tier ZAI target_url
            target_headers data original_data original_headers).

(** The state once the call to Z.AI has been answered by a masked failure:
    the failure is recorded and the fall-back call has been issued. *)
Definition fallen_back (st : state) : state :=
  snd (send env (freq is_streaming) (record_failure env tier (snd (send env treq st)))).

Lemma fallen_back_state (st : state) :
  trace (fallen_back st) = trace st ++ [Sent treq; Sent (freq is_streaming)]
  /\ nsent (fallen_back st) = S (S (nsent st))
  /\ breaker (fallen_back st)
     = match tier with
       | Some t => CircuitBreaker.record_failure (clock env (S (nsent st))) t (breaker st)
       | None => breaker st
       end.
Proof.
  unfold fallen_back. destruct tier; simpl; rewrite <- app_assoc; repeat split.
Qed.

(** The statuses on which the marker counts: any error status when
    streaming, four of them otherwise. *)
Definition counts_as_masked (r : response) : bool :=
  (400 <=? status_code r) && has_marker (content r)
  && (is_streaming || existsb (Z.eqb (status_code r)) [400; 500; 502; 503]).

Lemma step_masked (attempt : Z) (st : state) (r : response) :
  answer env (nsent st) = Returns r ->
  counts_as_masked r = true ->
  step attempt st
  = match answer env (S (nsent st)) with
    | Returns fb =>
        (Some (if is_streaming && (status_code fb <? 400)
               then StreamingResponse fb else relay fb),
         fallen_back st)
    | Raises e => handle e attempt (fallen_back st)
    end.
Proof.
  intros Ha Hm. unfold counts_as_masked in Hm.
  apply andb_true_iff in Hm as [Hm Hs]. apply andb_true_iff in Hm as [Hge Hmark].
  unfold one_attempt, stream_attempt, post_attempt, _is_zai_server_error, fallen_back.
  destruct is_streaming; simpl in Hs |- *; rewrite Ha, ?Hge, ?Hmark; simpl.
  - rewrite nsent_record_failure. simpl.
    destruct (answer env (S (nsent st))) as [fb|e]; [|reflexivity].
    now destruct (status_code fb <? 400).
  - assert (H429 : (status_code r =? 429) = false).
    { simpl in Hs. rewrite !orb_false_r in Hs.
      repeat (apply orb_true_iff in Hs as [Hs|Hs]); apply Z.eqb_eq in Hs; rewrite Hs;
        reflexivity. }
    rewrite H429. simpl. simpl in Hs. rewrite Hs. simpl.
    rewrite nsent_record_failure. simpl.
    now destruct (answer env (S (nsent st))).
Qed.




End MaskedFailure.



(* ===================================================================== *)
(** * Further properties of the module *)
(* ===================================================================== *)

(** ** The circuit breaker over its whole history *)

Section BreakerHistory.

Import CircuitBreaker.

Lemma run_snoc (calls : list call) (c : call) (cb : t) :
  run (calls ++ [c]) cb = step (run calls cb) c.
Proof. unfold run. now rewrite fold_left_app. Qed.

(** What holds of a breaker built with [threshold] and [recovery_time]
    after the calls [calls]. *)
Definition consistent (th rt : Z) (calls : list call) (cb : t) : Prop :=
  threshold cb = th
  /\ recovery_time cb = rt
  /\ (forall tier, 0 <= failures tier cb)
  /\ (forall tier opened,
        _opened_at cb !! tier = Some opened ->
        th <= failures tier cb /\ In (RecordFailure opened tier) calls).

Lemma consistent_step (th rt : Z) (calls : list call) (c : call) (cb : t) :
  consistent th rt calls cb -> consistent th rt (calls ++ [c]) (step cb c).
Proof.
  intros (Hth & Hrt & Hpos & Hopen).
  assert (Hold : forall tier opened,
             _opened_at cb !! tier = Some opened ->
             th <= failures tier cb /\ In (RecordFailure opened tier) (calls ++ [c])).
  { intros tier opened H. destruct (Hopen tier opened H) as [H1 H2].
    split; [exact H1 | apply in_or_app; now left]. }
  assert (Hsame : consistent th rt (calls ++ [c]) cb)
    by (split; [|split; [|split]]; assumption).
  destruct c as [now tier'|now tier'|tier']; simpl.
  - unfold is_open. destruct (_opened_at cb !! tier') as [opened'|] eqn:Eo;
      [destruct (recovery_time cb <=? now - opened')|]; simpl;
      try exact Hsame.
    unfold consistent, failures. simpl. split; [exact Hth|]. split; [exact Hrt|]. split.
    + intros tier. destruct (decide (tier = tier')) as [->|Hne].
      * rewrite lookup_insert_eq. simpl. lia.
      * rewrite lookup_insert_ne by congruence. apply Hpos.
    + intros tier opened H. apply lookup_delete_Some in H as [Hne H].
      rewrite lookup_insert_ne by congruence. now apply Hold.
  - unfold consistent, record_failure, failures. simpl.
    split; [exact Hth|]. split; [exact Hrt|]. split.
    + intros tier. destruct (decide (tier = tier')) as [->|Hne].
      * rewrite lookup_insert_eq. simpl. specialize (Hpos tier'). unfold failures in Hpos. lia.
      * rewrite lookup_insert_ne by congruence. apply Hpos.
    + intros tier opened H. destruct (decide (tier = tier')) as [->|Hne].
      * rewrite lookup_insert_eq. simpl.
        destruct (threshold cb <=? default 0 (_failures cb !! tier') + 1) eqn:El;
          destruct (_opened_at cb !! tier') as [o|] eqn:Eo; simpl in H.
        -- rewrite Eo in H. injection H as ->.
           destruct (Hold tier' opened Eo) as [H1 H2]. unfold failures in H1. split; [lia|exact H2].
        -- rewrite lookup_insert_eq in H. injection H as ->.
           apply Z.leb_le in El. split; [lia|]. apply in_or_app. right. now left.
        -- rewrite Eo in H. injection H as ->.
           destruct (Hold tier' opened Eo) as [H1 H2]. unfold failures in H1. split; [lia|exact H2].
        -- rewrite Eo in H. discriminate H.
      * rewrite lookup_insert_ne by congruence.
        assert (H' : _opened_at cb !! tier = Some opened).
        { destruct ((threshold cb <=? default 0 (_failures cb !! tier') + 1)
                    && negb (bool_decide (is_Some (_opened_at cb !! tier')))); [|exact H].
          now rewrite lookup_insert_ne in H by congruence. }
        now apply Hold.
  - unfold consistent, record_success, failures. simpl.
    split; [exact Hth|]. split; [exact Hrt|]. split.
    + intros tier. destruct (bool_decide (is_Some (_failures cb !! tier'))); [|apply Hpos].
      destruct (decide (tier = tier')) as [->|Hne].
      * rewrite lookup_insert_eq. simpl. lia.
      * rewrite lookup_insert_ne by congruence. apply Hpos.
    + intros tier opened H. apply lookup_delete_Some in H as [Hne H].
      assert (E : default 0 ((if bool_decide (is_Some (_failures cb !! tier'))
                              then <[tier':=0]> (_failures cb) else _failures cb) !! tier)
                  = failures tier cb).
      { unfold failures. destruct (bool_decide _); [|reflexivity].
        now rewrite lookup_insert_ne by congruence. }
      rewrite E. now apply Hold.
Qed.

(** X1. Whatever calls a breaker has received since it was created, its
    threshold and recovery time are the ones it was created with, no
    failure count is negative, and a circuit that is open has a failure
    count of at least the threshold and was opened at the time of one of
    the recorded failures of its tier. *)
Theorem breaker_history_invariant (th rt : Z) (calls : list call) :
  let cb := run calls (init th rt) in
  threshold cb = th
  /\ recovery_time cb = rt
  /\ (forall tier, 0 <= failures tier cb)
  /\ (forall tier opened,
        _opened_at cb !! tier = Some opened ->
        th <= failures tier cb /\ In (RecordFailure opened tier) calls).
Proof.
  cbv zeta. change (consistent th rt calls (run calls (init th rt))).
  induction calls as [|c calls IH] using rev_ind.
  - split; [reflexivity|]. split; [reflexivity|]. split.
    + intros tier. unfold failures. simpl. rewrite lookup_empty. simpl. lia.
    + intros tier opened H. simpl in H. rewrite lookup_empty in H. discriminate H.
  - rewrite run_snoc. now apply consistent_step.
Qed.

End BreakerHistory.

(** ** An open circuit, a success, and the status report *)

Section BreakerOpen.

Import CircuitBreaker.

(** The calls that leave an open circuit of [tier] open: failures of any
    tier, any call for another tier, and checks of [tier] made before the
    recovery time has elapsed. *)
Definition keeps_open (tier : string) (opened recovery : Z) (c : call) : Prop :=
  match c with
  | RecordFailure _ _ => True
  | IsOpen now tier' => tier' = tier -> now - opened < recovery
  | RecordSuccess tier' => tier' <> tier
  end.

(** X2. While a circuit is open, further failures do not prolong the
    bypass: through any calls other than a success of the tier or a check
    made after the recovery time, the opening time stays the one of the
    failure that opened the circuit, so the circuit closes [recovery_time]
    after that first moment. *)
Theorem failures_do_not_extend_the_bypass
        (tier : string) (opened : Z) (calls : list call) (cb : t) :
  _opened_at cb !! tier = Some opened ->
  Forall (keeps_open tier opened (recovery_time cb)) calls ->
  let cb' := run calls cb in
  _opened_at cb' !! tier = Some opened
  /\ recovery_time cb' = recovery_time cb
  /\ (forall now, fst (is_open now tier cb') = (now - opened <? recovery_time cb)).
Proof.
  intros Ho Hc. cbv zeta.
  assert (H : _opened_at (run calls cb) !! tier = Some opened
              /\ recovery_time (run calls cb) = recovery_time cb).
  { revert cb Ho Hc. induction calls as [|c calls IH]; intros cb Ho Hc; [now split|].
    apply Forall_cons in Hc as [Hc Hcs].
    assert (Hstep : _opened_at (step cb c) !! tier = Some opened
                    /\ recovery_time (step cb c) = recovery_time cb).
    { destruct c as [now tier'|now tier'|tier']; simpl in *.
      - unfold is_open. destruct (_opened_at cb !! tier') as [o|] eqn:Eo; [|now split].
        destruct (recovery_time cb <=? now - o) eqn:El; [|now split].
        simpl. split; [|reflexivity].
        destruct (decide (tier' = tier)) as [->|Hne].
        + rewrite Ho in Eo. injection Eo as <-. specialize (Hc eq_refl).
          apply Z.leb_le in El. lia.
        + now rewrite lookup_delete_ne by congruence.
      - split; [|reflexivity].
        destruct (decide (tier' = tier)) as [->|Hne].
        + rewrite Ho. simpl. rewrite andb_false_r. exact Ho.
        + destruct (_ && _); [|exact Ho]. now rewrite lookup_insert_ne by congruence.
      - split; [|reflexivity]. now rewrite lookup_delete_ne by congruence. }
    destruct Hstep as [Ho' Hr'].
    change (run (c :: calls) cb) with (run calls (step cb c)).
    destruct (IH (step cb c) Ho') as [H1 H2]; [now rewrite Hr'|].
    split; [exact H1 | now rewrite H2]. }
  destruct H as [H1 H2]. split; [exact H1|]. split; [exact H2|].
  intros now. unfold is_open. rewrite H1, H2.
  destruct (recovery_time cb <=? now - opened) eqn:El; simpl; symmetry.
  - apply Z.ltb_ge. now apply Z.leb_le.
  - apply Z.ltb_lt. now apply Z.leb_gt.
Qed.

(** X3. A success resets its tier whatever state the tier was in, an open
    circuit included: the circuit is closed at once, the count is 0, and it
    takes [threshold] new failures in a row to open it again, at the time
    of the last of them. *)
Theorem success_resets_the_tier (tier : string) (cb : t) (times : list Z) (now : Z) :
  Z.of_nat (List.length times) <= threshold cb ->
  let cb1 := record_success tier cb in
  let cb2 := run (map (fun at_time => RecordFailure at_time tier) times) cb1 in
  is_open now tier cb1 = (false, cb1)
  /\ failures tier cb1 = 0
  /\ failures tier cb2 = Z.of_nat (List.length times)
  /\ _opened_at cb2 !! tier
     = (if Z.of_nat (List.length times) <? threshold cb then None else last times).
Proof.
  intros Hle cb1 cb2.
  assert (Ho : _opened_at cb1 !! tier = None) by apply lookup_delete_eq.
  assert (Hf : failures tier cb1 = 0).
  { unfold cb1, failures, record_success. simpl.
    destruct (bool_decide (is_Some (_failures cb !! tier))) eqn:E.
    - now rewrite lookup_insert_eq.
    - apply bool_decide_eq_false in E.
      destruct (_failures cb !! tier) eqn:E'; [|reflexivity].
      exfalso. apply E. now eexists. }
  split; [unfold is_open; now rewrite Ho|]. split; [exact Hf|].
  destruct (failures_in_a_row tier times cb1 0 Ho Hf) as (_ & _ & H3 & H4); [simpl; lia|].
  split; [exact H3 | exact H4].
Qed.

End BreakerOpen.

Lemma failures_do_not_extend_the_bypass_witness :
  let cb := CircuitBreaker.run [CircuitBreaker.RecordFailure 10 "sonnet";
                                CircuitBreaker.RecordFailure 20 "sonnet"]
                               (CircuitBreaker.init 2 120) in
  let calls := [CircuitBreaker.RecordFailure 100 "sonnet";
                CircuitBreaker.IsOpen 110 "sonnet";
                CircuitBreaker.RecordSuccess "haiku";
                CircuitBreaker.RecordFailure 130 "sonnet"] in
  fst (CircuitBreaker.is_open 139 "sonnet" (CircuitBreaker.run calls cb)) = true
  /\ fst (CircuitBreaker.is_open 140 "sonnet" (CircuitBreaker.run calls cb)) = false.
Proof.
  intros cb calls.
  assert (Ho : CircuitBreaker._opened_at cb !! "sonnet" = Some 20) by reflexivity.
  assert (Hc : Forall (keeps_open "sonnet" 20 (CircuitBreaker.recovery_time cb)) calls).
  { repeat constructor; simpl; intros; try discriminate; lia. }
  destruct (failures_do_not_extend_the_bypass "sonnet" 20 calls cb Ho Hc) as (_ & _ & H).
  split; rewrite H; reflexivity.
Defined.

Lemma success_resets_the_tier_witness :
  let cb := CircuitBreaker.run [CircuitBreaker.RecordFailure 10 "sonnet";
                                CircuitBreaker.RecordFailure 20 "sonnet"]
                               (CircuitBreaker.init 2 120) in
  CircuitBreaker._opened_at cb !! "sonnet" = Some 20
  /\ CircuitBreaker.is_open 30 "sonnet" (CircuitBreaker.record_success "sonnet" cb)
     = (false, CircuitBreaker.record_success "sonnet" cb)
  /\ CircuitBreaker._opened_at
       (CircuitBreaker.run [CircuitBreaker.RecordFailure 40 "sonnet";
                            CircuitBreaker.RecordFailure 50 "sonnet"]
                           (CircuitBreaker.record_success "sonnet" cb)) !! "sonnet"
     = Some 50.
Proof.
  intros cb. split; [reflexivity|].
  destruct (success_resets_the_tier "sonnet" cb [40; 50] 30) as (H1 & _ & _ & H4);
    [simpl; lia|].
  split; [exact H1 | exact H4].
Defined.

Section BreakerStatus.

Import CircuitBreaker.

Variable clock : string -> Z * Z.

(** What [status] reports for a tier of the breaker [cb]. *)
Definition report_of (tier : string) (cb : t) : report :=
  match _opened_at cb !! tier with
  | Some opened =>
      if recovery_time cb <=? fst (clock tier) - opened
      then CLOSED 0 (threshold cb)
      else OPEN (recovery_time cb - (snd (clock tier) - opened))
  | None => CLOSED (failures tier cb) (threshold cb)
  end.

Lemma status_loop_cons (tier : string) (tiers : list string)
      (result : list (string * report)) (cb : t) :
  status_loop clock (tier :: tiers) result cb
  = status_loop clock tiers (Dict.set tier (report_of tier cb) result)
                (snd (is_open (fst (clock tier)) tier cb)).
Proof.
  simpl. unfold report_of, is_open.
  destruct (_opened_at cb !! tier) as [opened|] eqn:Eo; [|reflexivity].
  destruct (recovery_time cb <=? fst (clock tier) - opened); simpl.
  - unfold failures. simpl. now rewrite lookup_insert_eq.
  - now rewrite Eo.
Qed.

Lemma report_of_view (tier : string) (cb1 cb2 : t) :
  view tier cb1 = view tier cb2 -> report_of tier cb1 = report_of tier cb2.
Proof.
  unfold view, report_of, failures. intros [= -> -> -> ->]. reflexivity.
Qed.

Lemma view_is_open_other (tier tier' : string) (now : Z) (cb : t) :
  tier' <> tier -> view tier (snd (is_open now tier' cb)) = view tier cb.
Proof. intros H. now apply (step_other tier (IsOpen now tier')). Qed.

Lemma report_of_cases (tier : string) (cb : t) :
  let checked := is_open (fst (clock tier)) tier cb in
  (exists opened,
      _opened_at cb !! tier = Some opened
      /\ fst (clock tier) - opened < recovery_time cb
      /\ report_of tier cb = OPEN (recovery_time cb - (snd (clock tier) - opened))
      /\ fst checked = true)
  \/ (report_of tier cb = CLOSED (failures tier (snd checked)) (threshold cb)
      /\ fst checked = false).
Proof.
  unfold report_of, is_open. destruct (_opened_at cb !! tier) as [opened|] eqn:Eo.
  - destruct (recovery_time cb <=? fst (clock tier) - opened) eqn:El.
    + right. unfold failures. simpl. now rewrite lookup_insert_eq.
    + left. exists opened. apply Z.leb_gt in El. repeat split. exact El.
  - right. now split.
Qed.

(** X4. [status] never fails and reports on the three tiers, in the order
    haiku, sonnet, opus.  A tier is reported open exactly when a request
    checked with the same clock reading would find its circuit open, and
    the report then gives the recovery time less the time since the
    opening; otherwise the tier is reported closed with its failure count,
    a circuit whose recovery time has elapsed being closed and reset by the
    report itself.  For each of the three tiers the breaker is left as a
    check of that tier leaves it, and no other tier is touched. *)
Theorem status_reports_what_is_open_does (cb : t) :
  let checked := fun tier => is_open (fst (clock tier)) tier cb in
  exists result,
    fst (status clock cb) = Some result
    /\ map fst result = ["haiku"; "sonnet"; "opus"]
    /\ (forall tier,
          In tier ["haiku"; "sonnet"; "opus"] ->
          view tier (snd (status clock cb)) = view tier (snd (checked tier))
          /\ ((exists opened,
                  _opened_at cb !! tier = Some opened
                  /\ fst (clock tier) - opened < recovery_time cb
                  /\ Dict.get tier result
                     = Some (OPEN (recovery_time cb - (snd (clock tier) - opened)))
                  /\ fst (checked tier) = true)
              \/ (Dict.get tier result
                  = Some (CLOSED (failures tier (snd (checked tier))) (threshold cb))
                  /\ fst (checked tier) = false)))
    /\ (forall tier,
          ~ In tier ["haiku"; "sonnet"; "opus"] ->
          view tier (snd (status clock cb)) = view tier cb).
Proof.
  cbv zeta. unfold status. rewrite !status_loop_cons. simpl status_loop.
  set (cb1 := snd (is_open (fst (clock "haiku")) "haiku" cb)).
  set (cb2 := snd (is_open (fst (clock "sonnet")) "sonnet" cb1)).
  set (cb3 := snd (is_open (fst (clock "opus")) "opus" cb2)).
  assert (Hs1 : view "sonnet" cb1 = view "sonnet" cb)
    by (apply view_is_open_other; discriminate).
  assert (Ho1 : view "opus" cb1 = view "opus" cb)
    by (apply view_is_open_other; discriminate).
  assert (Ho2 : view "opus" cb2 = view "opus" cb)
    by (unfold cb2; rewrite view_is_open_other by discriminate; exact Ho1).
  eexists. split; [reflexivity|]. split; [reflexivity|]. cbn [fst snd]. split.
  - intros tier [<-|[<-|[<-|[]]]].
    + split.
      * unfold cb3, cb2.
        rewrite (view_is_open_other "haiku" "opus") by discriminate.
        now rewrite (view_is_open_other "haiku" "sonnet") by discriminate.
      * destruct (report_of_cases "haiku" cb) as [(o & H1 & H2 & H3 & H4)|[H1 H2]].
        -- left. exists o. repeat split; try assumption. simpl. now rewrite H3.
        -- right. split; [|exact H2]. simpl. now rewrite H1.
    + split.
      * unfold cb3. rewrite (view_is_open_other "sonnet" "opus") by discriminate.
        apply (step_view "sonnet" (IsOpen (fst (clock "sonnet")) "sonnet")); [reflexivity|exact Hs1].
      * rewrite (report_of_view "sonnet" cb1 cb Hs1).
        destruct (report_of_cases "sonnet" cb) as [(o & H1 & H2 & H3 & H4)|[H1 H2]].
        -- left. exists o. repeat split; try assumption. simpl. now rewrite H3.
        -- right. split; [|exact H2]. simpl. now rewrite H1.
    + split.
      * apply (step_view "opus" (IsOpen (fst (clock "opus")) "opus")); [reflexivity|exact Ho2].
      * rewrite (report_of_view "opus" cb2 cb Ho2).
        destruct (report_of_cases "opus" cb) as [(o & H1 & H2 & H3 & H4)|[H1 H2]].
        -- left. exists o. repeat split; try assumption. simpl. now rewrite H3.
        -- right. split; [|exact H2]. simpl. now rewrite H1.
  - intros tier Hn. unfold cb3, cb2, cb1.
    rewrite (view_is_open_other tier "opus"), (view_is_open_other tier "sonnet"),
      (view_is_open_other tier "haiku"); [reflexivity| | |];
      intros <-; apply Hn; simpl; tauto.
Qed.

End BreakerStatus.

(** ** Headers *)

Lemma header_app (name : string) (a b : headers) :
  header name (a ++ b)
  = match header name a with Some v => Some v | None => header name b end.
Proof.
  induction a as [|[k v] a IH]; simpl; [reflexivity|].
  destruct (String.eqb (Str.lower k) name); [reflexivity | exact IH].
Qed.

Lemma header_cons (name k v : string) (hs : headers) :
  header name ((k, v) :: hs)
  = if String.eqb name (Str.lower k) then Some v else header name hs.
Proof. simpl. now rewrite String.eqb_sym. Qed.

Ltac lookup_cases :=
  cbn [Datatypes.app]; rewrite ?header_cons; cbn [header];
  repeat match goal with
         | |- context [Str.lower ?k] =>
             let v := eval vm_compute in (Str.lower k) in change (Str.lower k) with v
         end;
  cbn [existsb];
  repeat match goal with
         | |- context [String.eqb ?a ?b] => destruct (String.eqb_spec a b); subst; simpl
         end; congruence.

Lemma filter_twice {A : Type} (f : A -> bool) (l : list A) :
  List.filter f (List.filter f l) = List.filter f l.
Proof.
  induction l as [|a l IH]; simpl; [reflexivity|].
  destruct (f a) eqn:E; simpl; rewrite ?E, IH; reflexivity.
Qed.

(** X5. [strip_encoding_headers] removes the headers named
    content-encoding, transfer-encoding and content-length, in any case of
    letters and however often they occur, and nothing else: a lookup of
    one of the three finds nothing, a lookup of any other name finds what
    it found before; the headers kept stay in their order, and stripping
    twice is stripping once. *)
Theorem strip_encoding_headers_lookup (name : string) (hs : headers) :
  header name (strip_encoding_headers hs)
  = (if existsb (String.eqb name) ["content-encoding"; "transfer-encoding"; "content-length"]
     then None else header name hs)
  /\ sublist (strip_encoding_headers hs) hs
  /\ strip_encoding_headers (strip_encoding_headers hs) = strip_encoding_headers hs.
Proof.
  split; [|split].
  - induction hs as [|[k v] hs IH]; simpl.
    + now destruct (_ || _).
    + destruct (String.eqb_spec (Str.lower k) "content-encoding") as [E1|N1];
        [|destruct (String.eqb_spec (Str.lower k) "transfer-encoding") as [E2|N2];
          [|destruct (String.eqb_spec (Str.lower k) "content-length") as [E3|N3]]];
        simpl; rewrite IH; clear IH; cbn [existsb];
        destruct (String.eqb_spec (Str.lower k) name) as [E|N]; subst;
        repeat match goal with
               | |- context [String.eqb ?a ?b] => destruct (String.eqb_spec a b)
               end; simpl; congruence.
  - unfold strip_encoding_headers. induction hs as [|kv hs IH]; simpl; [constructor|].
    destruct (negb _); [now constructor | now apply sublist_cons].
  - apply filter_twice.
Qed.

(** X6. The headers sent to Anthropic are a JSON content type and, of the
    client's headers, authorization, anthropic-version, anthropic-beta and
    x-api-key with the values received; no other header of the client
    (its own content type, cookies, accept, ...) is forwarded. *)
Theorem anthropic_headers_lookup (name : string) (hs : headers) :
  header name (_build_anthropic_headers hs)
  = if String.eqb name "content-type" then Some "application/json"
    else if existsb (String.eqb name)
                    ["authorization"; "anthropic-version"; "anthropic-beta"; "x-api-key"]
         then header name hs
         else None.
Proof.
  unfold _build_anthropic_headers. cbn [flat_map].
  destruct (header "authorization" hs) eqn:E1;
    destruct (header "anthropic-version" hs) eqn:E2;
    destruct (header "anthropic-beta" hs) eqn:E3;
    destruct (header "x-api-key" hs) eqn:E4; lookup_cases.
Qed.

(** The headers [proxy_count_tokens] builds in line are the ones
    [_build_anthropic_headers] builds. *)
Lemma count_tokens_headers_eq (hs : headers) :
  count_tokens_headers hs = _build_anthropic_headers hs.
Proof.
  unfold count_tokens_headers, _build_anthropic_headers. simpl.
  destruct (header "authorization" hs);
    destruct (header "anthropic-version" hs);
    destruct (header "anthropic-beta" hs);
    destruct (header "x-api-key" hs); reflexivity.
Qed.

Lemma zai_headers_lookup (name : string) (p : provider) (hs : headers) :
  header name (zai_headers p hs)
  = if String.eqb name "content-type" then Some "application/json"
    else if String.eqb name "authorization"
         then (if env_set (api_key p)
               then Some ("Bearer " +:+ default "" (api_key p)) else None)
    else if String.eqb name "x-api-key"
         then (if env_set (api_key p) then api_key p else None)
    else if String.eqb name "anthropic-version" then header name hs
    else None.
Proof.
  unfold zai_headers.
  destruct (api_key p) as [[|c k]|];
    destruct (header "anthropic-version" hs) eqn:E2; lookup_cases.
Qed.

(** ** The retry loop: how it ends *)

(** The sleeps of a trace. *)
Definition sleeps (evs : list event) : list delay :=
  flat_map (fun e => match e with Slept d => [d] | Sent _ => [] end) evs.

(** The replies the loop body can return. *)
Definition loop_reply (r : reply) : Prop :=
  (exists rsp, r = relay rsp)
  \/ (exists rsp, r = StreamingResponse rsp)
  \/ (exists msg, r = JSONResponse 504 msg)
  \/ (exists msg, r = JSONResponse 500 ("Proxy error: " +:+ msg)).

Section LoopEnd.

Variable py_float : string -> option (Z * Z).
Variable cfg : Config.
Variable env : world.
Variables is_streaming is_zai_route : bool.
Variable tier : option string.
Variable target : upstream.
Variable target_url : string.
Variable target_headers : headers.
Variables data original_data : dict.
Variable original_headers : headers.

Local Abbreviation treq :=
  (target_request is_streaming target target_url target_headers data).
Local Abbreviation step :=
  (one_attempt py_float cfg env is_streaming is_zai_route tier target target_url
               target_headers data original_data original_headers).
Local Abbreviation loop :=
  (attempts py_float cfg env is_streaming is_zai_route tier target target_url
            target_headers data original_data original_headers).

(** One pass through the loop body makes at least one call; it ends in a
    [continue] only when another iteration follows, and then by its only
    sleep; it ends in a [return] without any sleep. *)
Definition pass (attempt : Z) (st st' : state) (res : option reply) : Prop :=
  exists evs,
    trace st' = trace st ++ evs
    /\ sends evs <> []
    /\ match res with
       | None => more cfg attempt = true
                 /\ exists d, last evs = Some (Slept d) /\ sleeps evs = [d]
       | Some r => loop_reply r /\ sleeps evs = [] /\ exists rq, last evs = Some (Sent rq)
       end.

Lemma trace_record_success (st : state) :
  trace (record_success tier st) = trace st.
Proof. now destruct tier. Qed.

Ltac loop_reply_cases :=
  unfold loop_reply;
  first [ left; eexists; reflexivity
        | right; left; eexists; reflexivity
        | right; right; left; eexists; reflexivity
        | right; right; right; eexists; reflexivity ].

Lemma one_attempt_pass (attempt : Z) (st st' : state) (res : option reply) :
  step attempt st = (res, st') -> pass attempt st st' res.
Proof.
  unfold one_attempt, stream_attempt, post_attempt, on_exception, backoff, send, sleep.
  intros H.
  repeat match type of H with
         | context [if ?b then _ else _] => destruct b eqn:?
         | context [match ?x with _ => _ end] => destruct x eqn:?
         end.
  all: injection H as <- <-.
  all: unfold pass; cbn [trace]; rewrite ?trace_record_failure, ?trace_record_success;
    cbn [trace]; rewrite <- ?app_assoc.
  all: eexists; split; [reflexivity|]; split; [discriminate|].
  all: try (split; [loop_reply_cases | split; [reflexivity | eexists; reflexivity]]).
  all: try (split; [assumption | eexists; split; reflexivity]).
  all: split; [| eexists; split; reflexivity].
  all: match goal with
       | E : _ && false = true |- _ => rewrite andb_false_r in E; discriminate E
       | E : _ && true = true |- _ => reflexivity
       end.
Qed.

Lemma sleeps_app (a b : list event) : sleeps (a ++ b) = sleeps a ++ sleeps b.
Proof. unfold sleeps. apply flat_map_app. Qed.

Hypothesis Hroute : target = if is_zai_route then ZAI else Anthropic.

(** The loop with at least one iteration to run: it ends by a [return] of
    the loop body, right after a call, having slept once between two
    calls to the target. *)
Lemma attempts_end (left : nat) :
  forall (attempt : Z) (st st' : state) (r : reply),
    Z.of_nat (S left) + attempt = MAX_RETRIES cfg ->
    loop (S left) attempt st = (r, st') ->
    loop_reply r
    /\ exists evs,
        trace st' = trace st ++ evs
        /\ calls_to target evs = S (List.length (sleeps evs))
        /\ (List.length (sleeps evs) <= left)%nat
        /\ exists rq, last evs = Some (Sent rq).
Proof.
  induction left as [|left IH]; intros attempt st st' r Hmax Hrun;
    simpl in Hrun;
    destruct (step attempt st) as [[reply|] st1] eqn:Hstep.
  all: pose proof (one_attempt_pass _ _ _ _ Hstep) as (evs & Htr & Hne & Hp).
  all: eapply one_attempt_spec in Hstep as (evs' & fbs & [Htr' _] & Hs & Hfb & Hz & _).
  all: rewrite Htr in Htr'; apply app_inv_head in Htr'; subst evs'.
  all: assert (Hc : calls_to target evs = 1%nat)
    by (eapply calls_to_attempt; eassumption).
  - injection Hrun as <- <-. destruct Hp as (Hr & Hsl & Hlast).
    split; [exact Hr|]. exists evs. rewrite Hsl. repeat split; try assumption. simpl. lia.
  - destruct Hp as (Hm & _). unfold more in Hm. apply Z.ltb_lt in Hm. lia.
  - injection Hrun as <- <-. destruct Hp as (Hr & Hsl & Hlast).
    split; [exact Hr|]. exists evs. rewrite Hsl. repeat split; try assumption. simpl. lia.
  - destruct Hp as (_ & d & Hlast & Hsl).
    destruct (IH (attempt + 1) st1 st' r) as (Hr & evs2 & Htr2 & Hc2 & Hn2 & rq & Hl2).
    { rewrite Nat2Z.inj_succ in *. lia. }
    { exact Hrun. }
    split; [exact Hr|]. exists (evs ++ evs2).
    split; [now rewrite Htr2, Htr, app_assoc|].
    split; [rewrite calls_to_app, sleeps_app, length_app, Hc, Hc2, Hsl; simpl; lia|].
    split; [rewrite sleeps_app, length_app, Hsl; simpl; lia|].
    exists rq. destruct evs2 as [|e evs2]; [discriminate Hl2|].
    now rewrite last_app, Hl2.
Qed.

End LoopEnd.

(** ** The sanitizer: when it fails and what its output is free of *)

Lemma get_sanitized_messages (x : dict) :
  Dict.get "messages" (strip_tools (first_steps x)) = Dict.get "messages" x.
Proof. rewrite get_strip_tools_other by reflexivity. now rewrite get_first_steps. Qed.

Lemma get_sanitized_tools (x : dict) :
  Dict.get "tools" (strip_tools (first_steps x))
  = match Dict.get "tools" x with
    | Some (JList ts) =>
        match List.filter not_web_search ts with
        | [] => None
        | kept => Some (JList kept)
        end
    | other => other
    end.
Proof.
  rewrite get_strip_tools, get_first_steps. simpl.
  now destruct (Dict.get "tools" x) as [[| | | | |ts|]|].
Qed.

(** The sanitizer returns exactly when its two [for] loops over
    [messages] and [tools] can run. *)
Lemma sanitize_is_Some (x : dict) :
  is_Some (sanitize_for_zai x)
  <-> is_Some (py_iter (default (JList []) (Dict.get "messages" x)))
      /\ is_Some (py_iter (default (JList []) (Dict.get "tools" x))).
Proof.
  rewrite sanitize_unfold, strip_cache_control_eq.
  rewrite get_sanitized_messages, get_sanitized_tools.
  assert (Ht : is_Some (py_iter (default (JList [])
                          match Dict.get "tools" x with
                          | Some (JList ts) =>
                              match List.filter not_web_search ts with
                              | [] => None
                              | kept => Some (JList kept)
                              end
                          | other => other
                          end))
               <-> is_Some (py_iter (default (JList []) (Dict.get "tools" x)))).
  { destruct (Dict.get "tools" x) as [[| | | | |ts|]|]; try reflexivity.
    destruct (List.filter not_web_search ts); simpl; split; eauto. }
  rewrite <- Ht. clear Ht.
  destruct (py_iter (default (JList []) (Dict.get "messages" x)));
    destruct (py_iter _); simpl; rewrite !is_Some_alt; tauto.
Qed.

(** The values a [for] loop cannot run over. *)
Definition not_iterable (v : json) : Prop :=
  v = JNull \/ (exists b, v = JBool b) \/ (exists n, v = JInt n) \/ (exists bits, v = JFloat bits).

Lemma py_iter_None (v : json) : py_iter v = None <-> not_iterable v.
Proof.
  unfold not_iterable. destruct v; simpl; split; intros H; try discriminate H; eauto 6;
    destruct H as [H|[[? H]|[[? H]|[? H]]]]; discriminate H.
Qed.

(** X. [sanitize_for_zai] raises ([TypeError]) exactly when the payload
    has a [messages] or a [tools] entry that is null, a boolean or a
    number; with those two keys absent, or holding a list, an object or a
    string, it returns whatever else the payload contains. *)
Theorem sanitize_fails_exactly_when (x : dict) :
  sanitize_for_zai x = None
  <-> exists key v,
        (key = "messages" \/ key = "tools")
        /\ Dict.get key x = Some v
        /\ not_iterable v.
Proof.
  rewrite eq_None_not_Some, sanitize_is_Some. split.
  - intros H.
    destruct (py_iter (default (JList []) (Dict.get "messages" x))) as [ms|] eqn:Em.
    + destruct (py_iter (default (JList []) (Dict.get "tools" x))) as [ts|] eqn:Et.
      * exfalso. apply H. split; eauto.
      * exists "tools". destruct (Dict.get "tools" x) as [v|]; [|discriminate Et].
        exists v. split; [now right|]. split; [reflexivity|]. now apply py_iter_None.
    + exists "messages". destruct (Dict.get "messages" x) as [v|]; [|discriminate Em].
      exists v. split; [now left|]. split; [reflexivity|]. now apply py_iter_None.
  - intros (key & v & Hk & Hg & Hv) [[ms Hm] [ts Ht]]. apply py_iter_None in Hv.
    destruct Hk as [-> | ->]; rewrite Hg in *; simpl in *; congruence.
Qed.

Lemma existsb_strings (f : json -> bool) (ss : list string) :
  (forall s, f (JStr s) = false) -> existsb f (map JStr ss) = false.
Proof. intros H. induction ss as [|s ss IH]; simpl; [reflexivity|]. now rewrite H, IH. Qed.

Lemma kept_tools_not_web_search (ts : list json) :
  existsb is_web_search_tool (map strip_block (List.filter not_web_search ts)) = false.
Proof.
  induction ts as [|t ts IH]; simpl; [reflexivity|].
  destruct (not_web_search t) eqn:E; [|exact IH]. simpl.
  rewrite web_search_strip_block, IH. unfold not_web_search in E.
  now destruct (is_web_search_tool t).
Qed.

Lemma sanitized_tools (x y : dict) :
  sanitize_for_zai x = Some y ->
  Dict.get "tools" y
  = match Dict.get "tools" x with
    | Some (JList ts) =>
        match List.filter not_web_search ts with
        | [] => None
        | kept => Some (JList (map strip_block kept))
        end
    | other => other
    end.
Proof.
  intros E. apply sanitize_Some in E as (-> & _ & _).
  rewrite out_get_tools, get_first_steps. reflexivity.
Qed.

Lemma sanitized_plain (x y : dict) (k : string) :
  sanitize_for_zai x = Some y ->
  existsb (String.eqb k) ["tools"; "tool_choice"; "messages"; "system"] = false ->
  Dict.get k y = Dict.get k (first_steps x).
Proof. intros E Hk. apply sanitize_Some in E as (-> & _ & _). now apply out_get_plain. Qed.

(** X. The output of the sanitizer holds none of the five unsupported
    top-level parameters and no [extended_thinking]; a [thinking] object
    in it has no [budget_tokens]. *)
Theorem sanitized_has_no_unsupported_parameter (x y : dict) :
  sanitize_for_zai x = Some y ->
  (forall k,
      In k ["metadata"; "prompt_caching"; "service_tier"; "context_management";
            "output_config"; "extended_thinking"] ->
      Dict.get k y = None)
  /\ (forall th,
        Dict.get "thinking" y = Some (JDict th) -> Dict.get "budget_tokens" th = None).
Proof.
  intros E. split.
  - intros k Hk. simpl in Hk.
    rewrite (sanitized_plain x y k E), get_first_steps;
      repeat (destruct Hk as [<-|Hk]; [reflexivity|]); destruct Hk.
  - intros th Hth. rewrite (sanitized_plain x y "thinking" E eq_refl), get_first_steps in Hth.
    simpl in Hth. destruct (Dict.get "thinking" x) as [[| | | | | |t]|]; try discriminate Hth.
    simpl in Hth. injection Hth as <-. apply get_pop_same.
Qed.

(** X. In the output of the sanitizer no tool is a web-search tool (the
    bypass test [_has_web_search] answers false on it), a [tools] list is
    never empty, a [tools] list emptied by the filter is gone together with
    [tool_choice], and next to a [tools] list no [tool_choice] object names
    "web_search". *)
Theorem sanitized_has_no_web_search (x y : dict) :
  sanitize_for_zai x = Some y ->
  _has_web_search y = Some false
  /\ Dict.get "tools" y <> Some (JList [])
  /\ (Dict.get "tools" x <> None -> Dict.get "tools" y = None ->
      Dict.get "tool_choice" y = None)
  /\ (forall ts tc,
        Dict.get "tools" y = Some (JList ts) ->
        Dict.get "tool_choice" y = Some (JDict tc) ->
        Dict.get "name" tc <> Some (JStr "web_search")).
Proof.
  intros E. pose proof (sanitized_tools x y E) as Ht.
  assert (Hit : is_Some (py_iter (default (JList []) (Dict.get "tools" x)))).
  { apply (proj1 (sanitize_is_Some x)). rewrite E. eauto. }
  assert (Htc : Dict.get "tool_choice" y
                = Dict.get "tool_choice" (strip_tools (first_steps x))).
  { apply sanitize_Some in E as (-> & _ & _). now rewrite get_stripped. }
  rewrite get_strip_tools, !get_first_steps in Htc. simpl in Htc.
  split; [|split; [|split]].
  - unfold _has_web_search. rewrite Ht.
    destruct (Dict.get "tools" x) as [[| | | |s|ts|kvs]|]; simpl in *;
      try (destruct Hit as [? [=]]); try reflexivity.
    + f_equal. rewrite <- (map_map (fun c => String c EmptyString) JStr).
      now apply existsb_strings.
    + destruct (List.filter not_web_search ts) eqn:Ef; [reflexivity|].
      pose proof (kept_tools_not_web_search ts) as Hk. rewrite Ef in Hk.
      simpl in Hk. simpl. now rewrite Hk.
    + f_equal. rewrite <- (map_map fst JStr). now apply existsb_strings.
  - rewrite Ht. destruct (Dict.get "tools" x) as [[| | | | |ts|]|]; try discriminate.
    destruct (List.filter not_web_search ts); discriminate.
  - intros Hx Hy. rewrite Ht in Hy. rewrite Htc.
    destruct (Dict.get "tools" x) as [[| | | | |ts|]|]; try discriminate Hy; [|congruence].
    now destruct (List.filter not_web_search ts).
  - intros ts tc Hts Htc'. rewrite Ht in Hts. rewrite Htc in Htc'.
    destruct (Dict.get "tools" x) as [[| | | | |ts0|]|]; try discriminate Hts.
    destruct (List.filter not_web_search ts0); [discriminate Hts|].
    unfold surviving_tool_choice in Htc'.
    destruct (Dict.get "tool_choice" x) as [[| | | | | |c]|]; try discriminate Htc'.
    destruct (eq_str (default JNull (Dict.get "name" c)) "web_search") eqn:En;
      [discriminate Htc'|].
    injection Htc' as <-. intros Hn. rewrite Hn in En. discriminate En.
Qed.

Lemma stripped_block_clean (bs : list json) (b : dict) :
  In (JDict b) (map strip_block bs) -> Dict.get "cache_control" b = None.
Proof.
  intros H. apply in_map_iff in H as (b0 & Hb & _).
  destruct b0; try discriminate Hb. simpl in Hb. injection Hb as <-. apply get_pop_same.
Qed.

(** X. In the output of the sanitizer there is no [cache_control] on a
    [system] object, on a block of a [system] list, on a message, on a
    block of the content list of a message, or on a tool. *)
Theorem sanitized_has_no_cache_control (x y : dict) :
  sanitize_for_zai x = Some y ->
  (forall s, Dict.get "system" y = Some (JDict s) -> Dict.get "cache_control" s = None)
  /\ (forall blocks b,
        Dict.get "system" y = Some (JList blocks) -> In (JDict b) blocks ->
        Dict.get "cache_control" b = None)
  /\ (forall msgs m,
        Dict.get "messages" y = Some (JList msgs) -> In (JDict m) msgs ->
        Dict.get "cache_control" m = None
        /\ forall blocks b,
             Dict.get "content" m = Some (JList blocks) -> In (JDict b) blocks ->
             Dict.get "cache_control" b = None)
  /\ (forall ts t,
        Dict.get "tools" y = Some (JList ts) -> In (JDict t) ts ->
        Dict.get "cache_control" t = None).
Proof.
  intros E. pose proof (sanitized_tools x y E) as Ht.
  apply sanitize_Some in E as (-> & _ & _).
  set (w := strip_tools (first_steps x)) in *.
  split; [|split; [|split]].
  - intros s Hs. rewrite get_stripped in Hs. simpl in Hs.
    destruct (Dict.get "system" w) as [[| | | | | |s0]|]; try discriminate Hs.
    simpl in Hs. injection Hs as <-. apply get_pop_same.
  - intros blocks b Hs Hb. rewrite get_stripped in Hs. simpl in Hs.
    destruct (Dict.get "system" w) as [[| | | | |bs|]|]; try discriminate Hs.
    simpl in Hs. injection Hs as <-. now apply (stripped_block_clean bs).
  - intros msgs m Hm Hin. rewrite get_stripped in Hm. simpl in Hm.
    destruct (Dict.get "messages" w) as [[| | | | |ms|]|]; try discriminate Hm.
    simpl in Hm. injection Hm as <-.
    apply in_map_iff in Hin as (m0 & Hm0 & _).
    destruct m0 as [| | | | | |m0]; try discriminate Hm0. simpl in Hm0. injection Hm0 as <-.
    split.
    + rewrite get_alter_other by reflexivity. apply get_pop_same.
    + intros blocks b Hc Hb. rewrite get_alter_same in Hc.
      destruct (Dict.get "content" (Dict.pop "cache_control" m0)) as [[| | | | |bs|]|];
        try discriminate Hc.
      simpl in Hc. injection Hc as <-. now apply (stripped_block_clean bs).
  - intros ts t Hts Hin. rewrite Ht in Hts.
    destruct (Dict.get "tools" x) as [[| | | | |ts0|]|]; try discriminate Hts.
    destruct (List.filter not_web_search ts0) as [|t0 kept]; [discriminate Hts|].
    injection Hts as <-. now apply (stripped_block_clean (t0 :: kept)).
Qed.

(** A payload with every kind of thing the sanitizer removes, and what is
    left of it. *)
Definition annotated_payload : dict :=
  [("model", JStr "glm-5");
   ("metadata", JDict [("user_id", JStr "u1")]);
   ("thinking", JDict [("type", JStr "enabled"); ("budget_tokens", JInt 2048)]);
   ("system", JList [JDict [("type", JStr "text"); ("text", JStr "be brief");
                            ("cache_control", JDict [("type", JStr "ephemeral")])]]);
   ("messages",
    JList [JDict [("role", JStr "user");
                  ("content",
                   JList [JDict [("type", JStr "text"); ("text", JStr "hello");
                                 ("cache_control", JDict [("type", JStr "ephemeral")])]])]]);
   ("tools", JList [JDict [("type", JStr "web_search_20250305"); ("name", JStr "web_search")];
                    JDict [("name", JStr "calculator");
                           ("cache_control", JDict [("type", JStr "ephemeral")])]]);
   ("tool_choice", JDict [("type", JStr "auto")])].

Definition annotated_payload_sanitized : dict :=
  [("model", JStr "glm-5");
   ("thinking", JDict [("type", JStr "enabled")]);
   ("system", JList [JDict [("type", JStr "text"); ("text", JStr "be brief")]]);
   ("messages",
    JList [JDict [("role", JStr "user");
                  ("content", JList [JDict [("type", JStr "text"); ("text", JStr "hello")]])]]);
   ("tools", JList [JDict [("name", JStr "calculator")]]);
   ("tool_choice", JDict [("type", JStr "auto")])].

Lemma sanitized_has_no_unsupported_parameter_witness :
  sanitize_for_zai annotated_payload = Some annotated_payload_sanitized
  /\ Dict.get "metadata" annotated_payload_sanitized = None
  /\ Dict.get "budget_tokens" [("type", JStr "enabled")] = None.
Proof.
  destruct (sanitized_has_no_unsupported_parameter
              annotated_payload annotated_payload_sanitized eq_refl) as [H1 H2].
  split; [reflexivity|]. split.
  - apply H1. simpl. tauto.
  - apply H2. reflexivity.
Defined.

Lemma sanitized_has_no_web_search_witness :
  sanitize_for_zai annotated_payload = Some annotated_payload_sanitized
  /\ _has_web_search annotated_payload = Some true
  /\ _has_web_search annotated_payload_sanitized = Some false.
Proof.
  destruct (sanitized_has_no_web_search
              annotated_payload annotated_payload_sanitized eq_refl) as [H1 _].
  split; [reflexivity|]. split; [reflexivity | exact H1].
Defined.

Lemma sanitized_has_no_cache_control_witness :
  sanitize_for_zai annotated_payload = Some annotated_payload_sanitized
  /\ Dict.get "cache_control" [("name", JStr "calculator")] = None.
Proof.
  destruct (sanitized_has_no_cache_control
              annotated_payload annotated_payload_sanitized eq_refl) as (_ & _ & _ & H4).
  split; [reflexivity|].
  apply (H4 [JDict [("name", JStr "calculator")]]); [reflexivity | now left].
Defined.

(** ** Routing: what sends a request where *)

Lemma bypass_reason_none (body : dict) :
  bypass_reason body = Some None
  <-> _has_web_search body = Some false
      /\ _has_image_content body = Some false
      /\ _has_forced_tool_choice body = false.
Proof.
  unfold bypass_reason.
  destruct (_has_web_search body) as [[|]|]; simpl;
    [split; [discriminate | intros [[=] _]] | | split; [discriminate | intros [[=] _]]].
  destruct (_has_image_content body) as [[|]|]; simpl;
    [split; [discriminate | intros (_ & [=] & _)] |
    | split; [discriminate | intros (_ & [=] & _)]].
  destruct (_has_forced_tool_choice body);
    [split; [discriminate | intros (_ & _ & [=])] | split; auto].
Qed.

Lemma bypass_reason_raises (body : dict) :
  bypass_reason body = None
  <-> _has_web_search body = None
      \/ (_has_web_search body = Some false /\ _has_image_content body = None).
Proof.
  unfold bypass_reason.
  destruct (_has_web_search body) as [[|]|]; simpl;
    [split; [discriminate | intros [[=] | [[=] _]]] | | split; auto].
  destruct (_has_image_content body) as [[|]|]; simpl;
    [split; [discriminate | intros [[=] | [_ [=]]]] | | split; auto].
  destruct (_has_forced_tool_choice body);
    (split; [discriminate | intros [[=] | [_ [=]]]]).
Qed.

Lemma provider_has_tier (cfg : Config) (model : string) (p : provider) :
  get_provider_config cfg model = Some p -> exists tier, _detect_tier model = Some tier.
Proof.
  unfold get_provider_config. destruct (_detect_tier model) as [tier|]; [eauto | discriminate].
Qed.

Section Routing.

Variable py_float : string -> option (Z * Z).
Variable cfg : Config.
Variable env : world.

(** [resolve] as one case distinction. *)
Lemma resolve_eq (cb : CircuitBreaker.t) (model : string) (body : dict) :
  resolve cfg env cb model body
  = match get_provider_config cfg model with
    | None => Some (None, cb)
    | Some p =>
        match bypass_reason body with
        | None => None
        | Some (Some _) => Some (None, cb)
        | Some None =>
            match _detect_tier model with
            | Some tier =>
                let '(is_open, cb') := CircuitBreaker.is_open (clock env 0) tier cb in
                Some (if is_open then None else Some p, cb')
            | None => Some (Some p, cb)
            end
        end
    end.
Proof.
  unfold resolve. destruct (get_provider_config cfg model) as [p|]; simpl.
  - now destruct (bypass_reason body) as [[r|]|].
  - reflexivity.
Qed.

Lemma resolve_secondary (cb cb' : CircuitBreaker.t) (model : string) (body : dict)
      (p : provider) :
  resolve cfg env cb model body = Some (Some p, cb') ->
  get_provider_config cfg model = Some p
  /\ bypass_reason body = Some None
  /\ exists tier,
       _detect_tier model = Some tier
       /\ CircuitBreaker.is_open (clock env 0) tier cb = (false, cb').
Proof.
  rewrite resolve_eq. destruct (get_provider_config cfg model) as [q|] eqn:Eq; [|discriminate].
  destruct (bypass_reason body) as [[r|]|]; try discriminate.
  destruct (provider_has_tier cfg model q Eq) as [tier Et]. rewrite Et.
  destruct (CircuitBreaker.is_open (clock env 0) tier cb) as [[|] cb1] eqn:Eo;
    [discriminate|].
  intros [= -> ->]. split; [reflexivity|]. split; [reflexivity|].
  exists tier. split; [reflexivity | exact Eo].
Qed.

Local Abbreviation handler := (proxy_messages py_float cfg env).

(** Every call to Z.AI is the one request built for the resolved provider. *)
Lemma zai_calls (cb : CircuitBreaker.t) (body : dict) (hs : headers) :
  Forall (fun rq =>
            dest rq = ZAI ->
            exists model p cb' data,
              model_of body = Some model
              /\ resolve cfg env cb model body = Some (Some p, cb')
              /\ sanitize_for_zai (Dict.set "model" (JStr (ZAI_TARGET_MODEL cfg)) body)
                 = Some data
              /\ rq = target_request (stream_of body) ZAI (base_url p +:+ "/v1/messages")
                                     (zai_headers p hs) data)
         (sends (trace (snd (handler cb body hs)))).
Proof.
  destruct (proxy_messages_cases py_float cfg env cb body hs)
    as [[_ ->] | [(model & p & cb' & data & Hm & Hr & Hsan & ->) | (model & cb' & _ & _ & ->)]].
  - constructor.
  - destruct (attempts _ _ _ _ _ _ _ _ _ _ _ _ _ _ _) as [r st] eqn:Hrun.
    apply attempts_spec in Hrun as (evs & [Htr _] & Hvalid & _); [|reflexivity].
    simpl in *. rewrite Htr. eapply Forall_impl; [exact Hvalid|].
    intros rq [-> | (_ & s & ->)]; [|discriminate].
    intros _. exists model, p, cb', data. repeat split; assumption.
  - destruct (attempts _ _ _ _ _ _ _ _ _ _ _ _ _ _ _) as [r st] eqn:Hrun.
    apply attempts_spec in Hrun as (evs & [Htr _] & Hvalid & _); [|reflexivity].
    simpl in *. rewrite Htr. eapply Forall_impl; [exact Hvalid|].
    intros rq [-> | ([=] & _)]; discriminate.
Qed.

(** A request with a reason to bypass goes to the primary provider. *)
Lemma bypass_to_primary (cb : CircuitBreaker.t) (body : dict) (hs : headers) (r : string) :
  bypass_reason body = Some (Some r) ->
  (forall model, resolve cfg env cb model body = Some (None, cb))
  /\ Forall (fun rq => dest rq = Anthropic /\ url rq = anthropic_url /\ payload rq = body)
            (sends (trace (snd (handler cb body hs)))).
Proof.
  intros Hb.
  assert (Hres : forall model, resolve cfg env cb model body = Some (None, cb)).
  { intros model. rewrite resolve_eq, Hb. now destruct (get_provider_config cfg model). }
  split; [exact Hres|].
  pose proof (zai_calls cb body hs) as Hz.
  pose proof (proxy_messages_calls py_float cfg env cb body hs) as Hc.
  rewrite Forall_forall in *. intros rq Hin.
  specialize (Hz rq Hin). specialize (Hc rq Hin).
  destruct (dest rq) eqn:Ed.
  - destruct Hc as [Hp Hu]. repeat split; assumption.
  - destruct (Hz eq_refl) as (model & p & cb' & _ & _ & Hr & _).
    rewrite Hres in Hr. discriminate Hr.
Qed.

(** A request resolved to the primary provider only calls Anthropic, with
    the body as received. *)
Lemma to_primary (cb cb' : CircuitBreaker.t) (body : dict) (hs : headers) (model : string) :
  model_of body = Some model ->
  resolve cfg env cb model body = Some (None, cb') ->
  Forall (fun rq => dest rq = Anthropic /\ url rq = anthropic_url /\ payload rq = body)
         (sends (trace (snd (handler cb body hs)))).
Proof.
  intros Hm Hres.
  pose proof (zai_calls cb body hs) as Hz.
  pose proof (proxy_messages_calls py_float cfg env cb body hs) as Hc.
  rewrite Forall_forall in *. intros rq Hin.
  specialize (Hz rq Hin). specialize (Hc rq Hin).
  destruct (dest rq) eqn:Ed.
  - destruct Hc as [Hp Hu]. repeat split; assumption.
  - destruct (Hz eq_refl) as (model' & p & cb'' & _ & Hm' & Hr & _).
    rewrite Hm in Hm'. injection Hm' as <-. rewrite Hres in Hr. discriminate Hr.
Qed.

Lemma image_block_true (b : dict) :
  Dict.get "type" b = Some (JStr "image")
  \/ Dict.get "type" b = Some (JStr "image_url")
  \/ (exists src, Dict.get "source" b = Some (JDict src)
                  /\ (Dict.get "type" src = Some (JStr "base64")
                      \/ Dict.get "type" src = Some (JStr "url"))) ->
  image_block (JDict b) = true.
Proof.
  unfold image_block.
  intros [H|[H|(src & Hs & [H|H])]]; rewrite ?H; try reflexivity;
    rewrite Hs; change (default (JDict []) (Some (JDict src))) with (JDict src);
    cbv beta iota; rewrite H; apply orb_true_r.
Qed.

Lemma has_image_content_true (body : dict) (msgs blocks : list json) (m b : dict) :
  Dict.get "messages" body = Some (JList msgs) ->
  In (JDict m) msgs ->
  Dict.get "content" m = Some (JList blocks) ->
  In (JDict b) blocks ->
  image_block (JDict b) = true ->
  _has_image_content body = Some true.
Proof.
  intros Hm Hin Hc Hb Hi. unfold _has_image_content. rewrite Hm. simpl. f_equal.
  apply existsb_exists. exists (JDict m). split; [exact Hin|]. simpl. rewrite Hc.
  apply existsb_exists. exists (JDict b). split; [exact Hb | exact Hi].
Qed.

(** X. Let a message of the request have a content list with a block of
    type "image" or "image_url", or a block whose [source] object has type
    "base64" or "url", and let the [tools], if any, be something a loop can
    run over.  Whatever the model name, the configuration and the state of
    the circuit breaker, the route resolves to the primary provider, the
    breaker is not consulted, and every call of the handler goes to
    Anthropic with the payload as received. *)
Theorem image_content_bypass
        (cb : CircuitBreaker.t) (body : dict) (hs : headers)
        (msgs blocks : list json) (m b : dict) :
  _has_web_search body <> None ->
  Dict.get "messages" body = Some (JList msgs) ->
  In (JDict m) msgs ->
  Dict.get "content" m = Some (JList blocks) ->
  In (JDict b) blocks ->
  (Dict.get "type" b = Some (JStr "image")
   \/ Dict.get "type" b = Some (JStr "image_url")
   \/ (exists src, Dict.get "source" b = Some (JDict src)
                   /\ (Dict.get "type" src = Some (JStr "base64")
                       \/ Dict.get "type" src = Some (JStr "url")))) ->
  (forall model, resolve cfg env cb model body = Some (None, cb))
  /\ Forall (fun rq => dest rq = Anthropic /\ url rq = anthropic_url /\ payload rq = body)
            (sends (trace (snd (handler cb body hs)))).
Proof.
  intros Hws Hm Hin Hc Hb Hi.
  pose proof (has_image_content_true body msgs blocks m b Hm Hin Hc Hb
                (image_block_true b Hi)) as Himg.
  assert (exists r, bypass_reason body = Some (Some r)) as [r Hr].
  { unfold bypass_reason. destruct (_has_web_search body) as [[|]|]; [eauto| |congruence].
    simpl. rewrite Himg. simpl. eauto. }
  exact (bypass_to_primary cb body hs r Hr).
Qed.

(** X. Let [tool_choice] be a string other than "auto" and the empty
    string, or an object whose [type] is there and is neither of the two,
    in a request whose [tools] and [messages], if any, can be looped over.
    Then the route resolves to the primary provider whatever the model
    name, the configuration and the breaker, and every call goes to
    Anthropic with the payload as received. *)
Theorem forced_tool_choice_bypass
        (cb : CircuitBreaker.t) (body : dict) (hs : headers) (tc : json) :
  _has_web_search body <> None ->
  _has_image_content body <> None ->
  Dict.get "tool_choice" body = Some tc ->
  ((exists s, tc = JStr s /\ s <> "auto" /\ s <> "")
   \/ (exists d t, tc = JDict d /\ Dict.get "type" d = Some t
                   /\ t <> JStr "auto" /\ t <> JStr "")) ->
  _has_forced_tool_choice body = true
  /\ (forall model, resolve cfg env cb model body = Some (None, cb))
  /\ Forall (fun rq => dest rq = Anthropic /\ url rq = anthropic_url /\ payload rq = body)
            (sends (trace (snd (handler cb body hs)))).
Proof.
  intros Hws Himg Htc Hforced.
  assert (Hf : _has_forced_tool_choice body = true).
  { unfold _has_forced_tool_choice. rewrite Htc.
    destruct Hforced as [(s & -> & H1 & H2) | (d & t & -> & Ht & H1 & H2)].
    - simpl. destruct (String.eqb_spec s "auto"); [contradiction|].
      destruct (String.eqb_spec s ""); [contradiction|]. reflexivity.
    - rewrite Ht. simpl. destruct t; try reflexivity. simpl.
      destruct (String.eqb_spec s "auto"); [congruence|].
      destruct (String.eqb_spec s ""); [congruence|]. reflexivity. }
  split; [exact Hf|].
  assert (exists r, bypass_reason body = Some (Some r)) as [r Hr].
  { unfold bypass_reason. destruct (_has_web_search body) as [[|]|]; [eauto| |congruence].
    simpl. destruct (_has_image_content body) as [[|]|]; [eauto| |congruence].
    simpl. rewrite Hf. eauto. }
  exact (bypass_to_primary cb body hs r Hr).
Qed.

(** X. While the circuit of the model's tier is open (opened less than
    [recovery_time] before the request arrives), a request whose
    compatibility tests do not raise resolves to the primary provider and
    leaves the breaker as it is: every call goes to Anthropic with the
    payload as received, secondary provider configured or not. *)
Theorem open_circuit_bypass
        (cb : CircuitBreaker.t) (body : dict) (hs : headers)
        (model tier : string) (opened : Z) :
  model_of body = Some model ->
  _detect_tier model = Some tier ->
  CircuitBreaker._opened_at cb !! tier = Some opened ->
  clock env 0 - opened < CircuitBreaker.recovery_time cb ->
  bypass_reason body <> None ->
  resolve cfg env cb model body = Some (None, cb)
  /\ Forall (fun rq => dest rq = Anthropic /\ url rq = anthropic_url /\ payload rq = body)
            (sends (trace (snd (handler cb body hs)))).
Proof.
  intros Hm Ht Ho Hlt Hb.
  assert (Hres : resolve cfg env cb model body = Some (None, cb)).
  { rewrite resolve_eq, Ht. destruct (get_provider_config cfg model); [|reflexivity].
    destruct (bypass_reason body) as [[r|]|]; [reflexivity| |congruence].
    unfold CircuitBreaker.is_open. rewrite Ho.
    destruct (CircuitBreaker.recovery_time cb <=? clock env 0 - opened) eqn:El;
      [apply Z.leb_le in El; lia | reflexivity]. }
  split; [exact Hres|]. exact (to_primary cb cb body hs model Hm Hres).
Qed.

End Routing.

(** The three bypasses on a sonnet request, the sonnet tier being
    configured for Z.AI. *)
Lemma image_content_bypass_witness :
  let body := [("model", JStr "claude-sonnet-4-6");
               ("messages",
                JList [JDict [("role", JStr "user");
                              ("content",
                               JList [JDict [("type", JStr "text"); ("text", JStr "what is this?")];
                                      JDict [("type", JStr "image");
                                             ("source", JDict [("type", JStr "base64")])]])]])] in
  get_provider_config sonnet_on_zai "claude-sonnet-4-6" <> None
  /\ resolve sonnet_on_zai (always (reply_with 200 "ok")) (CircuitBreaker.init 5 120)
             "claude-sonnet-4-6" body
     = Some (None, CircuitBreaker.init 5 120).
Proof.
  intros body. split; [discriminate|].
  eapply (image_content_bypass (fun _ => None) sonnet_on_zai (always (reply_with 200 "ok"))
            (CircuitBreaker.init 5 120) body [] _ _ _
            [("type", JStr "image"); ("source", JDict [("type", JStr "base64")])]).
  - discriminate.
  - reflexivity.
  - now left.
  - reflexivity.
  - right. now left.
  - now left.
Defined.

Lemma forced_tool_choice_bypass_witness :
  let body := [("model", JStr "claude-sonnet-4-6");
               ("tools", JList [JDict [("name", JStr "calculator")]]);
               ("tool_choice", JDict [("type", JStr "tool"); ("name", JStr "calculator")])] in
  get_provider_config sonnet_on_zai "claude-sonnet-4-6" <> None
  /\ resolve sonnet_on_zai (always (reply_with 200 "ok")) (CircuitBreaker.init 5 120)
             "claude-sonnet-4-6" body
     = Some (None, CircuitBreaker.init 5 120).
Proof.
  intros body. split; [discriminate|].
  eapply (forced_tool_choice_bypass (fun _ => None) sonnet_on_zai
            (always (reply_with 200 "ok")) (CircuitBreaker.init 5 120) body []
            (JDict [("type", JStr "tool"); ("name", JStr "calculator")])).
  - discriminate.
  - discriminate.
  - reflexivity.
  - right. exists [("type", JStr "tool"); ("name", JStr "calculator")], (JStr "tool").
    repeat split; discriminate.
Defined.

Lemma open_circuit_bypass_witness :
  let body := [("model", JStr "claude-sonnet-4-6")] in
  let cb := CircuitBreaker.run [CircuitBreaker.RecordFailure 10 "sonnet";
                                CircuitBreaker.RecordFailure 20 "sonnet"]
                               (CircuitBreaker.init 2 120) in
  let env := {| answer := fun _ => reply_with 200 "ok"; clock := fun _ => 100 |} in
  get_provider_config sonnet_on_zai "claude-sonnet-4-6" <> None
  /\ resolve sonnet_on_zai env cb "claude-sonnet-4-6" body = Some (None, cb).
Proof.
  intros body cb env. split; [discriminate|].
  eapply (open_circuit_bypass (fun _ => None) sonnet_on_zai env cb body []
            "claude-sonnet-4-6" "sonnet" 20).
  - reflexivity.
  - reflexivity.
  - reflexivity.
  - simpl. lia.
  - discriminate.
Defined.

(** ** What reaches the secondary provider *)

Section SecondaryCalls.

Variable py_float : string -> option (Z * Z).
Variable cfg : Config.
Variable env : world.

Local Abbreviation handler := (proxy_messages py_float cfg env).

(** Every call made to the secondary provider belongs to a request that
    passed all the tests of the handler: its model is of a tier with a
    base URL, it has no web-search tool, no image and no forced tool
    choice, and the circuit of its tier was not open when the request
    came in.  The call goes to [/v1/messages] under the base URL of the
    tier; its payload is the sanitized body, with the configured target
    model in place of the model asked for. *)
Theorem secondary_calls_are_compatible (cb : CircuitBreaker.t) (body : dict) (hs : headers) :
  Forall (fun rq =>
            dest rq = ZAI ->
            exists model p tier,
              model_of body = Some model
              /\ get_provider_config cfg model = Some p
              /\ _detect_tier model = Some tier
              /\ fst (CircuitBreaker.is_open (clock env 0) tier cb) = false
              /\ _has_web_search body = Some false
              /\ _has_image_content body = Some false
              /\ _has_forced_tool_choice body = false
              /\ url rq = base_url p +:+ "/v1/messages"
              /\ streamed rq = stream_of body
              /\ sanitize_for_zai (Dict.set "model" (JStr (ZAI_TARGET_MODEL cfg)) body)
                 = Some (payload rq)
              /\ Dict.get "model" (payload rq) = Some (JStr (ZAI_TARGET_MODEL cfg)))
         (sends (trace (snd (handler cb body hs)))).
Proof.
  eapply Forall_impl; [apply zai_calls|]. cbv beta.
  intros rq H Hd. destruct (H Hd) as (model & p & cb' & data & Hm & Hr & Hsan & ->).
  apply resolve_secondary in Hr as (Hp & Hb & tier & Ht & Ho).
  apply bypass_reason_none in Hb as (Hw & Hi & Hf).
  exists model, p, tier. simpl. rewrite Ho.
  repeat (split; [solve [assumption | reflexivity]|]).
  rewrite (sanitized_plain _ _ "model" Hsan eq_refl), get_first_steps. simpl.
  now rewrite get_set.
Qed.

(** The headers of a call to the secondary provider: a JSON content type,
    the key of the tier (as bearer token and as [x-api-key]) when one is
    set, the client's [anthropic-version], and [Accept] for a streaming
    request.  The client's own credentials and its [anthropic-beta] are
    never sent to the secondary provider. *)
Theorem secondary_calls_carry_the_provider_key (cb : CircuitBreaker.t) (body : dict)
        (hs : headers) :
  Forall (fun rq =>
            dest rq = ZAI ->
            exists model p,
              model_of body = Some model
              /\ get_provider_config cfg model = Some p
              /\ forall name,
                  header name (req_headers rq)
                  = if String.eqb name "content-type" then Some "application/json"
                    else if String.eqb name "authorization"
                         then (if env_set (api_key p)
                               then Some ("Bearer " +:+ default "" (api_key p)) else None)
                    else if String.eqb name "x-api-key"
                         then (if env_set (api_key p) then api_key p else None)
                    else if String.eqb name "anthropic-version"
                         then header "anthropic-version" hs
                    else if String.eqb name "accept"
                         then (if stream_of body then Some "text/event-stream" else None)
                    else None)
         (sends (trace (snd (handler cb body hs)))).
Proof.
  eapply Forall_impl; [apply zai_calls|]. cbv beta.
  intros rq H Hd. destruct (H Hd) as (model & p & cb' & data & Hm & Hr & Hsan & ->).
  apply resolve_secondary in Hr as (Hp & _).
  exists model, p. split; [exact Hm|]. split; [exact Hp|].
  intros name. cbn [req_headers target_request].
  rewrite header_app, zai_headers_lookup.
  destruct (String.eqb_spec name "content-type") as [->|N1]; [reflexivity|].
  destruct (String.eqb_spec name "authorization") as [->|N2].
  { destruct (api_key p) as [[|c k]|]; destruct (stream_of body); reflexivity. }
  destruct (String.eqb_spec name "x-api-key") as [->|N3].
  { destruct (api_key p) as [[|c k]|]; destruct (stream_of body); reflexivity. }
  destruct (String.eqb_spec name "anthropic-version") as [->|N4].
  { destruct (header "anthropic-version" hs); destruct (stream_of body); reflexivity. }
  destruct (stream_of body); simpl; [|now destruct (String.eqb name "accept")].
  now rewrite String.eqb_sym.
Qed.

End SecondaryCalls.

(** ** How a request ends *)

Lemma loop_reply_handled (r : reply) : loop_reply r -> r <> Unhandled.
Proof. intros [[x ->]|[[x ->]|[[x ->]|[x ->]]]]; discriminate. Qed.

Lemma loop_reply_not_exceeded (r : reply) :
  loop_reply r -> r <> JSONResponse 500 "Max retries exceeded".
Proof. intros [[x ->]|[[x ->]|[[x ->]|[x ->]]]]; discriminate. Qed.

Section HandlerEnds.

Variable py_float : string -> option (Z * Z).
Variable cfg : Config.
Variable env : world.

Local Abbreviation handler := (proxy_messages py_float cfg env).
Local Abbreviation start := (fun cb => {| breaker := cb; trace := []; nsent := 0 |}).

(** The loop as the handler starts it: without an iteration it falls
    through to the last [return]; with one, it ends inside its body. *)
Lemma attempts_from_start (is_streaming is_zai_route : bool) (tier : option string)
      (target : upstream) (target_url : string) (target_headers : headers)
      (data original_data : dict) (original_headers : headers)
      (cb : CircuitBreaker.t) (r : reply) (st' : state) :
  target = (if is_zai_route then ZAI else Anthropic) ->
  attempts py_float cfg env is_streaming is_zai_route tier target target_url
           target_headers data original_data original_headers
           (Z.to_nat (MAX_RETRIES cfg)) 0 (start cb) = (r, st') ->
  (MAX_RETRIES cfg <= 0 /\ r = JSONResponse 500 "Max retries exceeded" /\ st' = start cb)
  \/ (0 < MAX_RETRIES cfg
      /\ loop_reply r
      /\ calls_to target (trace st') = S (List.length (sleeps (trace st')))
      /\ Z.of_nat (List.length (sleeps (trace st'))) < MAX_RETRIES cfg
      /\ exists rq, last (trace st') = Some (Sent rq)).
Proof.
  intros Hroute Hrun.
  destruct (Z.to_nat (MAX_RETRIES cfg)) as [|left] eqn:En.
  - left. injection Hrun as <- <-. split; [lia|]. split; reflexivity.
  - right. split; [lia|].
    eapply attempts_end in Hrun as (Hr & evs & Htr & Hc & Hn & Hl); [|exact Hroute|lia].
    simpl in Htr. subst evs. repeat split; try assumption. lia.
Qed.

(** What a request that is not answered by an escaping exception went
    through: a model name, a route, and the loop. *)
Lemma handled_request (cb : CircuitBreaker.t) (body : dict) (hs : headers) :
  fst (handler cb body hs) <> Unhandled ->
  exists model route cb',
    model_of body = Some model
    /\ resolve cfg env cb model body = Some (route, cb')
    /\ ((MAX_RETRIES cfg <= 0
         /\ handler cb body hs = (JSONResponse 500 "Max retries exceeded", start cb'))
        \/ (0 < MAX_RETRIES cfg
            /\ loop_reply (fst (handler cb body hs))
            /\ calls_to (upstream_of route) (trace (snd (handler cb body hs)))
               = S (List.length (sleeps (trace (snd (handler cb body hs)))))
            /\ Z.of_nat (List.length (sleeps (trace (snd (handler cb body hs)))))
               < MAX_RETRIES cfg
            /\ exists rq, last (trace (snd (handler cb body hs))) = Some (Sent rq))).
Proof.
  intros Hne.
  destruct (proxy_messages_cases py_float cfg env cb body hs)
    as [[Hu _] | [(model & p & cb' & data & Hm & Hr & _ & Heq)
                 | (model & cb' & Hm & Hr & Heq)]];
    [contradiction | |].
  - exists model, (Some p), cb'. split; [exact Hm|]. split; [exact Hr|].
    destruct (handler cb body hs) as [r st'] eqn:Hh. symmetry in Heq.
    apply attempts_from_start in Heq as [(Hle & -> & ->) | Hpos]; [| |reflexivity].
    + left. split; [exact Hle | reflexivity].
    + right. exact Hpos.
  - exists model, None, cb'. split; [exact Hm|]. split; [exact Hr|].
    destruct (handler cb body hs) as [r st'] eqn:Hh. symmetry in Heq.
    apply attempts_from_start in Heq as [(Hle & -> & ->) | Hpos]; [| |reflexivity].
    + left. split; [exact Hle | reflexivity].
    + right. exact Hpos.
Qed.

(** The bypass tests have run the two loops the sanitizer runs. *)
Lemma compatible_is_sanitizable (body : dict) (model : json) :
  bypass_reason body = Some None ->
  is_Some (sanitize_for_zai (Dict.set "model" model body)).
Proof.
  intros Hb. apply bypass_reason_none in Hb as (Hw & Hi & _).
  apply sanitize_is_Some. rewrite !get_set. simpl.
  unfold _has_web_search in Hw. unfold _has_image_content in Hi.
  destruct (py_iter (default (JList []) (Dict.get "messages" body))); [|discriminate Hi].
  destruct (py_iter (default (JList []) (Dict.get "tools" body))); [|discriminate Hw].
  split; eauto.
Qed.

(** An exception escapes the handler exactly when the model is not a
    string, or when the tier of the model has a base URL and one of the
    two bypass tests that are reached fails to iterate ([tools] for the
    web-search test; [messages] for the image test, which runs only when
    the first has answered no).  In particular the sanitizer never raises
    in the handler: a request that reaches it has passed both tests. *)
Theorem unhandled_exactly_when (cb : CircuitBreaker.t) (body : dict) (hs : headers) :
  (fst (handler cb body hs) = Unhandled
   <-> model_of body = None
       \/ exists model,
            model_of body = Some model
            /\ get_provider_config cfg model <> None
            /\ (_has_web_search body = None
                \/ (_has_web_search body = Some false /\ _has_image_content body = None)))
  /\ (forall model p cb',
         model_of body = Some model ->
         resolve cfg env cb model body = Some (Some p, cb') ->
         is_Some (sanitize_for_zai (Dict.set "model" (JStr (ZAI_TARGET_MODEL cfg)) body))).
Proof.
  assert (Hsan : forall model p cb',
             resolve cfg env cb model body = Some (Some p, cb') ->
             is_Some (sanitize_for_zai (Dict.set "model" (JStr (ZAI_TARGET_MODEL cfg)) body))).
  { intros model p cb' Hr. apply resolve_secondary in Hr as (_ & Hb & _).
    now apply compatible_is_sanitizable. }
  split; [|intros model p cb' _; apply Hsan].
  split.
  - intros Hu. destruct (model_of body) as [model|] eqn:Hm; [|now left]. right.
    exists model. split; [reflexivity|].
    assert (Hres : resolve cfg env cb model body = None).
    { revert Hu. unfold proxy_messages. unfold model_of in Hm.
      destruct (default (JStr "") (Dict.get "model" body)) as [| | | |m| |];
        try discriminate Hm. injection Hm as ->.
      destruct (resolve cfg env cb model body) as [[[p|] cb']|] eqn:Hr; [| |reflexivity].
      - destruct (Hsan model p cb' Hr) as [data ->]. intros Hu. exfalso.
        destruct (attempts _ _ _ _ _ _ _ _ _ _ _ _ _ _ _) as [r st'] eqn:Hrun.
        apply attempts_from_start in Hrun as [(_ & -> & _) | (_ & Hl & _)]; [| |reflexivity].
        + discriminate Hu.
        + now apply loop_reply_handled in Hl.
      - intros Hu. exfalso.
        destruct (attempts _ _ _ _ _ _ _ _ _ _ _ _ _ _ _) as [r st'] eqn:Hrun.
        apply attempts_from_start in Hrun as [(_ & -> & _) | (_ & Hl & _)]; [| |reflexivity].
        + discriminate Hu.
        + now apply loop_reply_handled in Hl. }
    rewrite resolve_eq in Hres.
    destruct (get_provider_config cfg model) as [p|]; [|discriminate Hres].
    split; [discriminate|].
    destruct (bypass_reason body) as [[r|]|] eqn:Hb; try discriminate Hres.
    + destruct (_detect_tier model); [|discriminate Hres].
      now destruct (CircuitBreaker.is_open _ _ _).
    + now apply bypass_reason_raises.
  - intros [Hm | (model & Hm & Hp & Hb)].
    + unfold proxy_messages. unfold model_of in Hm.
      now destruct (default (JStr "") (Dict.get "model" body)).
    + apply bypass_reason_raises in Hb.
      assert (Hres : resolve cfg env cb model body = None).
      { rewrite resolve_eq, Hb. now destruct (get_provider_config cfg model). }
      unfold proxy_messages. unfold model_of in Hm.
      destruct (default (JStr "") (Dict.get "model" body)) as [| | | |m| |];
        try discriminate Hm. injection Hm as ->. now rewrite Hres.
Qed.

(** The [return] after the loop is reached only when the loop has no
    iteration at all: with [MAX_RETRIES] at most 0 every request that
    gets as far as the loop is answered 500 "Max retries exceeded" and no
    call is made; with [MAX_RETRIES] at least 1 no request gets that
    answer. *)
Theorem max_retries_exceeded_exactly_when (cb : CircuitBreaker.t) (body : dict)
        (hs : headers) :
  (fst (handler cb body hs) = JSONResponse 500 "Max retries exceeded"
   <-> MAX_RETRIES cfg <= 0 /\ fst (handler cb body hs) <> Unhandled)
  /\ (MAX_RETRIES cfg <= 0 -> trace (snd (handler cb body hs)) = []).
Proof.
  split; [split|].
  - intros He.
    assert (Hne : fst (handler cb body hs) <> Unhandled) by (rewrite He; discriminate).
    split; [|exact Hne].
    destruct (handled_request cb body hs Hne)
      as (model & route & cb' & _ & _ & [(Hle & _) | (_ & Hl & _)]); [exact Hle|].
    now apply loop_reply_not_exceeded in Hl.
  - intros (Hle & Hne).
    destruct (handled_request cb body hs Hne)
      as (model & route & cb' & _ & _ & [(_ & ->) | (Hpos & _)]); [reflexivity | lia].
  - intros Hle.
    destruct (proxy_messages_cases py_float cfg env cb body hs) as [[_ Ht] | Hrun];
      [exact Ht|].
    assert (Hne : fst (handler cb body hs) <> Unhandled).
    { destruct Hrun as [(model & p & cb' & data & _ & _ & _ & ->)
                       | (model & cb' & _ & _ & ->)];
        destruct (attempts _ _ _ _ _ _ _ _ _ _ _ _ _ _ _) as [r st'] eqn:Hrun;
        (apply attempts_from_start in Hrun as [(_ & -> & _) | (Hpos & _)];
         [discriminate | lia | reflexivity]). }
    destruct (handled_request cb body hs Hne)
      as (model & route & cb' & _ & _ & [(_ & ->) | (Hpos & _)]); [reflexivity | lia].
Qed.

(** A request that is answered with [MAX_RETRIES] at least 1 is answered
    from inside the loop, right after a call: by the relayed or streamed
    response of an upstream, by a 504, or by a 500 "Proxy error".  The
    handler has slept exactly once between two calls to the target it
    resolved, at most [MAX_RETRIES - 1] times, and never after its last
    call. *)
Theorem answered_right_after_a_call (cb : CircuitBreaker.t) (body : dict) (hs : headers) :
  0 < MAX_RETRIES cfg ->
  fst (handler cb body hs) <> Unhandled ->
  let out := handler cb body hs in
  exists model route cb',
    model_of body = Some model
    /\ resolve cfg env cb model body = Some (route, cb')
    /\ loop_reply (fst out)
    /\ calls_to (upstream_of route) (trace (snd out))
       = S (List.length (sleeps (trace (snd out))))
    /\ Z.of_nat (List.length (sleeps (trace (snd out)))) <= MAX_RETRIES cfg - 1
    /\ exists rq, last (trace (snd out)) = Some (Sent rq).
Proof.
  intros Hpos Hne. cbv zeta.
  destruct (handled_request cb body hs Hne)
    as (model & route & cb' & Hm & Hr & [(Hle & _) | (_ & Hl & Hc & Hn & Hlast)]); [lia|].
  exists model, route, cb'.
  split; [exact Hm|]. split; [exact Hr|]. split; [exact Hl|]. split; [exact Hc|].
  split; [lia | exact Hlast].
Qed.

End HandlerEnds.

(** The theorem on a sonnet request sent to Z.AI whose first two calls end
    in a connect timeout: three calls, two sleeps, and the third answer
    relayed. *)
Lemma answered_right_after_a_call_witness :
  let env := {| answer := fun n => if (n <? 2)%nat then Raises ConnectTimeout
                                   else reply_with 200 "ok";
                clock := fun _ => 0 |} in
  let body := [("model", JStr "claude-sonnet-4-6")] in
  let out := proxy_messages (fun _ => None) sonnet_on_zai env (CircuitBreaker.init 5 120)
                            body [] in
  0 < MAX_RETRIES sonnet_on_zai
  /\ fst out <> Unhandled
  /\ List.length (sleeps (trace (snd out))) = 2%nat
  /\ exists model route cb',
      model_of body = Some model
      /\ resolve sonnet_on_zai env (CircuitBreaker.init 5 120) model body = Some (route, cb')
      /\ loop_reply (fst out)
      /\ calls_to (upstream_of route) (trace (snd out))
         = S (List.length (sleeps (trace (snd out))))
      /\ Z.of_nat (List.length (sleeps (trace (snd out)))) <= MAX_RETRIES sonnet_on_zai - 1
      /\ exists rq, last (trace (snd out)) = Some (Sent rq).
Proof.
  intros env body out.
  split; [reflexivity|]. split; [discriminate|]. split; [reflexivity|].
  apply (answered_right_after_a_call (fun _ => None) sonnet_on_zai env
           (CircuitBreaker.init 5 120) body []); [reflexivity | discriminate].
Defined.

(** ** Startup validation, token counting and the health report *)

Lemma configured_Some (key url : option string) (label : string) (p : provider) :
  configured key url label = Some p ->
  env_set url = true /\ api_key p = key /\ url = Some (base_url p).
Proof.
  unfold configured. destruct url as [[|c u]|]; simpl; try discriminate.
  intros [= <-]. repeat split.
Qed.

Lemma configured_is_Some (key url : option string) (label : string) :
  is_Some (configured key url label) <-> env_set url = true.
Proof.
  unfold configured. destruct url as [[|c u]|]; simpl; rewrite is_Some_alt; intuition discriminate.
Qed.

(** The tier of a model is one of three names. *)
Lemma detect_tier_names (model tier : string) :
  _detect_tier model = Some tier -> tier = "opus" \/ tier = "sonnet" \/ tier = "haiku".
Proof.
  unfold _detect_tier.
  repeat match goal with
         | |- context [if ?b then _ else _] => destruct b
         end; intros [= <-]; tauto.
Qed.


Lemma provider_settings (cfg : Config) (model tier : string) :
  _detect_tier model = Some tier ->
  (is_Some (get_provider_config cfg model) <-> env_set (fst (tier_settings cfg tier)) = true)
  /\ forall p, get_provider_config cfg model = Some p ->
               api_key p = snd (tier_settings cfg tier)
               /\ fst (tier_settings cfg tier) = Some (base_url p).
Proof.
  intros Ht. unfold get_provider_config, tier_settings. rewrite Ht.
  destruct (detect_tier_names model tier Ht) as [->|[->| ->]]; simpl;
    (split; [apply configured_is_Some | intros p Hp; now apply configured_Some in Hp]).
Qed.

(** The check passes when every tier has both settings or neither. *)
Lemma validate_config_true (cfg : Config) :
  snd (validate_config cfg) = true
  <-> forall tier, In tier ["opus"; "sonnet"; "haiku"] ->
                   env_set (fst (tier_settings cfg tier)) = env_set (snd (tier_settings cfg tier)).
Proof.
  unfold validate_config, tier_settings. cbn [flat_map snd In].
  split.
  - intros H tier [<-|[<-|[<-|[]]]]; cbn [String.eqb Ascii.eqb Bool.eqb fst snd];
      revert H;
      destruct (env_set (HAIKU_BASE_URL cfg)), (env_set (HAIKU_API_KEY cfg)),
        (env_set (SONNET_BASE_URL cfg)), (env_set (SONNET_API_KEY cfg)),
        (env_set (OPUS_BASE_URL cfg)), (env_set (OPUS_API_KEY cfg));
      simpl; congruence.
  - intros H.
    pose proof (H "opus" ltac:(simpl; tauto)) as Ho.
    pose proof (H "sonnet" ltac:(simpl; tauto)) as Hs.
    pose proof (H "haiku" ltac:(simpl; tauto)) as Hh.
    cbn [String.eqb Ascii.eqb Bool.eqb fst snd] in Ho, Hs, Hh. rewrite Ho, Hs, Hh.
    destruct (env_set (HAIKU_API_KEY cfg)), (env_set (SONNET_API_KEY cfg)),
      (env_set (OPUS_API_KEY cfg)); reflexivity.
Qed.

Section Validated.

Variable py_float : string -> option (Z * Z).
Variable cfg : Config.
Variable env : world.

(** When [validate_config] returns [True], every call made to the
    secondary provider is authenticated: it carries the key configured for
    the tier of the model, which is not empty, both as bearer token and as
    [x-api-key]. *)
Theorem validated_config_authenticates (cb : CircuitBreaker.t) (body : dict) (hs : headers) :
  snd (validate_config cfg) = true ->
  Forall (fun rq =>
            dest rq = ZAI ->
            exists model p key,
              model_of body = Some model
              /\ get_provider_config cfg model = Some p
              /\ api_key p = Some key
              /\ key <> ""
              /\ header "authorization" (req_headers rq) = Some ("Bearer " +:+ key)
              /\ header "x-api-key" (req_headers rq) = Some key)
         (sends (trace (snd (proxy_messages py_float cfg env cb body hs)))).
Proof.
  intros Hv. eapply Forall_impl; [apply zai_calls|]. cbv beta.
  intros rq H Hd. destruct (H Hd) as (model & p & cb' & data & Hm & Hr & _ & ->).
  apply resolve_secondary in Hr as (Hp & _ & tier & Ht & _).
  destruct (provider_settings cfg model tier Ht) as [Hset Hkey].
  destruct (Hkey p Hp) as [Hk _].
  assert (Hurl : env_set (fst (tier_settings cfg tier)) = true)
    by (apply Hset; rewrite Hp; eauto).
  pose proof (proj1 (validate_config_true cfg) Hv tier) as Hboth.
  rewrite Hurl, <- Hk in Hboth.
  assert (Hin : In tier ["opus"; "sonnet"; "haiku"])
    by (destruct (detect_tier_names model tier Ht) as [->|[->| ->]]; simpl; tauto).
  specialize (Hboth Hin).
  destruct (api_key p) as [[|c k]|] eqn:Ek; try discriminate Hboth.
  exists model, p, (String c k).
  split; [exact Hm|]. split; [exact Hp|]. split; [exact Ek|]. split; [discriminate|].
  cbn [req_headers target_request]. rewrite !header_app, !zai_headers_lookup, Ek.
  split; reflexivity.
Qed.

End Validated.

(** The theorem on a sonnet request, with the sonnet tier alone on Z.AI. *)
Lemma validated_config_authenticates_witness :
  let out := proxy_messages (fun _ => None) sonnet_on_zai (always (reply_with 200 "ok"))
                            (CircuitBreaker.init 5 120)
                            [("model", JStr "claude-sonnet-4-6")] [] in
  snd (validate_config sonnet_on_zai) = true
  /\ calls_to ZAI (trace (snd out)) = 1%nat
  /\ Forall (fun rq =>
               dest rq = ZAI ->
               exists model p key,
                 model_of [("model", JStr "claude-sonnet-4-6")] = Some model
                 /\ get_provider_config sonnet_on_zai model = Some p
                 /\ api_key p = Some key
                 /\ key <> ""
                 /\ header "authorization" (req_headers rq) = Some ("Bearer " +:+ key)
                 /\ header "x-api-key" (req_headers rq) = Some key)
            (sends (trace (snd out))).
Proof.
  intros out. split; [reflexivity|]. split; [reflexivity|].
  apply (validated_config_authenticates (fun _ => None) sonnet_on_zai
           (always (reply_with 200 "ok")) (CircuitBreaker.init 5 120)
           [("model", JStr "claude-sonnet-4-6")] []).
  reflexivity.
Defined.

Section TokenCount.

Variable str_exn : exn -> string.
Variable env : world.

(** [proxy_count_tokens] makes exactly one call, whatever the model and
    whatever the answer: to the token-counting URL of Anthropic, with the
    body as received and the headers [_build_anthropic_headers] gives the
    messages endpoint.  A response is relayed with its status, error
    statuses and 429 included, and an exception of any kind gives a 500;
    nothing is retried and the circuit breaker is left alone. *)
Theorem count_tokens_is_one_call_to_anthropic (body : dict) (hs : headers) (st : state) :
  let out := proxy_count_tokens str_exn env body hs st in
  exists rq,
    trace (snd out) = trace st ++ [Sent rq]
    /\ nsent (snd out) = S (nsent st)
    /\ breaker (snd out) = breaker st
    /\ dest rq = Anthropic
    /\ url rq = "https://api.anthropic.com/v1/messages/count_tokens"
    /\ payload rq = body
    /\ req_headers rq = _build_anthropic_headers hs
    /\ fst out = match answer env (nsent st) with
                 | Returns r =>
                     Response (content r) (status_code r)
                              (strip_encoding_headers (resp_headers r))
                 | Raises e => JSONResponse 500 ("Proxy error: " +:+ str_exn e)
                 end.
Proof.
  cbv zeta. unfold proxy_count_tokens, send. cbv zeta.
  eexists. destruct (answer env (nsent st)) as [r|e]; cbn [fst snd trace nsent breaker];
    (split; [reflexivity|]); repeat (split; [reflexivity|]);
    cbn [req_headers]; (split; [apply count_tokens_headers_eq | reflexivity]).
Qed.

End TokenCount.

(** The routing table of the health report agrees with the router: a tier
    is shown as going to Z.AI exactly when [get_provider_config] gives a
    provider for the models of that tier.  The report never fails, names
    the configured target model, and leaves the breaker as [status] leaves
    it. *)
Theorem health_routing_agrees_with_the_router (cfg : Config) (clock : string -> Z * Z)
        (cb : CircuitBreaker.t) :
  exists h,
    fst (health_check cfg clock cb) = Some h
    /\ snd (health_check cfg clock cb) = snd (CircuitBreaker.status clock cb)
    /\ fst (CircuitBreaker.status clock cb) = Some (circuit_breaker h)
    /\ target_model h = ZAI_TARGET_MODEL cfg
    /\ map fst (routing h) = ["opus"; "sonnet"; "haiku"]
    /\ forall model tier,
        _detect_tier model = Some tier ->
        Dict.get tier (routing h)
        = Some match get_provider_config cfg model with
               | Some _ => "Z.AI"
               | None => "Anthropic (OAuth)"
               end.
Proof.
  unfold health_check, CircuitBreaker.status. rewrite !status_loop_cons.
  cbn [CircuitBreaker.status_loop fmap option_fmap option_map fst snd].
  eexists. split; [reflexivity|]. split; [reflexivity|]. split; [reflexivity|].
  split; [reflexivity|]. split; [reflexivity|].
  intros model tier Ht. cbn [routing].
  destruct (provider_settings cfg model tier Ht) as [Hset _].
  unfold routed.
  assert (Hp : env_set (fst (tier_settings cfg tier))
               = match get_provider_config cfg model with Some _ => true | None => false end).
  { destruct (get_provider_config cfg model) as [p|].
    - apply Hset. eauto.
    - destruct (env_set (fst (tier_settings cfg tier))); [|reflexivity].
      destruct (proj2 Hset eq_refl) as [p [=]]. }
  unfold tier_settings in Hp.
  destruct (detect_tier_names model tier Ht) as [->|[->| ->]];
    cbn [String.eqb Ascii.eqb Bool.eqb fst] in Hp; simpl; rewrite Hp;
    now destruct (get_provider_config cfg model).
Qed.

(** ** The breaker during a request *)

Lemma view_record_failure (t' t : string) (now : Z) (cb : CircuitBreaker.t) :
  t <> t' -> view t' (CircuitBreaker.record_failure now t cb) = view t' cb.
Proof. intros H. exact (step_other t' (CircuitBreaker.RecordFailure now t) cb H). Qed.

Lemma view_record_success (t' t : string) (cb : CircuitBreaker.t) :
  t <> t' -> view t' (CircuitBreaker.record_success t cb) = view t' cb.
Proof. intros H. exact (step_other t' (CircuitBreaker.RecordSuccess t) cb H). Qed.

Lemma failures_record_failure (t : string) (now : Z) (cb : CircuitBreaker.t) :
  CircuitBreaker.failures t (CircuitBreaker.record_failure now t cb)
  = CircuitBreaker.failures t cb + 1.
Proof.
  unfold CircuitBreaker.failures, CircuitBreaker.record_failure. simpl.
  now rewrite lookup_insert_eq.
Qed.

Section BreakerInLoop.

Variable py_float : string -> option (Z * Z).
Variable cfg : Config.
Variable env : world.
Variable is_streaming : bool.
Variable tier : option string.
Variable target : upstream.
Variable target_url : string.
Variable target_headers : headers.
Variables data original_data : dict.
Variable original_headers : headers.

Lemma view_after_failure (t' : string) (st : state) :
  tier <> Some t' ->
  view t' (breaker (record_failure env tier st)) = view t' (breaker st).
Proof.
  intros H. destruct tier as [t|]; [|reflexivity]. simpl.
  apply view_record_failure. congruence.
Qed.

Lemma view_after_success (t' : string) (st : state) :
  tier <> Some t' ->
  view t' (breaker (record_success tier st)) = view t' (breaker st).
Proof.
  intros H. destruct tier as [t|]; [|reflexivity]. simpl.
  apply view_record_success. congruence.
Qed.

(** One pass through the loop body leaves every other tier as it is. *)
Lemma one_attempt_other_tier (is_zai_route : bool) (t' : string) (attempt : Z)
      (st st' : state) (res : option reply) :
  tier <> Some t' ->
  one_attempt py_float cfg env is_streaming is_zai_route tier target target_url
              target_headers data original_data original_headers attempt st = (res, st') ->
  view t' (breaker st') = view t' (breaker st).
Proof.
  intros Hne.
  unfold one_attempt, stream_attempt, post_attempt, on_exception, backoff, send, sleep.
  intros H.
  repeat match type of H with
         | context [if ?b then _ else _] => destruct b eqn:?
         | context [match ?x with _ => _ end] => destruct x eqn:?
         end.
  all: injection H as <- <-.
  all: repeat (cbn [breaker]; rewrite ?view_after_failure, ?view_after_success by exact Hne).
  all: reflexivity.
Qed.

(** On the primary route a pass records nothing at all. *)
Lemma one_attempt_primary (attempt : Z) (st st' : state) (res : option reply) :
  one_attempt py_float cfg env is_streaming false tier target target_url
              target_headers data original_data original_headers attempt st = (res, st') ->
  breaker st' = breaker st.
Proof.
  unfold one_attempt, stream_attempt, post_attempt, on_exception, backoff, send, sleep.
  cbv beta iota. intros H.
  repeat match type of H with
         | context [if ?b then _ else _] => destruct b eqn:?
         | context [match ?x with _ => _ end] => destruct x eqn:?
         end.
  all: injection H as <- <-.
  all: try reflexivity.
  all: exfalso;
    repeat match goal with
           | E : context [_ && false] |- _ => rewrite andb_false_r in E; simpl in E
           end; discriminate.
Qed.

Lemma attempts_other_tier (is_zai_route : bool) (t' : string) (left : nat) :
  tier <> Some t' ->
  forall (attempt : Z) (st st' : state) (r : reply),
    attempts py_float cfg env is_streaming is_zai_route tier target target_url
             target_headers data original_data original_headers left attempt st = (r, st') ->
    view t' (breaker st') = view t' (breaker st).
Proof.
  intros Hne. induction left as [|left IH]; intros attempt st st' r; simpl.
  - now intros [= <- <-].
  - destruct (one_attempt _ _ _ _ _ _ _ _ _ _ _ _ _ _) as [[reply|] st1] eqn:Hstep;
      apply (one_attempt_other_tier _ t') in Hstep; try exact Hne.
    + now intros [= <- <-].
    + intros Hrun. apply IH in Hrun. congruence.
Qed.

Lemma attempts_primary (left : nat) :
  forall (attempt : Z) (st st' : state) (r : reply),
    attempts py_float cfg env is_streaming false tier target target_url
             target_headers data original_data original_headers left attempt st = (r, st') ->
    breaker st' = breaker st.
Proof.
  induction left as [|left IH]; intros attempt st st' r; simpl.
  - now intros [= <- <-].
  - destruct (one_attempt _ _ _ _ _ _ _ _ _ _ _ _ _ _) as [[reply|] st1] eqn:Hstep;
      apply one_attempt_primary in Hstep.
    + now intros [= <- <-].
    + intros Hrun. apply IH in Hrun. congruence.
Qed.

(** The first answer of the target, when it is not an error, ends the
    loop. *)
Lemma first_success (is_zai_route : bool) (left : nat) (attempt : Z) (st : state)
      (r : response) :
  answer env (nsent st) = Returns r ->
  status_code r < 400 ->
  attempts py_float cfg env is_streaming is_zai_route tier target target_url
           target_headers data original_data original_headers (S left) attempt st
  = (if is_streaming then StreamingResponse r else relay r,
     let st1 := snd (send env (target_request is_streaming target target_url
                                              target_headers data) st) in
     if is_zai_route then record_success tier st1 else st1).
Proof.
  intros Ha Hlt. simpl.
  unfold one_attempt, stream_attempt, post_attempt, send. rewrite Ha.
  assert (H1 : (400 <=? status_code r) = false) by lia.
  assert (H2 : (status_code r =? 429) = false) by lia.
  assert (H3 : (status_code r <? 400) = true) by lia.
  destruct is_streaming; rewrite ?H1, ?H2, ?H3; simpl; destruct is_zai_route; reflexivity.
Qed.

End BreakerInLoop.

Section BreakerInHandler.

Variable py_float : string -> option (Z * Z).
Variable cfg : Config.
Variable env : world.

Local Abbreviation handler := (proxy_messages py_float cfg env).

(** What routing itself does to the breaker. *)
Lemma resolve_breaker (cb cb' : CircuitBreaker.t) (model : string) (body : dict)
      (route : option provider) :
  resolve cfg env cb model body = Some (route, cb') ->
  (route = None -> cb' = cb)
  /\ (forall t, _detect_tier model <> Some t -> view t cb' = view t cb).
Proof.
  rewrite resolve_eq.
  destruct (get_provider_config cfg model) as [p|]; [|now intros [= <- <-]].
  destruct (bypass_reason body) as [[r|]|]; [now intros [= <- <-] | | discriminate].
  destruct (_detect_tier model) as [tier|]; [|now intros [= <- <-]].
  destruct (CircuitBreaker.is_open (clock env 0) tier cb) as [[|] cb1] eqn:Eo;
    intros [= <- <-].
  - unfold CircuitBreaker.is_open in Eo.
    destruct (CircuitBreaker._opened_at cb !! tier); [|discriminate Eo].
    destruct (_ <=? _); [discriminate Eo|]. injection Eo as <-. now split.
  - split; [discriminate|]. intros t Ht.
    change cb1 with (snd (false, cb1)). rewrite <- Eo.
    apply view_is_open_other. congruence.
Qed.

(** A request changes nothing in the breaker but the entry of its own
    tier, and a request that is routed to the primary provider changes
    nothing at all: no failure of Anthropic is ever counted, whatever the
    answers, and no success there resets a count. *)
Theorem a_request_touches_only_its_tier
        (cb cb' : CircuitBreaker.t) (body : dict) (hs : headers)
        (model : string) (route : option provider) :
  model_of body = Some model ->
  resolve cfg env cb model body = Some (route, cb') ->
  let out := handler cb body hs in
  (route = None -> breaker (snd out) = cb)
  /\ (forall t, _detect_tier model <> Some t -> view t (breaker (snd out)) = view t cb).
Proof.
  intros Hm Hr. cbv zeta.
  destruct (resolve_breaker cb cb' model body route Hr) as [Hnone Hother].
  unfold proxy_messages. unfold model_of in Hm.
  destruct (default (JStr "") (Dict.get "model" body)) as [| | | |m| |];
    try discriminate Hm.
  injection Hm as ->. rewrite Hr. destruct route as [p|].
  - split; [discriminate|]. intros t Ht.
    destruct (sanitize_for_zai _) as [data|]; [|now apply Hother].
    destruct (attempts _ _ _ _ _ _ _ _ _ _ _ _ _ _ _) as [r st'] eqn:Heq.
    eapply (attempts_other_tier) with (t' := t) in Heq; [|exact Ht].
    simpl in *. rewrite Heq. now apply Hother.
  - destruct (attempts _ _ _ _ _ _ _ _ _ _ _ _ _ _ _) as [r st'] eqn:Heq.
    apply attempts_primary in Heq. simpl in *. rewrite Heq.
    split; [intros _; now apply Hnone | exact Hother].
Qed.

End BreakerInHandler.

(** The theorem on a sonnet request sent to Z.AI that times out three
    times and is answered by the fall-back call: the haiku and opus
    entries are as before. *)
Lemma a_request_touches_only_its_tier_witness :
  let env := {| answer := fun n => if (n <? 3)%nat then Raises ReadTimeout
                                   else reply_with 200 "ok";
                clock := fun _ => 50 |} in
  let cb := CircuitBreaker.run [CircuitBreaker.RecordFailure 10 "haiku"]
                               (CircuitBreaker.init 5 120) in
  let body := [("model", JStr "claude-sonnet-4-6")] in
  let out := proxy_messages (fun _ => None) sonnet_on_zai env cb body [] in
  let route := Some {| api_key := Some "key"; base_url := "https://api.z.ai";
                       provider_label := "Sonnet->Z.AI" |} in
  CircuitBreaker.failures "sonnet" (breaker (snd out)) = 3
  /\ (route = None -> breaker (snd out) = cb)
  /\ (forall t, _detect_tier "claude-sonnet-4-6" <> Some t ->
                view t (breaker (snd out)) = view t cb).
Proof.
  intros env cb body out route. split; [reflexivity|].
  apply (a_request_touches_only_its_tier (fun _ => None) sonnet_on_zai env cb cb body []
           "claude-sonnet-4-6" route); reflexivity.
Defined.

Section FirstAnswer.

Variable py_float : string -> option (Z * Z).
Variable cfg : Config.
Variable env : world.

Local Abbreviation handler := (proxy_messages py_float cfg env).

(** When the first call is answered with a status below 400, the client
    gets that answer and nothing else happens: one call, no sleep.  A
    buffered answer is relayed with its body and status, and its headers
    less the three encoding headers; a streaming one is passed on as a
    stream.  On the secondary route the success resets the failure count
    of the tier; on the primary route the breaker is not touched. *)
Theorem success_is_relayed_at_once
        (cb cb' : CircuitBreaker.t) (body : dict) (hs : headers)
        (model : string) (route : option provider) (r : response) :
  model_of body = Some model ->
  resolve cfg env cb model body = Some (route, cb') ->
  0 < MAX_RETRIES cfg ->
  answer env 0 = Returns r ->
  status_code r < 400 ->
  let out := handler cb body hs in
  fst out = (if stream_of body then StreamingResponse r
             else Response (content r) (status_code r)
                           (strip_encoding_headers (resp_headers r)))
  /\ (exists rq, trace (snd out) = [Sent rq] /\ dest rq = upstream_of route)
  /\ breaker (snd out)
     = match route, _detect_tier model with
       | Some _, Some tier => CircuitBreaker.record_success tier cb'
       | _, _ => cb'
       end.
Proof.
  intros Hm Hr Hpos Ha Hlt. cbv zeta.
  destruct (Z.to_nat (MAX_RETRIES cfg)) as [|left] eqn:En; [lia|].
  unfold proxy_messages, stream_of. unfold model_of in Hm.
  destruct (default (JStr "") (Dict.get "model" body)) as [| | | |m| |];
    try discriminate Hm.
  injection Hm as ->. rewrite Hr. destruct route as [p|].
  - destruct (compatible_is_sanitizable body (JStr (ZAI_TARGET_MODEL cfg))) as [data ->].
    { now apply resolve_secondary in Hr as (_ & Hb & _). }
    rewrite En. erewrite first_success; [|exact Ha|exact Hlt].
    cbn [fst snd]. split; [reflexivity|]. split.
    + eexists. destruct (_detect_tier model); simpl; split; reflexivity.
    + now destruct (_detect_tier model).
  - rewrite En. erewrite first_success; [|exact Ha|exact Hlt].
    cbn [fst snd]. split; [reflexivity|]. split.
    + eexists. simpl. split; reflexivity.
    + now destruct (_detect_tier model).
Qed.

(** Half-open: the first request that arrives once [recovery_time] has
    elapsed since the opening goes to the secondary provider again.  The
    check closes the circuit for good and resets the count of the tier, so
    that the request is not on probation: it takes [threshold] new
    failures to open the circuit again. *)
Theorem elapsed_recovery_restores_the_route
        (cb : CircuitBreaker.t) (body : dict) (model tier : string) (p : provider)
        (opened : Z) :
  get_provider_config cfg model = Some p ->
  _detect_tier model = Some tier ->
  bypass_reason body = Some None ->
  CircuitBreaker._opened_at cb !! tier = Some opened ->
  CircuitBreaker.recovery_time cb <= clock env 0 - opened ->
  exists cb',
    resolve cfg env cb model body = Some (Some p, cb')
    /\ CircuitBreaker.failures tier cb' = 0
    /\ CircuitBreaker._opened_at cb' !! tier = None
    /\ CircuitBreaker.threshold cb' = CircuitBreaker.threshold cb
    /\ (forall now, CircuitBreaker.is_open now tier cb' = (false, cb'))
    /\ (forall t, t <> tier -> view t cb' = view t cb).
Proof.
  intros Hp Ht Hb Ho Hle.
  exists (snd (CircuitBreaker.is_open (clock env 0) tier cb)).
  destruct (is_open_when_open tier cb opened (clock env 0) Ho) as (Hf & _ & Hreset).
  destruct (Hreset Hle) as [Hcount Hclosed].
  split; [|split; [exact Hcount|split; [exact Hclosed|split; [|split]]]].
  - rewrite resolve_eq, Hp, Hb, Ht.
    destruct (CircuitBreaker.is_open (clock env 0) tier cb) as [o cb1] eqn:Eo.
    simpl in Hf. apply Hf in Hle. now subst o.
  - unfold CircuitBreaker.is_open. rewrite Ho. now destruct (_ <=? _).
  - intros now. unfold CircuitBreaker.is_open at 1. now rewrite Hclosed.
  - intros t Hne. apply view_is_open_other. congruence.
Qed.

End FirstAnswer.

(** The two theorems on a sonnet request: answered 200 by Z.AI at the
    first call; and arriving 130 seconds after the circuit of its tier
    opened, with a recovery time of 120. *)
Lemma success_is_relayed_at_once_witness :
  let env := always (reply_with 200 "ok") in
  let cb := CircuitBreaker.run [CircuitBreaker.RecordFailure 10 "sonnet"]
                               (CircuitBreaker.init 5 120) in
  let body := [("model", JStr "claude-sonnet-4-6"); ("max_tokens", JInt 16)] in
  let p := {| api_key := Some "key"; base_url := "https://api.z.ai";
              provider_label := "Sonnet->Z.AI" |} in
  let out := proxy_messages (fun _ => None) sonnet_on_zai env cb body [] in
  CircuitBreaker.failures "sonnet" cb = 1
  /\ CircuitBreaker.failures "sonnet" (breaker (snd out)) = 0
  /\ fst out = Response "ok" 200 []
  /\ (exists rq, trace (snd out) = [Sent rq] /\ dest rq = ZAI)
  /\ breaker (snd out) = CircuitBreaker.record_success "sonnet" cb.
Proof.
  intros env cb body p out. split; [reflexivity|]. split; [reflexivity|].
  apply (success_is_relayed_at_once (fun _ => None) sonnet_on_zai env cb cb body []
           "claude-sonnet-4-6" (Some p)
           {| status_code := 200; content := "ok"; resp_headers := [] |});
    [reflexivity | reflexivity | reflexivity | reflexivity | reflexivity].
Defined.

Lemma elapsed_recovery_restores_the_route_witness :
  let env := {| answer := fun _ => reply_with 200 "ok"; clock := fun _ => 150 |} in
  let cb := CircuitBreaker.run [CircuitBreaker.RecordFailure 10 "sonnet";
                                CircuitBreaker.RecordFailure 20 "sonnet"]
                               (CircuitBreaker.init 2 120) in
  let body := [("model", JStr "claude-sonnet-4-6")] in
  let p := {| api_key := Some "key"; base_url := "https://api.z.ai";
              provider_label := "Sonnet->Z.AI" |} in
  fst (CircuitBreaker.is_open 139 "sonnet" cb) = true
  /\ exists cb',
      resolve sonnet_on_zai env cb "claude-sonnet-4-6" body = Some (Some p, cb')
      /\ CircuitBreaker.failures "sonnet" cb' = 0
      /\ CircuitBreaker._opened_at cb' !! "sonnet" = None
      /\ CircuitBreaker.threshold cb' = CircuitBreaker.threshold cb
      /\ (forall now, CircuitBreaker.is_open now "sonnet" cb' = (false, cb'))
      /\ (forall t, t <> "sonnet" -> view t cb' = view t cb).
Proof.
  intros env cb body p. split; [reflexivity|].
  apply (elapsed_recovery_restores_the_route sonnet_on_zai env cb body
           "claude-sonnet-4-6" "sonnet" p 20).
  - reflexivity.
  - reflexivity.
  - reflexivity.
  - reflexivity.
  - simpl. lia.
Defined.

Section RaisingFallback.

Variable py_float : string -> option (Z * Z).
Variable cfg : Config.
Variable env : world.
Variable is_streaming : bool.
Variable t : string.
Variable target_url : string.
Variable target_headers : headers.
Variables data original_data : dict.
Variable original_headers : headers.

Local Abbreviation treq := (target_request is_streaming ZAI target_url target_headers data).
Local Abbreviation freq := (fallback_request original_data original_headers).
Local Abbreviation loop :=
  (attempts py_float cfg env is_streaming true (Some t) ZAI target_url
            target_headers data original_data original_headers).

(** A fall-back call that raises is not the end of the request.  After a
    masked failure of the secondary provider, let the fall-back call to
    the primary provider end in a timeout or in an error other than an
    HTTP status error, with an attempt left.  The exception is handled by
    the [except] clauses of the loop as if the target had raised it: the
    handler backs off and goes on with the next attempt against the
    secondary provider.  The masked failure has been recorded for the
    tier, and a read timeout of the primary provider is recorded for it as
    well, as a second failure of the same attempt. *)
Theorem raising_fallback_is_retried (left : nat) (attempt : Z) (st : state)
        (r : response) (e : exn) :
  answer env (nsent st) = Returns r ->
  counts_as_masked is_streaming r = true ->
  answer env (S (nsent st)) = Raises e ->
  (forall r', e <> HTTPStatusError r') ->
  more cfg attempt = true ->
  exists st',
    loop (S left) attempt st = loop left (attempt + 1) st'
    /\ trace st' = trace st ++ [Sent treq; Sent (freq is_streaming); Slept (Backoff attempt)]
    /\ nsent st' = S (S (nsent st))
    /\ CircuitBreaker.failures t (breaker st')
       = CircuitBreaker.failures t (breaker st)
         + (if read_timeout (Raises e) then 2 else 1).
Proof.
  intros Ha Hm He Hne Hmore.
  destruct (fallen_back_state env is_streaming (Some t) target_url target_headers data
              original_data original_headers st) as (Htr & Hn & Hb).
  assert (Hstep : one_attempt py_float cfg env is_streaming true (Some t) ZAI target_url
                    target_headers data original_data original_headers attempt st
                  = on_exception cfg env true (Some t) original_data original_headers e attempt
                      (fallen_back env is_streaming (Some t) target_url target_headers data
                                   original_data original_headers st)).
  { rewrite (step_masked py_float cfg env is_streaming (Some t) target_url target_headers
               data original_data original_headers attempt st r Ha Hm).
    now rewrite He. }
  cbn [attempts]. rewrite Hstep. unfold on_exception, backoff. rewrite Hmore.
  destruct e as [| |r'|msg]; [| | now elim (Hne r') |]; eexists;
    (split; [reflexivity|]);
    cbn [trace nsent breaker sleep record_failure read_timeout];
    rewrite Htr, Hn, Hb, <- ?app_assoc, ?failures_record_failure;
    (split; [reflexivity|]); (split; [reflexivity|]); lia.
Qed.

End RaisingFallback.

(** The theorem on a buffered request whose call to Z.AI is answered 500
    with the marker in its body, the fall-back call timing out on read:
    two failures are recorded for the one attempt. *)
Lemma raising_fallback_is_retried_witness :
  let env := {| answer := fun n =>
                            match n with
                            | O => reply_with 500 marker_tight
                            | S O => Raises ReadTimeout
                            | _ => reply_with 200 "ok"
                            end;
                clock := fun _ => 0 |} in
  let st := {| breaker := CircuitBreaker.init 5 120; trace := []; nsent := 0 |} in
  let run := attempts (fun _ => None) sonnet_on_zai env false true (Some "sonnet") ZAI
                      "https://api.z.ai/v1/messages" [] [] [] [] in
  fst (run 3%nat 0 st) = Response "ok" 200 []
  /\ CircuitBreaker.failures "sonnet" (breaker (snd (run 3%nat 0 st))) = 0
  /\ exists st',
      run 3%nat 0 st = run 2%nat (0 + 1) st'
      /\ trace st'
         = trace st ++ [Sent (target_request false ZAI "https://api.z.ai/v1/messages" [] []);
                        Sent (fallback_request [] [] false); Slept (Backoff 0)]
      /\ nsent st' = S (S (nsent st))
      /\ CircuitBreaker.failures "sonnet" (breaker st')
         = CircuitBreaker.failures "sonnet" (breaker st) + 2.
Proof.
  intros env st run. split; [reflexivity|]. split; [reflexivity|].
  apply (raising_fallback_is_retried (fun _ => None) sonnet_on_zai env false "sonnet"
           "https://api.z.ai/v1/messages" [] [] [] [] 2 0 st
           {| status_code := 500; content := marker_tight; resp_headers := [] |}
           ReadTimeout);
    [reflexivity | reflexivity | reflexivity | discriminate | reflexivity].
Defined.

(** ** Timeouts and the breaker *)


Lemma read_timeouts_S (env : world) (from n : nat) :
  read_timeouts env from (S n)
  = ((if read_timeout (answer env from) then 1 else 0) + read_timeouts env (S from) n)%nat.
Proof. unfold read_timeouts. simpl. now destruct (read_timeout (answer env from)). Qed.

Section TimeoutsAndBreaker.

Variable py_float : string -> option (Z * Z).
Variable cfg : Config.
Variable env : world.
Variable is_streaming : bool.
Variable t : string.
Variable target_url : string.
Variable target_headers : headers.
Variables data original_data : dict.
Variable original_headers : headers.

Local Abbreviation step :=
  (one_attempt py_float cfg env is_streaming true (Some t) ZAI target_url
               target_headers data original_data original_headers).
Local Abbreviation loop :=
  (attempts py_float cfg env is_streaming true (Some t) ZAI target_url
            target_headers data original_data original_headers).

(** What a pass that ends in a timeout records: one failure for a read
    timeout of a buffered request, nothing otherwise. *)
Lemma step_timeout_breaker (attempt : Z) (st : state) :
  timeout (answer env (nsent st)) = true ->
  breaker (snd (step attempt st))
  = if negb is_streaming && read_timeout (answer env (nsent st))
    then CircuitBreaker.record_failure (clock env (S (nsent st))) t (breaker st)
    else breaker st.
Proof.
  intros Ht.
  unfold one_attempt, stream_attempt, post_attempt, on_exception, backoff, send.
  destruct (answer env (nsent st)) as [r|[| |r|msg]] eqn:Ha; try discriminate Ht;
    destruct (more cfg attempt), is_streaming; simpl; try reflexivity;
    now destruct (answer env (S (nsent st))).
Qed.

Lemma timeouts_breaker (left : nat) :
  forall (attempt : Z) (st : state),
    Z.of_nat (S left) + attempt = MAX_RETRIES cfg ->
    (forall i, (i <= left)%nat -> timeout (answer env (nsent st + i)) = true) ->
    let st' := snd (loop (S left) attempt st) in
    (is_streaming = true -> breaker st' = breaker st)
    /\ CircuitBreaker.failures t (breaker st')
       = CircuitBreaker.failures t (breaker st)
         + (if is_streaming then 0
            else Z.of_nat (read_timeouts env (nsent st) (S left))).
Proof.
  assert (Hone : forall attempt st,
             timeout (answer env (nsent st)) = true ->
             (is_streaming = true -> breaker (snd (step attempt st)) = breaker st)
             /\ CircuitBreaker.failures t (breaker (snd (step attempt st)))
                = CircuitBreaker.failures t (breaker st)
                  + (if is_streaming then 0
                     else if read_timeout (answer env (nsent st)) then 1 else 0)).
  { intros attempt st Ht. rewrite (step_timeout_breaker attempt st Ht).
    destruct is_streaming; simpl; [split; [reflexivity | lia]|].
    split; [discriminate|].
    destruct (read_timeout (answer env (nsent st)));
      [apply failures_record_failure | lia]. }
  induction left as [|left IH]; intros attempt st Hmax Hto; cbv zeta.
  - pose proof (more_iff cfg 0 attempt Hmax) as Hm. simpl in Hm.
    pose proof (Hto 0%nat (Nat.le_refl _)) as H0. rewrite Nat.add_0_r in H0.
    destruct (step_timeout_last py_float cfg env is_streaming true (Some t) ZAI target_url
                target_headers data original_data original_headers attempt st H0 Hm)
      as (reply & st' & Hstep & _).
    destruct (Hone attempt st H0) as [Hs Hf].
    cbn [attempts]. rewrite Hstep in *. cbn [snd] in *.
    split; [exact Hs|]. rewrite Hf, read_timeouts_S. unfold read_timeouts. simpl.
    destruct is_streaming; [reflexivity|].
    destruct (read_timeout (answer env (nsent st))); reflexivity.
  - pose proof (more_iff cfg (S left) attempt Hmax) as Hm. simpl in Hm.
    pose proof (Hto 0%nat ltac:(lia)) as H0. rewrite Nat.add_0_r in H0.
    destruct (step_timeout_more py_float cfg env is_streaming true (Some t) ZAI target_url
                target_headers data original_data original_headers attempt st H0 Hm)
      as (st1 & Hstep & _ & Hn1).
    destruct (Hone attempt st H0) as [Hs Hf]. rewrite Hstep in Hs, Hf. cbn [snd] in Hs, Hf.
    destruct (IH (attempt + 1) st1) as [Hs' Hf'].
    { rewrite Nat2Z.inj_succ in *. lia. }
    { intros i Hi. rewrite Hn1.
      replace (S (nsent st) + i)%nat with (nsent st + S i)%nat by lia. apply Hto. lia. }
    change (loop (S (S left)) attempt st) with
      (match step attempt st with
       | (Some reply, st) => (reply, st)
       | (None, st) => loop (S left) (attempt + 1) st
       end).
    rewrite Hstep. split.
    + intros E. rewrite (Hs' E). exact (Hs E).
    + rewrite Hf', Hf, Hn1, (read_timeouts_S env (nsent st) (S left)).
      destruct is_streaming; [lia|].
      destruct (read_timeout (answer env (nsent st))); lia.
Qed.

(** When every call to the secondary provider times out, the breaker
    counts the read timeouts of a buffered request, one failure each, and
    nothing else: a connect timeout is never a failure, and no timeout of
    a streaming request is one, so that timeouts of streaming requests
    alone never open the circuit. *)
Theorem breaker_counts_buffered_read_timeouts_only (n : nat) (st : state) :
  MAX_RETRIES cfg = Z.of_nat (S n) ->
  (forall i, (i <= n)%nat -> timeout (answer env (nsent st + i)) = true) ->
  let st' := snd (loop (Z.to_nat (MAX_RETRIES cfg)) 0 st) in
  (is_streaming = true -> breaker st' = breaker st)
  /\ CircuitBreaker.failures t (breaker st')
     = CircuitBreaker.failures t (breaker st)
       + (if is_streaming then 0 else Z.of_nat (read_timeouts env (nsent st) (S n))).
Proof.
  intros Hmax Hto. rewrite Hmax, Nat2Z.id. apply timeouts_breaker; [lia | exact Hto].
Qed.

End TimeoutsAndBreaker.

(** The theorem on two requests to Z.AI whose three calls time out, a
    read timeout between two connect timeouts: the buffered one records
    one failure, the streaming one none. *)
Lemma breaker_counts_buffered_read_timeouts_only_witness :
  let env := {| answer := fun n => match n with
                                   | 1%nat => Raises ReadTimeout
                                   | _ => Raises ConnectTimeout
                                   end;
                clock := fun _ => 0 |} in
  let st := {| breaker := CircuitBreaker.init 5 120; trace := []; nsent := 0 |} in
  let run := fun is_streaming =>
               attempts (fun _ => None) sonnet_on_zai env is_streaming true (Some "sonnet")
                        ZAI "https://api.z.ai/v1/messages" [] [] [] []
                        (Z.to_nat (MAX_RETRIES sonnet_on_zai)) 0 st in
  ((true = true -> breaker (snd (run true)) = breaker st)
   /\ CircuitBreaker.failures "sonnet" (breaker (snd (run true)))
      = CircuitBreaker.failures "sonnet" (breaker st) + 0)
  /\ ((false = true -> breaker (snd (run false)) = breaker st)
      /\ CircuitBreaker.failures "sonnet" (breaker (snd (run false)))
         = CircuitBreaker.failures "sonnet" (breaker st) + 1).
Proof.
  intros env st run. split.
  - apply (breaker_counts_buffered_read_timeouts_only (fun _ => None) sonnet_on_zai env true
             "sonnet" "https://api.z.ai/v1/messages" [] [] [] [] 2 st); [reflexivity|].
    intros [|[|[|i]]] Hi; try reflexivity; lia.
  - apply (breaker_counts_buffered_read_timeouts_only (fun _ => None) sonnet_on_zai env false
             "sonnet" "https://api.z.ai/v1/messages" [] [] [] [] 2 st); [reflexivity|].
    intros [|[|[|i]]] Hi; try reflexivity; lia.
Defined.

(** ** The sanitized payload still passes the compatibility tests *)

Lemma existsb_map {A B : Type} (f : B -> bool) (g : A -> B) (l : list A) :
  existsb f (map g l) = existsb (fun a => f (g a)) l.
Proof. induction l as [|a l IH]; simpl; [reflexivity | now rewrite IH]. Qed.

Lemma existsb_pointwise {A : Type} (f g : A -> bool) (l : list A) :
  (forall a, f a = g a) -> existsb f l = existsb g l.
Proof. intros H. induction l as [|a l IH]; simpl; [reflexivity | now rewrite H, IH]. Qed.

Lemma image_block_strip_block (b : json) : image_block (strip_block b) = image_block b.
Proof.
  destruct b as [| | | | | |d]; try reflexivity.
  unfold image_block, strip_block. now rewrite !get_pop_other by reflexivity.
Qed.

Lemma image_message_strip_message (m : json) :
  image_message (strip_message m) = image_message m.
Proof.
  destruct m as [| | | | | |d]; try reflexivity.
  unfold image_message, strip_message.
  rewrite get_alter_same, get_pop_other by reflexivity.
  destruct (Dict.get "content" d) as [[| | | | |content|]|]; try reflexivity.
  simpl. rewrite existsb_map. apply existsb_pointwise. intros b. apply image_block_strip_block.
Qed.

(** Removing [cache_control] does not change whether a payload has an
    image. *)
Lemma sanitized_images (x y : dict) :
  sanitize_for_zai x = Some y -> _has_image_content y = _has_image_content x.
Proof.
  intros E. apply sanitize_Some in E as (-> & _ & _).
  unfold _has_image_content. rewrite get_stripped. simpl. rewrite get_sanitized_messages.
  destruct (Dict.get "messages" x) as [[| | | | |msgs|]|]; try reflexivity.
  simpl. f_equal. rewrite existsb_map. apply existsb_pointwise. intros m.
  apply image_message_strip_message.
Qed.

(** The sanitizer removes a [tool_choice] or leaves it as it is. *)
Lemma sanitized_tool_choice (x y : dict) :
  sanitize_for_zai x = Some y ->
  Dict.get "tool_choice" y = None \/ Dict.get "tool_choice" y = Dict.get "tool_choice" x.
Proof.
  intros E. apply sanitize_Some in E as (-> & _ & _).
  rewrite get_stripped. simpl. rewrite get_strip_tools, !get_first_steps. simpl.
  destruct (Dict.get "tools" x) as [[| | | | |ts|]|]; try (now right).
  destruct (List.filter not_web_search ts); [now left|].
  unfold surviving_tool_choice.
  destruct (Dict.get "tool_choice" x) as [[| | | | | |c]|]; try (now right).
  destruct (eq_str _ _); [now left | now right].
Qed.

Lemma sanitized_web_search (x y : dict) :
  sanitize_for_zai x = Some y -> _has_web_search y = Some false.
Proof.
  intros E. pose proof (sanitized_tools x y E) as Ht.
  assert (Hit : is_Some (py_iter (default (JList []) (Dict.get "tools" x)))).
  { apply (proj1 (sanitize_is_Some x)). rewrite E. eauto. }
  unfold _has_web_search. rewrite Ht.
  destruct (Dict.get "tools" x) as [[| | | |s|ts|kvs]|]; simpl in *;
    try (destruct Hit as [? [=]]); try reflexivity.
  - f_equal. rewrite <- (map_map (fun c => String c EmptyString) JStr).
    now apply existsb_strings.
  - destruct (List.filter not_web_search ts) eqn:Ef; [reflexivity|].
    pose proof (kept_tools_not_web_search ts) as Hk. rewrite Ef in Hk.
    simpl in Hk. simpl. now rewrite Hk.
  - f_equal. rewrite <- (map_map fst JStr). now apply existsb_strings.
Qed.

Section SecondaryPayload.

Variable py_float : string -> option (Z * Z).
Variable cfg : Config.
Variable env : world.

(** The secondary provider is never sent what it cannot handle: the
    payload of every call made to it, as it is after the model has been
    rewritten and the sanitizer has run, has no web-search tool, no image
    in a message and no forced tool choice.  The three tests the handler
    applies to the request hold of what is sent. *)
Theorem secondary_payload_passes_the_tests (cb : CircuitBreaker.t) (body : dict)
        (hs : headers) :
  Forall (fun rq =>
            dest rq = ZAI ->
            _has_web_search (payload rq) = Some false
            /\ _has_image_content (payload rq) = Some false
            /\ _has_forced_tool_choice (payload rq) = false)
         (sends (trace (snd (proxy_messages py_float cfg env cb body hs)))).
Proof.
  eapply Forall_impl; [apply zai_calls|]. cbv beta.
  intros rq H Hd. destruct (H Hd) as (model & p & cb' & data & Hm & Hr & Hsan & ->).
  apply resolve_secondary in Hr as (_ & Hb & _).
  apply bypass_reason_none in Hb as (_ & Hi & Hf).
  cbn [payload target_request].
  split; [exact (sanitized_web_search _ _ Hsan)|]. split.
  - rewrite (sanitized_images _ _ Hsan). unfold _has_image_content in *.
    now rewrite get_set.
  - unfold _has_forced_tool_choice in *.
    destruct (sanitized_tool_choice _ _ Hsan) as [-> | ->]; [reflexivity|].
    now rewrite get_set.
Qed.

End SecondaryPayload.
